(** * Aggregation engine of the incident-insights orchestrator

    A shallow embedding of the metric functions of [disciplineSummary.py]
    ([count_by_grade], [count_by_location], [count_by_subtype],
    [count_by_hour], [count_by_date], [top_students], [top_authors],
    [hourly_location]), of [calculate_summary_metrics], of the grouping
    loop and the naming of [generate_building_reports]
    ([sanitize_building_name]), and of the two writers of the metrics,
    [consolidate_metrics_to_csv] and [write_metrics_to_workbook], followed
    by the properties the specification states about them and by further
    properties read off the code.

    Conventions of the embedding.
    - A record is a Python dict with string keys: [gmap string value].
    - A counting dict is insertion ordered, and its order is observable in the
      output rows, so it is an association list updated in place.
    - Cell values are [None], integers and strings.  Floating point cells
      (in particular the NaN that pandas produces for an empty cell) are
      outside the model.
    - A string holds the UTF-8 encoding of a Python [str].  White space
      ([str.strip], the class [\s]) and decimal digits (the class [\d],
      [int]) are those of Unicode; a class written with brackets, as
      [[0-5]], holds ASCII digits only.  Which characters beyond ASCII are
      decimal digits depends on the Unicode database of the interpreter:
      it is a parameter, [unicode_data], of every function that reads a
      time or a date, and the properties hold for every database.  The
      closed instances of the properties of dates are evaluated with the
      database of Unicode 14.0.
    - An uncaught Python exception is the result [None] of a function that
      returns an [option]; text written by [print] is a list of events.
    - The repository pins no version of pandas.  What [count_by_date]
      takes from the library depends on its version and on the platform in
      three ways: the dates that a [Timestamp] holds, the strings that
      [to_datetime] answers before it reads the format, and the digits that
      [strftime] writes for a year below 1000.  They are the fields of an
      [environment], a parameter of [count_by_date] and of
      [calculate_summary_metrics]; the properties of the two are stated for
      every environment, each under the hypothesis on the records that it
      needs.
    - [write_metrics_to_workbook] is modelled by the calls of [ws.cell] that
      it makes, run against the check that openpyxl makes of a text.
    - A float is held as the rational number it denotes.  The quotient
      [total / n] of [count_by_date] is the binary64 number nearest to the
      exact quotient; [round(_, 2)] rounds that number to the nearest
      hundredth, ties to even, and its result stands for the binary64
      number nearest to that decimal.  Counts of records stay far from the
      exponent bounds of the format, which are not modelled. *)

From Stdlib Require Import ZArith QArith Qabs Lia Ascii String.
From stdpp Require Import base option list strings gmap pretty sorting.

#[global] Set Warnings "-clear-no-such-hyp".

(** ** Python values, strings and built-ins *)

Module Py.

Inductive value : Type :=
| VNone
| VInt (z : Z)
| VStr (s : string).

#[global] Instance value_eq_dec : EqDecision value.
Proof. solve_decision. Defined.

(** [row.get(k, dflt)] *)
Definition get (row : gmap string value) (k : string) (dflt : value) : value :=
  default dflt (row !! k).

(** Truth value of an object in a condition. *)
Definition truthy (v : value) : bool :=
  match v with
  | VNone => false
  | VInt z => negb (z =? 0)%Z
  | VStr EmptyString => false
  | VStr (String _ _) => true
  end.

Definition isinstance_str (v : value) : bool :=
  match v with VStr _ => true | _ => false end.

Definition is_not_None (v : value) : bool :=
  match v with VNone => false | _ => true end.

(** [str(v)] *)
Definition str (v : value) : string :=
  match v with
  | VNone => "None"
  | VInt z => pretty z
  | VStr s => s
  end.

(** *** Characters

    A string holds the UTF-8 encoding of a Python [str]: the characters
    below 128 are single bytes, the others sequences of two to four. *)

(** The six low bits of a continuation byte. *)
Definition continuation (c : ascii) : option N :=
  let b := N_of_ascii c in
  if ((128 <=? b) && (b <? 192))%N then Some (b - 128)%N else None.

(** The first character of a string, as its code point, and the rest;
    [None] on the empty string and where the bytes do not start with the
    encoding of a character. *)
Definition next_char (s : string) : option (N * string) :=
  match s with
  | EmptyString => None
  | String c0 r0 =>
      let b0 := N_of_ascii c0 in
      if (b0 <? 128)%N then Some (b0, r0)
      else if (b0 <? 192)%N then None
      else if (b0 <? 224)%N then
        match r0 with
        | String c1 r1 =>
            match continuation c1 with
            | Some b1 =>
                let cp := ((b0 - 192) * 64 + b1)%N in
                if (128 <=? cp)%N then Some (cp, r1) else None
            | None => None
            end
        | _ => None
        end
      else if (b0 <? 240)%N then
        match r0 with
        | String c1 (String c2 r2) =>
            match continuation c1, continuation c2 with
            | Some b1, Some b2 =>
                let cp := (((b0 - 224) * 64 + b1) * 64 + b2)%N in
                if (2048 <=? cp)%N then Some (cp, r2) else None
            | _, _ => None
            end
        | _ => None
        end
      else if (b0 <? 248)%N then
        match r0 with
        | String c1 (String c2 (String c3 r3)) =>
            match continuation c1, continuation c2, continuation c3 with
            | Some b1, Some b2, Some b3 =>
                let cp := ((((b0 - 240) * 64 + b1) * 64 + b2) * 64 + b3)%N in
                if (65536 <=? cp)%N then Some (cp, r3) else None
            | _, _, _ => None
            end
        | _ => None
        end
      else None
  end.

(** [str.isspace] on one character, which is also the class [\s] of the
    regular expressions: the controls U+0009 to U+000D and U+001C to
    U+001F, the space, U+0085, U+00A0, U+1680, U+2000 to U+200A, U+2028,
    U+2029, U+202F, U+205F and U+3000. *)
Definition isspace (cp : N) : bool :=
  ((9 <=? cp) && (cp <=? 13) || (28 <=? cp) && (cp <=? 32)
   || (cp =? 133) || (cp =? 160) || (cp =? 5760)
   || (8192 <=? cp) && (cp <=? 8202)
   || (cp =? 8232) || (cp =? 8233) || (cp =? 8239) || (cp =? 8287)
   || (cp =? 12288))%N.

(** The rest of a string after one white-space character.  Such a
    character takes one byte, two or three. *)
Definition after_space (s : string) : option string :=
  match next_char s with
  | Some (cp, r) => if isspace cp then Some r else None
  | None => None
  end.

(** [s.lstrip()] *)
Fixpoint lstrip (s : string) : string :=
  match s with
  | EmptyString => EmptyString
  | String _ r1 =>
      match next_char s with
      | Some (cp, _) =>
          if isspace cp then
            if (cp <? 128)%N then lstrip r1
            else
              match r1 with
              | String _ r2 =>
                  if (cp <? 2048)%N then lstrip r2
                  else match r2 with
                       | String _ r3 => lstrip r3
                       | EmptyString => s
                       end
              | EmptyString => s
              end
          else s
      | None => s
      end
  end.

(** [s.rstrip()]: what is left of [s] before its longest end made of
    white-space characters. *)
Fixpoint rstrip (s : string) : string :=
  match s with
  | EmptyString => EmptyString
  | String c r =>
      match lstrip s with
      | EmptyString => EmptyString
      | String _ _ => String c (rstrip r)
      end
  end.

(** [s.strip()] *)
Definition strip (s : string) : string := rstrip (lstrip s).

Fixpoint lstrip_with (p : ascii → bool) (s : string) : string :=
  match s with
  | EmptyString => EmptyString
  | String c r => if p c then lstrip_with p r else s
  end.

(** [s.lstrip("0")] *)
Definition lstrip_zero (s : string) : string :=
  lstrip_with (λ c, Ascii.eqb c "0") s.

Definition lower_char (c : ascii) : ascii :=
  let n := N_of_ascii c in
  if ((65 <=? n) && (n <=? 90))%N then ascii_of_N (n + 32) else c.

(** [s.lower()] *)
Fixpoint lower (s : string) : string :=
  match s with
  | EmptyString => EmptyString
  | String c r => String (lower_char c) (lower r)
  end.

(** The characters beyond ASCII that are decimal digits are those of the
    Unicode database of the interpreter, which gains scripts from version
    to version: a parameter of the model.  The digits of a script are ten
    characters in a row, and the database is held as the function that
    gives a character the digit zero of its script, if it may be a digit
    at all. *)
Class unicode_data : Type := Build_unicode_data {
  decimal_zero : N → option N
}.

(** *** Insertion-ordered dicts *)

Section dict.
Context {K V : Type} `{EqDecision K}.

(** [d.get(k)] *)
Fixpoint dict_get (d : list (K * V)) (k : K) : option V :=
  match d with
  | [] => None
  | (k', v) :: d' => if decide (k = k') then Some v else dict_get d' k
  end.

(** [d[k] = v]: an existing key keeps its position, a new key goes last. *)
Fixpoint dict_set (d : list (K * V)) (k : K) (v : V) : list (K * V) :=
  match d with
  | [] => [(k, v)]
  | (k', v') :: d' =>
      if decide (k = k') then (k', v) :: d' else (k', v') :: dict_set d' k v
  end.

Definition dict_keys (d : list (K * V)) : list K := d.*1.

End dict.

(** [d[k] = d.get(k, 0) + 1], and [d[k] += 1] on a [defaultdict(int)]. *)
Definition dict_incr {K} `{EqDecision K} (d : list (K * nat)) (k : K)
    : list (K * nat) :=
  dict_set d k (default 0 (dict_get d k) + 1).

(** *** [sorted]

    [sorted] is stable; a stable sort is determined by its specification,
    so insertion from the right stands for the library's algorithm. *)

Section sorted.
Context {A : Type} (key : A → Z).

Fixpoint insert_asc (x : A) (l : list A) : list A :=
  match l with
  | [] => [x]
  | y :: l' => if (key x <=? key y)%Z then x :: l else y :: insert_asc x l'
  end.

Fixpoint insert_desc (x : A) (l : list A) : list A :=
  match l with
  | [] => [x]
  | y :: l' => if (key y <=? key x)%Z then x :: l else y :: insert_desc x l'
  end.

(** [sorted(l, key=key)] *)
Definition sorted (l : list A) : list A := foldr insert_asc [] l.

(** [sorted(l, key=key, reverse=True)] *)
Definition sorted_reverse (l : list A) : list A := foldr insert_desc [] l.

End sorted.

(** [sorted(l, key=key)] for a key function that may raise: the keys are
    all computed before any comparison is made. *)
Definition sorted_try {A} (key : A → option Z) (l : list A) : option (list A) :=
  ks ← mapM key l;
  Some ((sorted fst (zip ks l)).*2).

(** [l[:n]] *)
Definition slice_to {A} (n : Z) (l : list A) : list A :=
  if (0 <=? n)%Z then take (Z.to_nat n) l
  else take (length l - Z.to_nat (- n)) l.

(** [l.index(x)], raising [ValueError] when [x] is not in [l]. *)
Fixpoint index {A} `{EqDecision A} (l : list A) (x : A) : option Z :=
  match l with
  | [] => None
  | y :: l' => if decide (x = y) then Some 0%Z else Z.succ <$> index l' x
  end.

(** Nearest integer to [n / d] for [0 < d], ties to the even neighbour. *)
Definition round_half_even (n d : Z) : Z :=
  let q := (n / d)%Z in
  let r := (n mod d)%Z in
  if (2 * r <? d)%Z then q
  else if (d <? 2 * r)%Z then (q + 1)%Z
  else if Z.even q then q else (q + 1)%Z.

(** [round(x, 2)] on a float: the decimal with two places nearest to the
    value of [x], ties to even. *)
Definition round2 (x : Q) : Q :=
  Qred (round_half_even (Qnum x * 100) (Zpos (Qden x)) # 100).

(** The binary64 number nearest to [a / b] for [0 ≤ a] and [0 < b], ties
    to the even significand: [e] is the exponent of the quotient, and the
    quotient is rounded to an integer after scaling by [2 ^ (52 - e)],
    which leaves the 53 bits of a significand. *)
Definition float_of_quotient (a b : Z) : Q :=
  if (a =? 0)%Z then 0%Q else
  let d := (Z.log2 a - Z.log2 b)%Z in
  let e := if (if (0 <=? d)%Z then (b * 2 ^ d <=? a)%Z else (b <=? a * 2 ^ (- d))%Z)
           then d else (d - 1)%Z in
  let s := (52 - e)%Z in
  if (0 <=? s)%Z then Qred (round_half_even (a * 2 ^ s) b # Z.to_pos (2 ^ s))
  else Qred ((round_half_even a (b * 2 ^ (- s)) * 2 ^ (- s))%Z # 1).

(** [a / b] on counts, raising [ZeroDivisionError] when [b] is zero. *)
Definition truediv (a b : nat) : option Q :=
  match b with
  | O => None
  | S _ => Some (float_of_quotient (Z.of_nat a) (Z.of_nat b))
  end.

End Py.

(** ** [datetime]: the regular expressions of [strptime], and [strftime] *)

Module Datetime.

Local Open Scope Z_scope.

Record datetime : Type := mk_datetime {
  year : Z; month : Z; day : Z; hour : Z; minute : Z; second : Z
}.

#[global] Instance datetime_eq_dec : EqDecision datetime.
Proof. solve_decision. Defined.

(** A regular expression with one capturing group, run on a suffix of the
    subject: the successes of the backtracking search, in the order the
    search tries them, each with the captured value and the unread rest. *)
Definition matcher (A : Type) : Type := string → list (A * string).

(** The value of an ASCII digit, for the classes written with brackets. *)
Definition digit (c : ascii) : option Z :=
  let n := N_of_ascii c in
  if ((48 <=? n) && (n <=? 57))%N then Some (Z.of_N (n - 48)) else None.

(** The digits zero beyond ASCII of Unicode 14.0, the database of
    CPython 3.11: every decimal digit is one of the ten characters from
    one of them on. *)
Definition decimal_zeros : list N :=
  [1632; 1776; 1984; 2406; 2534; 2662; 2790;
   2918; 3046; 3174; 3302; 3430; 3558; 3664; 3792;
   3872; 4160; 4240; 6112; 6160; 6470; 6608; 6784;
   6800; 6992; 7088; 7232; 7248; 42528; 43216; 43264;
   43472; 43504; 43600; 44016; 65296; 66720; 68912; 69734;
   69872; 69942; 70096; 70384; 70736; 70864; 71248; 71360;
   71472; 71904; 72016; 72784; 73040; 73120; 92768; 92864;
   93008; 120782; 120792; 120802; 120812; 120822; 123200; 123632;
   125264; 130032]%N.

Definition unicode_14 : Py.unicode_data :=
  Py.Build_unicode_data (λ cp,
    head (filter (λ zero, (zero ≤ cp)%N ∧ (cp < zero + 10)%N) decimal_zeros)).

Section unicode.
Context `{U : Py.unicode_data}.

(** The value of a decimal digit, as the class [\d] and [int] take it. *)
Definition decimal (cp : N) : option Z :=
  if (cp <? 128)%N then
    if ((48 <=? cp) && (cp <=? 57))%N then Some (Z.of_N (cp - 48)) else None
  else
    match Py.decimal_zero cp with
    | Some zero =>
        if ((zero <=? cp) && (cp <? zero + 10))%N then Some (Z.of_N (cp - zero))
        else None
    | None => None
    end.

(** [\d]: one decimal digit of any script. *)
Definition re_digit : matcher Z := λ s,
  match Py.next_char s with
  | Some (cp, r) =>
      match decimal cp with
      | Some d => [(d, r)]
      | None => []
      end
  | None => []
  end.

(** [[lo-hi]] on the ASCII digits *)
Definition re_range (lo hi : Z) : matcher Z := λ s,
  match s with
  | EmptyString => []
  | String c r =>
      match digit c with
      | Some d => if (lo <=? d) && (d <=? hi) then [(d, r)] else []
      | None => []
      end
  end.

(** One literal character, compared as [IGNORECASE] does. *)
Definition re_char (a : ascii) : matcher unit := λ s,
  match s with
  | EmptyString => []
  | String c r =>
      if Ascii.eqb (Py.lower_char c) (Py.lower_char a) then [(tt, r)] else []
  end.

(** [r1|r2|...] *)
Definition re_alt {A} (ms : list (matcher A)) : matcher A := λ s,
  ms ≫= (λ m, m s).

(** Two digit classes in sequence, captured as the number they spell. *)
Definition re_two (a b : matcher Z) : matcher Z := λ s,
  '(x, s1) ← a s; '(y, s2) ← b s1; [(10 * x + y, s2)].

(** [%I] and [%m]: [1[0-2]|0[1-9]|[1-9]] *)
Definition re_I : matcher Z :=
  re_alt [re_two (re_range 1 1) (re_range 0 2);
          re_two (re_range 0 0) (re_range 1 9);
          re_range 1 9].

Definition re_m : matcher Z := re_I.

(** [%M]: [[0-5]\d|\d] *)
Definition re_M : matcher Z :=
  re_alt [re_two (re_range 0 5) re_digit; re_digit].

(** [%S]: [6[0-1]|[0-5]\d|\d] *)
Definition re_S : matcher Z :=
  re_alt [re_two (re_range 6 6) (re_range 0 1);
          re_two (re_range 0 5) re_digit;
          re_digit].

(** [%H]: [2[0-3]|[0-1]\d|\d] *)
Definition re_H : matcher Z :=
  re_alt [re_two (re_range 2 2) (re_range 0 3);
          re_two (re_range 0 1) re_digit;
          re_digit].

(** [%d]: [3[0-1]|[1-2]\d|0[1-9]|[1-9]| [1-9]] *)
Definition re_d : matcher Z :=
  re_alt [re_two (re_range 3 3) (re_range 0 1);
          re_two (re_range 1 2) re_digit;
          re_two (re_range 0 0) (re_range 1 9);
          re_range 1 9;
          (λ s, '(_, s1) ← re_char " " s; re_range 1 9 s1)].

(** [%Y]: [\d\d\d\d] *)
Definition re_Y : matcher Z := λ s,
  '(a, s1) ← re_digit s; '(b, s2) ← re_digit s1;
  '(c, s3) ← re_digit s2; '(d, s4) ← re_digit s3;
  [(1000 * a + 100 * b + 10 * c + d, s4)].

(** [%p] in the C locale: [am|pm]; the capture is [true] for pm. *)
Definition re_p : matcher bool :=
  re_alt [(λ s, '(_, s1) ← re_char "a" s; '(_, s2) ← re_char "m" s1; [(false, s2)]);
          (λ s, '(_, s1) ← re_char "p" s; '(_, s2) ← re_char "m" s1; [(true, s2)])].

(** The rests after zero or more white-space characters, longest run first. *)
Fixpoint spaces_star (s : string) : list string :=
  match s with
  | EmptyString => [s]
  | String _ r1 =>
      match Py.next_char s with
      | Some (cp, _) =>
          if Py.isspace cp then
            if (cp <? 128)%N then spaces_star r1 ++ [s]
            else
              match r1 with
              | String _ r2 =>
                  if (cp <? 2048)%N then spaces_star r2 ++ [s]
                  else match r2 with
                       | String _ r3 => spaces_star r3 ++ [s]
                       | EmptyString => [s]
                       end
              | EmptyString => [s]
              end
          else [s]
      | None => [s]
      end
  end.

(** [\s+], which is what a blank of the format becomes. *)
Definition re_spaces : matcher unit := λ s,
  match Py.after_space s with
  | Some r => (λ r', (tt, r')) <$> spaces_star r
  | None => []
  end.

(** [regex.match(s)] followed by the test that nothing is left unread:
    the first success of the search decides. *)
Definition full_match {A} (m : matcher A) (s : string) : option A :=
  match head (m s) with
  | Some (x, EmptyString) => Some x
  | _ => None
  end.

(** The 24-hour value of a 12-hour value and its meridiem. *)
Definition hour_of_12 (h : Z) (pm : bool) : Z :=
  if pm then (if h =? 12 then 12 else h + 12)
  else (if h =? 12 then 0 else h).

Definition is_leap (y : Z) : bool :=
  (y mod 4 =? 0) && (negb (y mod 100 =? 0) || (y mod 400 =? 0)).

Definition days_in_month (y m : Z) : Z :=
  if m =? 2 then (if is_leap y then 29 else 28)
  else if (m =? 4) || (m =? 6) || (m =? 9) || (m =? 11) then 30
  else 31.

(** The constructor [datetime(y, m, d, H, M, S)], [None] for [ValueError]. *)
Definition make (y m d H M S : Z) : option datetime :=
  if (1 <=? y) && (y <=? 9999) && (1 <=? m) && (m <=? 12)
     && (1 <=? d) && (d <=? days_in_month y m)
     && (0 <=? H) && (H <=? 23) && (0 <=? M) && (M <=? 59)
     && (0 <=? S) && (S <=? 59)
  then Some (mk_datetime y m d H M S) else None.

(** [datetime.strptime(s, "%I:%M:%S %p")] *)
Definition strptime_IMSp (s : string) : option datetime :=
  '(h, m, sec, pm) ← full_match (λ s0,
     '(h, s1) ← re_I s0; '(_, s2) ← re_char ":" s1;
     '(m, s3) ← re_M s2; '(_, s4) ← re_char ":" s3;
     '(sec, s5) ← re_S s4; '(_, s6) ← re_spaces s5;
     '(pm, s7) ← re_p s6; [((h, m, sec, pm), s7)]) s;
  make 1900 1 1 (hour_of_12 h pm) m sec.

(** [datetime.strptime(s, "%I:%M %p")] *)
Definition strptime_IMp (s : string) : option datetime :=
  '(h, m, pm) ← full_match (λ s0,
     '(h, s1) ← re_I s0; '(_, s2) ← re_char ":" s1;
     '(m, s3) ← re_M s2; '(_, s4) ← re_spaces s3;
     '(pm, s5) ← re_p s4; [((h, m, pm), s5)]) s;
  make 1900 1 1 (hour_of_12 h pm) m 0.

(** [datetime.strptime(s, "%H:%M")] *)
Definition strptime_HM (s : string) : option datetime :=
  '(h, m) ← full_match (λ s0,
     '(h, s1) ← re_H s0; '(_, s2) ← re_char ":" s1;
     '(m, s3) ← re_M s2; [((h, m), s3)]) s;
  make 1900 1 1 h m 0.

(** [datetime.strptime(s, "%I%p")] *)
Definition strptime_Ip (s : string) : option datetime :=
  '(h, pm) ← full_match (λ s0,
     '(h, s1) ← re_I s0; '(pm, s2) ← re_p s1; [((h, pm), s2)]) s;
  make 1900 1 1 (hour_of_12 h pm) 0 0.

End unicode.

Definition digit_char (d : Z) : ascii := ascii_of_N (48 + Z.to_N d).

(** A number below 100 on two digits. *)
Definition zfill2 (n : Z) : string :=
  String (digit_char (n / 10)) (String (digit_char (n mod 10)) EmptyString).

(** A number below 10000 on four digits. *)
Definition zfill4 (n : Z) : string :=
  zfill2 (n / 100) +:+ zfill2 (n mod 100).

(** [t.strftime("%I%p")] in the C locale *)
Definition strftime_Ip (t : datetime) : string :=
  zfill2 (let h := hour t mod 12 in if h =? 0 then 12 else h)
  +:+ (if hour t <? 12 then "AM" else "PM").

(** Days before 1 January of year [y], and before the first of month [m]. *)
Definition days_before_year (y : Z) : Z :=
  (y - 1) * 365 + (y - 1) / 4 - (y - 1) / 100 + (y - 1) / 400.

Definition days_before_month (y m : Z) : Z :=
  nth (Z.to_nat m) [0; 0; 31; 59; 90; 120; 151; 181; 212; 243; 273; 304; 334] 0
  + (if (2 <? m) && is_leap y then 1 else 0).

(** [t.toordinal()]: 1 for 1 January of year 1. *)
Definition toordinal (t : datetime) : Z :=
  days_before_year (year t) + days_before_month (year t) (month t) + day t.

(** [t.weekday()]: 0 for Monday. *)
Definition weekday (t : datetime) : Z := (toordinal t + 6) mod 7.

Definition week_order : list string :=
  ["Monday"; "Tuesday"; "Wednesday"; "Thursday"; "Friday"; "Saturday"; "Sunday"].

(** [t.strftime("%A")] in the C locale *)
Definition strftime_A (t : datetime) : string :=
  nth (Z.to_nat (weekday t)) week_order "".

(** Seconds since the start of year 1, the order of [datetime] values. *)
Definition timestamp (t : datetime) : Z :=
  ((toordinal t * 24 + hour t) * 60 + minute t) * 60 + second t.

(** [datetime.max], to the second *)
Definition datetime_max : datetime := mk_datetime 9999 12 31 23 59 59.

End Datetime.

(** ** [pandas.to_datetime] with an explicit format *)

Module Pandas.

Import Py Datetime.
Local Open Scope Z_scope.

(** The repository pins no version of the library, and the library and the
    platform differ in three things that [count_by_date] depends on.  An
    environment fixes them for a run of the program:
    - [holds]: the dates that a [Timestamp] can hold, which are the dates
      within the bounds of a count of nanoseconds where the library counts
      nanoseconds, and every date of the calendar where it picks the unit;
    - [special]: the strings that [to_datetime] answers before it reads the
      format, each with the answer, [None] for [NaT]; the words for the
      current time are such strings where the library knows them;
    - [pads_year]: whether [strftime] writes a year below 1000 on four
      digits, which is up to the C library. *)
Record environment : Type := mk_environment {
  holds : datetime → bool;
  special : string → option (option datetime);
  pads_year : bool
}.

(** Ordinal of 1 January 1970. *)
Definition epoch_ordinal : Z := 719163.

(** A [Timestamp] that counts nanoseconds from the epoch in 64 bits has
    106751 whole days on either side. *)
Definition in_bounds (t : datetime) : bool :=
  (epoch_ordinal - 106751 <=? toordinal t) && (toordinal t <=? epoch_ordinal + 106751).

Section unicode.
Context `{U : unicode_data}.

(** The format [%m<sep>%d<sep>%Y] read by its regular expression, and the
    date that the three fields name; [None] is a [ValueError], from the
    match or from the calendar. *)
Definition strptime_mdY (sep : ascii) (s : string) : option datetime :=
  '(m, d, y) ← full_match (λ s0,
     '(m, s1) ← re_m s0; '(_, s2) ← re_char sep s1;
     '(d, s3) ← re_d s2; '(_, s4) ← re_char sep s3;
     '(y, s5) ← re_Y s4; [((m, d, y), s5)]) s;
  make y m d 0 0 0.

(** [pd.to_datetime(s, format="%m<sep>%d<sep>%Y")]; the result [None] is
    [NaT] under [errors="coerce"] and an exception otherwise. *)
Definition to_datetime (env : environment) (sep : ascii) (s : string)
    : option datetime :=
  match special env s with
  | Some answer => answer
  | None =>
      t ← strptime_mdY sep s;
      if holds env t then Some t else None
  end.

End unicode.

(** [%Y] of [strftime], for a year from 1 to 9999. *)
Definition strftime_Y (env : environment) (y : Z) : string :=
  if pads_year env then zfill4 y else lstrip_zero (zfill4 y).

(** [t.strftime("%m/%d/%Y")] *)
Definition strftime_mdY (env : environment) (t : datetime) : string :=
  zfill2 (month t) +:+ "/" +:+ zfill2 (day t) +:+ "/" +:+ strftime_Y env (year t).

(** Environments to run the model in: one that counts nanoseconds and pads
    the year, one that holds every date of the calendar, and one that also
    answers the words for the current time with a clock. *)
Definition nanoseconds : environment :=
  mk_environment in_bounds (λ _, None) true.

Definition whole_calendar (pads : bool) : environment :=
  mk_environment (λ _, true) (λ _, None) pads.

Definition with_clock (now today : datetime) (env : environment) : environment :=
  mk_environment (holds env)
    (λ s, if decide (s = "now") then Some (Some now)
          else if decide (s = "today") then Some (Some today)
          else special env s)
    (pads_year env).

End Pandas.

(** ** The metric functions of [disciplineSummary.py] *)

Module Summary.

Import Py Datetime Pandas.

Abbreviation record := (gmap string value).

Section unicode.
Context `{U : unicode_data}.

(** Lines written by [print]. *)
Inductive event : Type :=
| FailedToParseTime (time_str : string)
| InvalidDateFormat (date_str : string)
| InvalidOrMissingDate (row : record)
| ErrorReparsingDate (date : string).

Definition count_by_grade (data : list record) : list (value * nat) :=
  foldl (λ grade_counts row,
           let grade := get row "grade_level" (VStr "Unknown") in
           dict_incr grade_counts grade) [] data.

Definition count_by_location (data : list record) : list (value * nat) :=
  foldl (λ location_counts row,
           let location := get row "incident_location" (VStr "Unknown") in
           dict_incr location_counts location) [] data.

Definition count_by_subtype (data : list record) : list (value * nat) :=
  foldl (λ subtype_counts row,
           let subtype := get row "subtype_name" (VStr "Unknown") in
           dict_incr subtype_counts subtype) [] data.

(** [time_obj.strftime("%I%p").lower().lstrip("0")] *)
Definition hour_label (time_obj : datetime) : string :=
  lstrip_zero (lower (strftime_Ip time_obj)).

(** The nested [try] of [count_by_hour]: [None] is the innermost
    [except] clause. *)
Definition parse_time_3 (s : string) : option datetime :=
  match strptime_IMSp s with
  | Some time_obj => Some time_obj
  | None =>
      match strptime_IMp s with
      | Some time_obj => Some time_obj
      | None => strptime_HM s
      end
  end.

(** One iteration of the loop of [count_by_hour], on the counting dict and
    the printed lines. *)
Definition count_by_hour_step (st : list (string * nat) * list event)
    (row : record) : list (string * nat) * list event :=
  let '(hour_counts, out) := st in
  let time_str := get row "incident_time" VNone in
  if truthy time_str && isinstance_str time_str then
    match parse_time_3 (strip (str time_str)) with
    | None =>
        (dict_incr hour_counts "Unknown",
         out ++ [FailedToParseTime (str time_str)])
    | Some time_obj =>
        let hour := hour_label time_obj in
        (dict_incr hour_counts hour, out)
    end
  else
    let hour := "Unknown" in
    (dict_incr hour_counts hour, out).

Definition count_by_hour_loop (data : list record)
    : list (string * nat) * list event :=
  foldl count_by_hour_step ([], []) data.

(** The rows of [count_by_hour]; [None] if the sort key raises. *)
Definition count_by_hour (data : list record) : option (list (string * nat)) :=
  let hour_counts := (count_by_hour_loop data).1 in
  let hour_counts :=
    dict_set hour_counts "Unknown" (default 0 (dict_get hour_counts "Unknown")) in
  sorted_hours ← sorted_try (λ x, timestamp <$> strptime_Ip x)
    (filter (λ h, h ≠ "Unknown") (dict_keys hour_counts));
  let sorted_hours := sorted_hours ++ ["Unknown"] in
  mapM (λ hour, count ← dict_get hour_counts hour; Some (hour, count))
    sorted_hours.

(** What [count_by_hour] prints. *)
Definition count_by_hour_printed (data : list record) : list event :=
  (count_by_hour_loop data).2.

Record date_state : Type := mk_date_state {
  date_counts : list (string * nat);
  day_totals : list (string * nat);
  printed : list event
}.

(** One iteration of the first loop of [count_by_date]. *)
Definition count_by_date_step (env : environment) (st : date_state) (row : record)
    : date_state :=
  let date_str := get row "incident_date" VNone in
  if truthy date_str && isinstance_str date_str then
    let date_obj := to_datetime env "/" (str date_str) in
    let date_obj :=
      match date_obj with
      | None => to_datetime env "-" (str date_str)
      | Some _ => date_obj
      end in
    match date_obj with
    | None =>
        mk_date_state (date_counts st) (day_totals st)
          (printed st ++ [InvalidDateFormat (str date_str)])
    | Some date_obj =>
        let formatted_date := strftime_mdY env date_obj in
        let day_of_week := strftime_A date_obj in
        mk_date_state (dict_incr (date_counts st) formatted_date)
          (dict_incr (day_totals st) day_of_week) (printed st)
    end
  else
    mk_date_state (date_counts st) (day_totals st)
      (printed st ++ [InvalidOrMissingDate row]).

(** One iteration of the second loop: the dates are parsed again, and a
    date that does not parse is reported and not counted. *)
Definition day_counts_step (env : environment) (st : list (string * nat) * list event)
    (item : string * nat) : list (string * nat) * list event :=
  let '(day_counts, out) := st in
  match to_datetime env "/" item.1 with
  | Some date_obj => (dict_incr day_counts (strftime_A date_obj), out)
  | None => (day_counts, out ++ [ErrorReparsingDate item.1])
  end.

Record date_metric : Type := mk_date_metric {
  date_counts_table : list (string * nat);
  day_of_week_avg_table : list (string * Q)
}.

(** The third loop and the final sort; [None] is [ZeroDivisionError] from
    the division or [ValueError] from [week_order.index]. *)
Definition day_of_week_avg (day_totals day_counts : list (string * nat))
    : option (list (string * Q)) :=
  rows ← mapM (λ '(day, total),
                 avg ← truediv total (default 0%nat (dict_get day_counts day));
                 Some (day, round2 avg)) day_totals;
  sorted_try (λ x, index week_order x.1) rows.

Definition count_by_date_loops (env : environment) (data : list record)
    : date_state * list (string * nat) :=
  let st := foldl (count_by_date_step env) (mk_date_state [] [] []) data in
  let '(day_counts, out) :=
    foldl (day_counts_step env) ([], printed st) (date_counts st) in
  (mk_date_state (date_counts st) (day_totals st) out, day_counts).

Definition count_by_date (env : environment) (data : list record)
    : option date_metric :=
  let '(st, day_counts) := count_by_date_loops env data in
  avg ← day_of_week_avg (day_totals st) day_counts;
  Some (mk_date_metric (date_counts st) avg).

(** What [count_by_date] prints. *)
Definition count_by_date_printed (env : environment) (data : list record)
    : list event :=
  printed (count_by_date_loops env data).1.

(** What its first loop prints. *)
Definition count_by_date_first_printed (env : environment) (data : list record)
    : list event :=
  printed (foldl (count_by_date_step env) (mk_date_state [] [] []) data).

Definition top_students (data : list record) (top_n : Z) : list (value * nat) :=
  let student_counts :=
    foldl (λ student_counts row,
             let student := get row "student_name" (VStr "Unknown") in
             dict_incr student_counts student) [] data in
  slice_to top_n (sorted_reverse (λ x, Z.of_nat x.2) student_counts).

Definition top_authors (data : list record) (top_n : Z) : list (value * nat) :=
  let author_counts :=
    foldl (λ author_counts row,
             let author := get row "entry_author" (VStr "Unknown") in
             dict_incr author_counts author) [] data in
  slice_to top_n (sorted_reverse (λ x, Z.of_nat x.2) author_counts).

(** The hour label that [hourly_location] gives a record. *)
Definition hourly_location_hour (row : record) : string :=
  let incident_time := get row "incident_time" VNone in
  let incident_time :=
    if is_not_None incident_time then VStr (strip (str incident_time))
    else incident_time in
  if truthy incident_time then
    match strptime_IMp (str incident_time) with
    | Some time_obj => hour_label time_obj
    | None => "Unknown"
    end
  else "Unknown".

(** One iteration of the loop of [hourly_location]:
    [hourly_location_counts[hour][location] += 1] on nested default dicts. *)
Definition hourly_location_step (counts : list (string * list (value * nat)))
    (row : record) : list (string * list (value * nat)) :=
  let location := get row "incident_location" (VStr "Unknown") in
  let hour := hourly_location_hour row in
  dict_set counts hour (dict_incr (default [] (dict_get counts hour)) location).

Definition hourly_location_key (x : string * list (value * nat)) : option Z :=
  if decide (x.1 ≠ "Unknown") then timestamp <$> strptime_Ip x.1
  else Some (timestamp datetime_max).

(** The nested loop that flattens the sorted groups into rows. *)
Definition breakdown_rows (groups : list (string * list (value * nat)))
    : list (string * value * nat) :=
  mjoin ((λ g : string * list (value * nat),
            (λ x : value * nat, (g.1, x.1, x.2)) <$> g.2) <$> groups).

Definition hourly_location (data : list record)
    : option (list (string * value * nat)) :=
  let hourly_location_counts := foldl hourly_location_step [] data in
  breakdown_rows <$> sorted_try hourly_location_key hourly_location_counts.

Record metrics : Type := mk_metrics {
  incidents_by_grade : list (value * nat);
  incidents_by_location : list (value * nat);
  incidents_by_hour : list (string * nat);
  incidents_by_date : date_metric;
  incidents_by_subtype : list (value * nat);
  metric_top_students : list (value * nat);
  metric_top_authors : list (value * nat);
  incidents_by_loc_hour : list (string * value * nat)
}.

Definition calculate_summary_metrics (env : environment) (data : list record)
    : option metrics :=
  by_hour ← count_by_hour data;
  by_date ← count_by_date env data;
  by_loc_hour ← hourly_location data;
  Some (mk_metrics (count_by_grade data) (count_by_location data) by_hour
          by_date (count_by_subtype data) (top_students data 15)
          (top_authors data 10) by_loc_hour).

(** The grouping loop of [generate_building_reports]. *)
Definition building_groups_step (building_groups : list (value * list record))
    (row : record) : list (value * list record) :=
  let building_name := get row "student_school" (VStr "Unknown Building") in
  let building_groups :=
    match dict_get building_groups building_name with
    | None => dict_set building_groups building_name []
    | Some _ => building_groups
    end in
  dict_set building_groups building_name
    (default [] (dict_get building_groups building_name) ++ [row]).

Definition building_groups (data : list record) : list (value * list record) :=
  foldl building_groups_step [] data.

(** The character class of [sanitize_building_name]: the signs for less
    and greater, the colon, the double quote (code 34), the slash, the
    backslash (code 92), the bar, the question mark and the asterisk. *)
Definition invalid_chars : list ascii :=
  ["<"; ">"; ":"; ascii_of_N 34; "/"; ascii_of_N 92; "|"; "?"; "*"]%char.

(** [re.sub(class, '_', s)]: every character of the class becomes an
    underscore. *)
Fixpoint sub_invalid (s : string) : string :=
  match s with
  | EmptyString => EmptyString
  | String c r =>
      String (if decide (c ∈ invalid_chars) then "_"%char else c) (sub_invalid r)
  end.

Definition sanitize_building_name (building_name : value) : string :=
  let building_name :=
    if negb (isinstance_str building_name) then
      VStr (if is_not_None building_name then str building_name
            else "Unknown Building")
    else building_name in
  sub_invalid (str building_name).

(** [s.replace(" ", "_")] *)
Fixpoint replace_space (s : string) : string :=
  match s with
  | EmptyString => EmptyString
  | String c r => String (if Ascii.eqb c " " then "_"%char else c) (replace_space r)
  end.

(** What [generate_building_reports] names the folder of a building, and
    what it passes to the workbook name template as [Building_Name]. *)
Definition building_folder_name (building_name : value) : string :=
  sanitize_building_name building_name.

Definition workbook_building_name (building_name : value) : string :=
  replace_space (sanitize_building_name building_name).

(** *** The metrics as dicts

    The metric functions return their rows as dicts from a column name
    to a cell.  The cells of the seven flat tables are strings, integers
    and [None]; the table of dates is a dict of two tables. *)

Definition row_dict : Type := list (string * value).

Definition count_rows {K} (key : string) (cell : K → value) (count : string)
    (table : list (K * nat)) : list row_dict :=
  (λ x, [(key, cell x.1); (count, VInt (Z.of_nat x.2))]) <$> table.

Definition loc_hour_rows (table : list (string * value * nat)) : list row_dict :=
  (λ x, [("Hour", VStr x.1.1); ("Location", x.1.2); ("Count", VInt (Z.of_nat x.2))])
  <$> table.

Inductive metric_data : Type :=
| MRows (rows : list row_dict)
| MNested (by_date : date_metric).

(** The dict that [calculate_summary_metrics] builds, in the order in
    which its keys are inserted. *)
Definition metrics_dict (m : metrics) : list (string * metric_data) :=
  [("incidents_by_grade", MRows (count_rows "Grade" id "Count" (incidents_by_grade m)));
   ("incidents_by_location",
      MRows (count_rows "Location" id "Count" (incidents_by_location m)));
   ("incidents_by_hour", MRows (count_rows "Hour" VStr "Count" (incidents_by_hour m)));
   ("incidents_by_date", MNested (incidents_by_date m));
   ("incidents_by_subtype",
      MRows (count_rows "Subtype" id "Count" (incidents_by_subtype m)));
   ("top_students", MRows (count_rows "Student" id "Incidents" (metric_top_students m)));
   ("top_authors", MRows (count_rows "Author" id "Logs" (metric_top_authors m)));
   ("incidents_by_loc_hour", MRows (loc_hour_rows (incidents_by_loc_hour m)))].

(** *** [consolidate_metrics_to_csv] *)

(** The line feed. *)
Definition nl : string := String (ascii_of_N 10) EmptyString.

(** [KeyError(k)] on an integer key. *)
Inductive exn : Type := KeyError (k : Z).

(** The loop of [consolidate_metrics_to_csv] on the texts written to the
    file so far; the second component is the exception that ends it, if
    any.  An empty list is skipped.  A dict of two tables is not empty, so
    it passes the test, and it has no key [0]. *)
Fixpoint consolidate_loop (items : list (string * metric_data)) (file : list string)
    : list string * option exn :=
  match items with
  | [] => (file, None)
  | (metric_name, MNested _) :: _ => (file, Some (KeyError 0))
  | (metric_name, MRows []) :: items' => consolidate_loop items' file
  | (metric_name, MRows (row0 :: rows)) :: items' =>
      let headers := row0.*1 in
      let file := file ++ [String.concat "," headers +:+ nl] in
      let file :=
        foldl (λ file (row : row_dict),
                 file ++ [String.concat "," (str <$> row.*2) +:+ nl])
          file (row0 :: rows) in
      consolidate_loop items' (file ++ [nl])
  end.

Definition consolidate_metrics_to_csv (metrics : list (string * metric_data))
    : list string * option exn :=
  consolidate_loop metrics [].

(** *** [write_metrics_to_workbook]

    The loop of the function is modelled by the calls of [ws.cell] that
    it makes, in their order: the values to write, each with its row and
    its column; fonts and borders are left out.  A cell holds a string, an
    integer or [None], or the float of an average.  The calls are then
    run: openpyxl binds each value to its cell, which fails on a text with
    a control character, and the function fails with the first call that
    does, before it saves the workbook.  The bounds of a sheet on rows and
    columns are not modelled. *)

Inductive cell : Type :=
| CVal (v : value)
| CFloat (x : Q).

Definition written : Type := nat * nat * cell.

(** The class of [ILLEGAL_CHARACTERS_RE] of openpyxl,
    [[\000-\010]|[\013-\014]|[\016-\037]] in octal: the control
    characters other than tab, line feed and carriage return. *)
Definition illegal_character (c : ascii) : bool :=
  let n := N_of_ascii c in
  ((n <=? 8) || ((11 <=? n) && (n <=? 12)) || ((14 <=? n) && (n <=? 31)))%N.

(** [value[:n]], the first [n] characters of a text: a byte that
    continues a character stays with it. *)
Fixpoint take_characters (n : N) (s : string) : string :=
  match s with
  | EmptyString => EmptyString
  | String c r =>
      match continuation c with
      | Some _ => String c (take_characters n r)
      | None =>
          if (n =? 0)%N then EmptyString
          else String c (take_characters (N.pred n) r)
      end
  end.

(** [Cell.check_string]: the text is cut to 32767 characters; [None] is
    [IllegalCharacterError]. *)
Definition check_string (value : string) : option string :=
  let value := take_characters 32767 value in
  if existsb illegal_character (list_ascii_of_string value) then None
  else Some value.

(** [Cell._bind_value], on the values of the model: a text is checked, a
    number is kept; [ws.cell] does not bind [None]. *)
Definition bind_value (value : cell) : option cell :=
  match value with
  | CVal (VStr s) => (λ s, CVal (VStr s)) <$> check_string s
  | _ => Some value
  end.

(** The two tables of the date metric as lists of rows;
    [metric_data.get(sub_metric_name, [])]. *)
Definition sub_metric_rows (by_date : date_metric) (sub_metric_name : string)
    : list (list (string * cell)) :=
  if decide (sub_metric_name = "date_counts") then
    (λ x, [("Date", CVal (VStr x.1)); ("Count", CVal (VInt (Z.of_nat x.2)))])
    <$> date_counts_table by_date
  else if decide (sub_metric_name = "day_of_week_avg") then
    (λ x, [("Day of Week", CVal (VStr x.1)); ("Average Incidents", CFloat x.2)])
    <$> day_of_week_avg_table by_date
  else [].

(** [for col_num, value in enumerate(values, start=current_col)]: one
    value per column, from [current_col] on. *)
Definition write_line (current_row current_col : nat) (values : list cell)
    : list written :=
  imap (λ i value, (current_row, current_col + i, value)) values.

(** The loop over the rows of a table, on the current row and the sheet. *)
Definition write_rows (current_col : nat) (rows : list (list (string * cell)))
    (st : nat * list written) : nat * list written :=
  foldl (λ st row, (st.1 + 1, st.2 ++ write_line st.1 current_col row.*2)) st rows.

(** The headers of a table, from the keys of its first row, and its rows. *)
Definition write_table (current_col : nat) (headers : list string)
    (rows : list (list (string * cell))) (st : nat * list written)
    : nat * list written :=
  let ws := st.2 ++ write_line st.1 current_col (CVal ∘ VStr <$> headers) in
  write_rows current_col rows (st.1 + 1, ws).

(** One turn of the loop over the tables of a nested metric. *)
Definition write_sub_metric (current_col : nat) (by_date : date_metric)
    (st : nat * list written) (sub_metric_name : string) : nat * list written :=
  let sub_metric_data := sub_metric_rows by_date sub_metric_name in
  let ws := st.2 ++ [(st.1, current_col, CVal (VStr sub_metric_name))] in
  let current_row := st.1 + 1 in
  let st :=
    match sub_metric_data with
    | [] => (current_row, ws)
    | row0 :: _ => write_table current_col row0.*1 sub_metric_data (current_row, ws)
    end in
  (st.1 + 1, st.2).

Record sheet : Type := mk_sheet {
  current_row : nat;
  current_col : nat;
  cells : list written
}.

(** One turn of the loop of [write_metrics_to_workbook]. *)
Definition write_metric (st : sheet) (item : string * metric_data) : sheet :=
  let '(metric_name, metric_data) := item in
  let '(current_row, current_col) :=
    if decide (metric_name = "incidents_by_grade") then (1, 1)
    else if decide (metric_name = "incidents_by_loc_hour") then (1, 4)
    else if decide (metric_name = "incidents_by_date") then (1, 8)
    else if decide (metric_name = "incidents_by_subtype") then (1, 11)
    else if decide (metric_name = "top_students") then (1, 14)
    else (current_row st + 2, current_col st) in
  let ws := cells st ++ [(current_row, current_col, CVal (VStr metric_name))] in
  let current_row := current_row + 1 in
  match metric_data with
  | MRows [] =>
      mk_sheet (current_row + 2) current_col
        (ws ++ [(current_row, current_col, CVal (VStr "No Data Available"))])
  | MNested by_date =>
      let ordered_sub_metrics :=
        if decide (metric_name = "incidents_by_date")
        then ["day_of_week_avg"; "date_counts"]
        else ["date_counts"; "day_of_week_avg"] in
      let st := foldl (write_sub_metric current_col by_date) (current_row, ws)
                  ordered_sub_metrics in
      mk_sheet (st.1 + 1) current_col st.2
  | MRows (row0 :: rows) =>
      let table := (λ row : row_dict, prod_map id CVal <$> row) <$> (row0 :: rows) in
      if decide (metric_name = "incidents_by_loc_hour") then
        let st := write_table current_col ["Hour"; "Location"; "Count"] table
                    (current_row, ws) in
        mk_sheet (st.1 + 1 + 1) current_col st.2
      else
        let st := write_table current_col row0.*1 table (current_row, ws) in
        mk_sheet (st.1 + 1) current_col st.2
  end.

(** The calls of [ws.cell] that [write_metrics_to_workbook] makes if none
    of them raises. *)
Definition workbook_calls (metrics : list (string * metric_data)) : list written :=
  cells (foldl write_metric (mk_sheet 1 1 []) metrics).

(** The cells of the sheet that [write_metrics_to_workbook] saves; [None]
    if a call of [ws.cell] raises, and then no workbook is saved. *)
Definition write_metrics_to_workbook (metrics : list (string * metric_data))
    : option (list written) :=
  mapM (λ w : written, (λ value, (w.1, value)) <$> bind_value w.2)
    (workbook_calls metrics).

End unicode.

End Summary.

(** ** Vocabulary of the specification *)

Module Spec.

Import Py Datetime Pandas Summary.

Section unicode.
Context `{U : unicode_data}.

Section keys.
Context {K : Type} `{EqDecision K}.

(** The distinct elements of a list in the order of their first occurrence. *)
Fixpoint first_seen (l : list K) : list K :=
  match l with
  | [] => []
  | x :: l' => x :: filter (λ y, y ≠ x) (first_seen l')
  end.

(** How often a key occurs. *)
Definition occurrences (k : K) (l : list K) : nat :=
  length (filter (λ y, y = k) l).

(** The number of distinct keys observed. *)
Definition distinct (l : list K) : nat := length (remove_dups l).

(** The table that grouping and counting a list of keys denotes. *)
Definition count_table (l : list K) : list (K * nat) :=
  (λ k, (k, occurrences k l)) <$> first_seen l.

(** Grouping a list by a key, with a summary of every group, the groups in
    the order in which their keys are first seen. *)
Definition group_table {A V} (f : A → K) (summary : list A → V) (data : list A)
    : list (K * V) :=
  (λ k, (k, summary (filter (λ a, f a = k) data))) <$> first_seen (f <$> data).

End keys.

(** [a] occurs in [l] at an earlier position than [b]. *)
Definition before {A} (a b : A) (l : list A) : Prop := [a; b] `sublist_of` l.

(** The sum of the [Count] column. *)
Definition total_count {K} (rows : list (K * nat)) : nat := sum_list rows.*2.

(** The grouping keys that the metric functions read from a record. *)
Definition grade_of (row : record) : value := get row "grade_level" (VStr "Unknown").
Definition location_of (row : record) : value := get row "incident_location" (VStr "Unknown").
Definition subtype_of (row : record) : value := get row "subtype_name" (VStr "Unknown").
Definition student_of (row : record) : value := get row "student_name" (VStr "Unknown").
Definition author_of (row : record) : value := get row "entry_author" (VStr "Unknown").
Definition school_of (row : record) : value := get row "student_school" (VStr "Unknown Building").

(** The ranking of section 4.3: the count table of a key, sorted by
    descending count with a stable sort. *)
Definition ranking (key_of : record → value) (data : list record)
    : list (value * nat) :=
  sorted_reverse (λ x, Z.of_nat x.2) (count_table (key_of <$> data)).

(** The first of a list of parsers that accepts the string. *)
Fixpoint first_parse {A} (ps : list (string → option A)) (s : string) : option A :=
  match ps with
  | [] => None
  | p :: ps' => match p s with Some x => Some x | None => first_parse ps' s end
  end.

(** The 12-hour hour on two digits followed by the lower-case meridiem. *)
Definition padded_label (t : datetime) : string :=
  let h12 := if (hour t mod 12 =? 0)%Z then 12%Z else (hour t mod 12)%Z in
  zfill2 h12 +:+ (if (hour t <? 12)%Z then "am" else "pm").

(** Removal of one leading zero. *)
Definition strip_leading_zero (s : string) : string :=
  match s with
  | String "0" r => r
  | _ => s
  end.

(** Modelled on section 4.1 of the specification, the Time Normaliser:
    the Hour Bucket of a raw [incident_time], [None] being an absent field. *)
Definition hour_bucket (raw : option value) : string :=
  match raw with
  | Some (VStr s) =>
      if decide (strip s = "") then "Unknown"
      else match first_parse [strptime_IMSp; strptime_IMp; strptime_HM] (strip s) with
           | Some t => strip_leading_zero (padded_label t)
           | None => "Unknown"
           end
  | _ => "Unknown"
  end.

Definition hour_bucket_of (row : record) : string :=
  hour_bucket (row !! "incident_time").

(** The label of the hour [h] of the 24-hour clock. *)
Definition label_of_hour (h : Z) : string :=
  hour_label (mk_datetime 1900 1 1 h 0 0).

(** The position of a label on the time line, as the sort keys see it. *)
Definition hour_rank (label : string) : Z :=
  default 0%Z (timestamp <$> strptime_Ip label).

(** The table of hour counts that section 4.3 describes: one row per
    bucket observed, in the order of the clock, and the row of [Unknown]
    last, whether observed or not. *)
Definition hour_table (data : list record) : list (string * nat) :=
  let buckets := hour_bucket_of <$> data in
  (λ h, (h, occurrences h buckets)) <$>
    (sorted hour_rank (filter (λ h, h ≠ "Unknown") (first_seen buckets))
     ++ ["Unknown"]).

(** The sort key of [hourly_location], on the hour labels it produces. *)
Definition breakdown_rank (x : string * list (value * nat)) : Z :=
  if decide (x.1 ≠ "Unknown") then hour_rank x.1 else timestamp datetime_max.

(** The rows of [hourly_location]: the records grouped by hour label, the
    locations of every group counted, the groups sorted by the clock. *)
Definition breakdown_table (data : list record) : list (string * value * nat) :=
  breakdown_rows
    (sorted breakdown_rank
       (group_table hourly_location_hour
          (λ rows, count_table (location_of <$> rows)) data)).

(** Hour buckets in the order of the clock, from 12am to 11pm. *)
Definition chronological (a b : string) : Prop :=
  ∃ ta tb, strptime_Ip a = Some ta ∧ strptime_Ip b = Some tb ∧
           (hour ta < hour tb)%Z.

(** Modelled on section 4.2 of the specification, the Date Normaliser:
    the Calendar Date of a raw [incident_date]. *)
Definition calendar_date (env : environment) (raw : option value) : option datetime :=
  match raw with
  | Some (VStr (String c s)) =>
      first_parse [to_datetime env "/"; to_datetime env "-"] (String c s)
  | _ => None
  end.

Definition calendar_date_of (env : environment) (row : record) : option datetime :=
  calendar_date env (row !! "incident_date").

(** A calendar date that a [Timestamp] can hold: midnight of a day of the
    Gregorian calendar that the environment holds. *)
Definition valid_date (env : environment) (t : datetime) : Prop :=
  make (year t) (month t) (day t) 0 0 0 = Some t ∧ holds env t = true.

(** The parseable dates of a collection, one per record that has one. *)
Definition dates_of (env : environment) (data : list record) : list datetime :=
  omap (calendar_date_of env) data.

(** A date reads back when the second loop of [count_by_date] finds it
    again: its key parses, with the format of the keys, as the date. *)
Definition reads_back (env : environment) (t : datetime) : Prop :=
  to_datetime env "/" (strftime_mdY env t) = Some t.

(** A collection is regular when every date of it reads back. *)
Definition regular (env : environment) (data : list record) : Prop :=
  ∀ t, t ∈ dates_of env data → reads_back env t.

(** The dates of a collection that fall on a weekday. *)
Definition dates_on (env : environment) (day : string) (data : list record)
    : list datetime :=
  filter (λ d, strftime_A d = day) (dates_of env data).

(** The day-of-week average of section 4.3, in the arithmetic of
    [count_by_date]. *)
Definition weekday_average (env : environment) (day : string) (data : list record) : Q :=
  round2 (float_of_quotient (Z.of_nat (length (dates_on env day data)))
            (Z.of_nat (distinct (dates_on env day data)))).

(** The per-date table of section 4.3: the canonical dates in the order in
    which they are first seen, each with the number of its records. *)
Definition date_table (env : environment) (data : list record) : list (string * nat) :=
  count_table (strftime_mdY env <$> dates_of env data).

(** The keys of the per-date table that parse again, as the dates they
    parse to, and the lines printed for the keys that do not. *)
Definition reparsed (env : environment) (data : list record) : list datetime :=
  omap (to_datetime env "/") (date_table env data).*1.

Definition reparse_errors (env : environment) (data : list record) : list event :=
  ErrorReparsingDate
  <$> filter (λ key, to_datetime env "/" key = None) (date_table env data).*1.

(** The position of a weekday in the week, Monday first. *)
Definition weekday_rank (day : string) : Z := default 0%Z (index week_order day).

(** The day-of-week table of section 4.3: the weekdays on which a date of
    the collection falls, Monday first, each with its average. *)
Definition average_table (env : environment) (data : list record)
    : list (string * Q) :=
  (λ day, (day, weekday_average env day data))
  <$> filter (λ day, dates_on env day data ≠ []) week_order.

(** What [count_by_date] prints for a record without a calendar date. *)
Definition date_diagnostic (row : record) : event :=
  match row !! "incident_date" with
  | Some (VStr (String c s)) => InvalidDateFormat (String c s)
  | _ => InvalidOrMissingDate row
  end.

Definition date_diagnostics (env : environment) (data : list record) : list event :=
  date_diagnostic <$> filter (λ row, calendar_date_of env row = None) data.

(** The pair that [hourly_location] counts a record under. *)
Definition hour_location_of (row : record) : string * value :=
  (hourly_location_hour row, location_of row).

(** The sort key of [hourly_location] on hour labels: the clock, and
    [Unknown] after every hour. *)
Definition clock_rank (label : string) : Z :=
  if decide (label ≠ "Unknown") then hour_rank label else timestamp datetime_max.

(** What [count_by_hour] prints for a record, if anything: the raw text of
    a time that is a string, not empty, and matched by none of the three
    patterns. *)
Definition time_diagnostic (row : record) : option event :=
  match row !! "incident_time" with
  | Some (VStr (String c s)) =>
      match parse_time_3 (strip (String c s)) with
      | None => Some (FailedToParseTime (String c s))
      | Some _ => None
      end
  | _ => None
  end.

(** Whether [incident_time] is a string that is not empty.  A record
    where it is missing, [None], not a string or the empty string goes
    into [Unknown] without a word. *)
Definition has_time_text (row : record) : bool :=
  match row !! "incident_time" with
  | Some (VStr (String _ _)) => true
  | _ => false
  end.

(** The number of colons of a string, which tells the time patterns
    apart: a matcher reads [k] colons when every way it has to match takes
    exactly [k] of them from the input. *)
Definition colons (s : string) : nat :=
  occurrences ":"%char (list_ascii_of_string s).

Definition reads_colons {A} (k : nat) (m : matcher A) : Prop :=
  ∀ s x r, (x, r) ∈ m s → colons s = k + colons r.

(** Cells written within the rows [r0] to [r1 - 1] and within [width]
    columns from [c0] on, none of them twice. *)
Definition in_block (r0 r1 c0 width : nat) (ws : list written) : Prop :=
  NoDup ws.*1 ∧ Forall (λ w : written, r0 ≤ w.1.1 < r1 ∧ c0 ≤ w.1.2 < c0 + width) ws.

(** The keys of the tables of the metrics, which are the texts of a
    report that come from the records. *)
Definition texts_of (m : metrics) : list value :=
  (incidents_by_grade m).*1 ++ (incidents_by_location m).*1
  ++ (VStr <$> (incidents_by_hour m).*1)
  ++ (VStr <$> (day_of_week_avg_table (incidents_by_date m)).*1)
  ++ (VStr <$> (date_counts_table (incidents_by_date m)).*1)
  ++ (incidents_by_subtype m).*1 ++ (metric_top_students m).*1
  ++ (metric_top_authors m).*1
  ++ (VStr <$> (incidents_by_loc_hour m).*1.*1) ++ (incidents_by_loc_hour m).*1.*2.

(** A value that openpyxl accepts in a cell. *)
Definition writable (value : cell) : Prop := is_Some (bind_value value).

(** A table whose headers and cells all satisfy [P]. *)
Definition table_values (P : cell → Prop) (rows : list (list (string * cell))) : Prop :=
  Forall (λ row : list (string * cell),
            Forall (λ h, P (CVal (VStr h))) row.*1 ∧ Forall P row.*2) rows.

(** Where [write_metrics_to_workbook] puts the title of a metric: five
    metrics start a column of their own in row 1, the others go two rows
    below the metric before them. *)
Definition section_start (metric_name : string) (st : sheet) : nat * nat :=
  if decide (metric_name = "incidents_by_grade") then (1, 1)
  else if decide (metric_name = "incidents_by_loc_hour") then (1, 4)
  else if decide (metric_name = "incidents_by_date") then (1, 8)
  else if decide (metric_name = "incidents_by_subtype") then (1, 11)
  else if decide (metric_name = "top_students") then (1, 14)
  else (current_row st + 2, current_col st).

End unicode.

End Spec.

(** A closed collection is shown regular by evaluation: its dates are
    computed, and the key of each is read back. *)
Ltac regular_by_evaluation :=
  let t := fresh "t" in
  let Ht := fresh "Ht" in
  intros t Ht; vm_compute in Ht;
  repeat (apply elem_of_cons in Ht as [->|Ht]; [by vm_compute|]);
  by apply elem_of_nil in Ht.

(** * Properties *)

Import Py Datetime Pandas Summary Spec.

Section properties.
Context `{U : unicode_data}.

(** ** Insertion-ordered dicts *)

Section dict_facts.
Context {K V : Type} `{EqDecision K}.
Implicit Types (d : list (K * V)) (k : K) (v : V).

Lemma dict_get_set d k v k' :
  dict_get (dict_set d k v) k' = if decide (k' = k) then Some v else dict_get d k'.
Proof.
  induction d as [|[k0 v0] d IH]; csimpl.
  - destruct (decide (k' = k)); done.
  - destruct (decide (k = k0)), (decide (k' = k0)), (decide (k' = k)); csimpl;
      rewrite ?IH; repeat (destruct (decide _); simpl); congruence.
Qed.

Lemma dict_get_Some_elem d k v : dict_get d k = Some v → (k, v) ∈ d.
Proof.
  induction d as [|[k0 v0] d IH]; csimpl; [done|].
  case_decide; intros; simplify_eq; [left | right; auto].
Qed.

Lemma dict_get_is_Some d k : is_Some (dict_get d k) ↔ k ∈ dict_keys d.
Proof.
  unfold dict_keys. induction d as [|[k0 v0] d IH]; csimpl.
  - split; [by intros [? ?] | by intros ?%elem_of_nil].
  - destruct (decide (k = k0)) as [->|Hne].
    + split; [intros; left | eauto].
    + rewrite IH. set_solver.
Qed.

Lemma dict_get_None d k : dict_get d k = None ↔ k ∉ dict_keys d.
Proof. rewrite <- dict_get_is_Some, eq_None_not_Some. done. Qed.

Lemma dict_keys_set d k v :
  dict_keys (dict_set d k v) =
    if decide (k ∈ dict_keys d) then dict_keys d else dict_keys d ++ [k].
Proof.
  unfold dict_keys. induction d as [|[k0 v0] d IH]; csimpl.
  - destruct (decide (k ∈ [])) as [Hk|]; [by apply elem_of_nil in Hk | done].
  - destruct (decide (k = k0)) as [->|Hne]; csimpl.
    + rewrite decide_True by left. done.
    + rewrite IH. destruct (decide (k ∈ d.*1)).
      * rewrite decide_True by (by right). done.
      * rewrite decide_False by set_solver. done.
Qed.

Lemma dict_set_absent d k v : k ∉ dict_keys d → dict_set d k v = d ++ [(k, v)].
Proof.
  unfold dict_keys. induction d as [|[k0 v0] d IH]; csimpl; [done|].
  intros Hk. rewrite decide_False by set_solver. f_equal. apply IH. set_solver.
Qed.

Lemma dict_keys_set_NoDup d k v :
  NoDup (dict_keys d) → NoDup (dict_keys (dict_set d k v)).
Proof.
  intros Hd. rewrite dict_keys_set. case_decide; [done|].
  apply NoDup_app. split_and!; [done| |apply NoDup_singleton].
  intros x Hx ->%list_elem_of_singleton. done.
Qed.

(** A dict with distinct keys is the table of its lookups. *)
Lemma dict_ext d1 d2 :
  NoDup (dict_keys d1) → dict_keys d1 = dict_keys d2 →
  (∀ k, dict_get d1 k = dict_get d2 k) → d1 = d2.
Proof.
  unfold dict_keys. revert d2.
  induction d1 as [|[k1 v1] d1 IH]; intros [|[k2 v2] d2] Hnd Hk Hg; simplify_eq/=; [done|].
  apply NoDup_cons in Hnd as [Hk2 Hnd].
  pose proof (Hg k2) as Hg2. simpl in Hg2. rewrite !decide_True in Hg2 by done.
  simplify_eq. f_equal. apply IH; [done..|].
  intros k. specialize (Hg k). simpl in Hg.
  case_decide; [|done]. subst.
  apply dict_get_None in Hk2 as Hn1. rewrite Hn1. symmetry.
  apply dict_get_None. unfold dict_keys. by rewrite <- H0.
Qed.

End dict_facts.

(** ** Grouping and counting *)

Section counting.
Context {K : Type} `{EqDecision K}.
Implicit Types (l : list K) (k x : K).

Lemma elem_of_first_seen x l : x ∈ first_seen l ↔ x ∈ l.
Proof.
  induction l as [|y l IH]; csimpl; [done|].
  rewrite !elem_of_cons, list_elem_of_filter, IH.
  destruct (decide (x = y)); naive_solver.
Qed.

Lemma NoDup_first_seen l : NoDup (first_seen l).
Proof.
  induction l as [|y l IH]; csimpl; [constructor|].
  apply NoDup_cons. split; [|by apply NoDup_filter].
  rewrite list_elem_of_filter. naive_solver.
Qed.

Lemma first_seen_snoc l x :
  first_seen (l ++ [x]) = if decide (x ∈ l) then first_seen l else first_seen l ++ [x].
Proof.
  induction l as [|y l IH]; csimpl.
  - destruct (decide (x ∈ [])) as [Hx|]; [by apply elem_of_nil in Hx|done].
  - rewrite IH. destruct (decide (x = y)) as [->|Hne].
    + rewrite (decide_True (P := y ∈ y :: l)) by left.
      destruct (decide (y ∈ l)); [done|].
      rewrite filter_app, filter_cons_False, filter_nil, app_nil_r by naive_solver.
      done.
    + destruct (decide (x ∈ l)) as [Hx|Hx].
      * rewrite (decide_True (P := x ∈ y :: l)) by (by right). done.
      * rewrite (decide_False (P := x ∈ y :: l)) by (rewrite elem_of_cons; naive_solver).
        rewrite filter_app, filter_cons_True by done. done.
Qed.

Lemma first_seen_remove_dups l : first_seen l ≡ₚ remove_dups l.
Proof.
  apply NoDup_Permutation; [apply NoDup_first_seen | apply NoDup_remove_dups |].
  intros x. by rewrite elem_of_first_seen, elem_of_remove_dups.
Qed.

Lemma length_first_seen l : length (first_seen l) = distinct l.
Proof. unfold distinct. by rewrite first_seen_remove_dups. Qed.

Lemma occurrences_snoc k l x :
  occurrences k (l ++ [x]) = occurrences k l + (if decide (x = k) then 1 else 0).
Proof.
  unfold occurrences. rewrite filter_app, length_app. f_equal.
  destruct (decide (x = k)).
  - by rewrite filter_cons_True.
  - by rewrite filter_cons_False.
Qed.

Lemma occurrences_pos k l : k ∈ l ↔ 0 < occurrences k l.
Proof.
  unfold occurrences. split.
  - intros Hk. assert (k ∈ filter (λ y, y = k) l) as Hin
      by (by apply list_elem_of_filter).
    destruct (filter _ l); [by apply elem_of_nil in Hin | simpl; lia].
  - intros Hlen. destruct (filter (λ y, y = k) l) as [|z l'] eqn:Hf; [simpl in Hlen; lia|].
    assert (z ∈ filter (λ y, y = k) l) as Hin by (rewrite Hf; left).
    apply list_elem_of_filter in Hin as [-> ?]. done.
Qed.

Lemma occurrences_notin k l : k ∉ l → occurrences k l = 0.
Proof.
  intros Hk. destruct (occurrences k l) eqn:Ho; [done|].
  exfalso. apply Hk, occurrences_pos. lia.
Qed.

Lemma dict_keys_table {V} (f : K → V) l :
  dict_keys ((λ k, (k, f k)) <$> l) = l.
Proof.
  unfold dict_keys. rewrite <- list_fmap_compose. apply list_fmap_id.
Qed.

Lemma dict_get_table {V} (f : K → V) l k :
  dict_get ((λ k, (k, f k)) <$> l) k = if decide (k ∈ l) then Some (f k) else None.
Proof.
  induction l as [|y l IH]; csimpl.
  - destruct (decide (k ∈ [])) as [Hx|]; [by apply elem_of_nil in Hx|done].
  - destruct (decide (k = y)) as [->|Hne].
    + rewrite decide_True by left. done.
    + rewrite IH. destruct (decide (k ∈ l)).
      * rewrite decide_True by (by right). done.
      * rewrite decide_False by (rewrite elem_of_cons; naive_solver). done.
Qed.

Lemma dict_keys_count_table l : dict_keys (count_table l) = first_seen l.
Proof. apply dict_keys_table. Qed.

Lemma dict_get_count_table l k :
  dict_get (count_table l) k = if decide (k ∈ l) then Some (occurrences k l) else None.
Proof.
  unfold count_table. rewrite dict_get_table.
  destruct (decide (k ∈ first_seen l)) as [Hk|Hk]; rewrite elem_of_first_seen in Hk.
  - by rewrite decide_True.
  - by rewrite decide_False.
Qed.

Lemma dict_incr_count_table l x :
  dict_incr (count_table l) x = count_table (l ++ [x]).
Proof.
  unfold dict_incr. apply dict_ext.
  - apply dict_keys_set_NoDup. rewrite dict_keys_count_table. apply NoDup_first_seen.
  - rewrite dict_keys_set, !dict_keys_count_table, first_seen_snoc.
    destruct (decide (x ∈ first_seen l)) as [Hx|Hx]; rewrite elem_of_first_seen in Hx.
    + by rewrite decide_True.
    + by rewrite decide_False.
  - intros k. rewrite dict_get_set, !dict_get_count_table, occurrences_snoc.
    destruct (decide (k = x)) as [->|Hne].
    + rewrite (decide_True (P := x ∈ l ++ [x])) by set_solver.
      rewrite (decide_True (P := x = x)) by done.
      destruct (decide (x ∈ l)) as [Hx|Hx]; simpl; [done|].
      f_equal. destruct (occurrences x l) eqn:Ho; [done|].
      exfalso. apply Hx, occurrences_pos. lia.
    + rewrite (decide_False (P := x = k)) by done.
      destruct (decide (k ∈ l)).
      * rewrite decide_True by set_solver. f_equal. lia.
      * rewrite decide_False by set_solver. done.
Qed.

(** The counting loop builds the count table of the keys it reads. *)
Lemma counting_loop {A} (f : A → K) (data : list A) :
  foldl (λ counts row, dict_incr counts (f row)) [] data = count_table (f <$> data).
Proof.
  induction data as [|row data IH] using rev_ind; [done|].
  rewrite foldl_app, fmap_app. simpl. rewrite IH. apply dict_incr_count_table.
Qed.

Lemma total_count_table l : total_count (count_table l) = length l.
Proof.
  induction l as [|x l IH] using rev_ind; [done|].
  rewrite <- dict_incr_count_table. unfold dict_incr, total_count in *.
  rewrite length_app. simpl. rewrite <- IH. clear IH.
  generalize (count_table l). intros d.
  induction d as [|[k0 n0] d IHd]; csimpl; [done|].
  destruct (decide (x = k0)) as [->|Hne]; csimpl; [lia|].
  rewrite IHd. lia.
Qed.

Lemma length_count_table l : length (count_table l) = distinct l.
Proof. unfold count_table. by rewrite length_fmap, length_first_seen. Qed.

End counting.

(** ** [sorted]: a stable sort *)

Section sorting.
Context {A : Type} (key : A → Z).
Implicit Types (x : A) (l : list A) (v : Z).

Lemma insert_asc_perm x l : insert_asc key x l ≡ₚ x :: l.
Proof.
  induction l as [|y l IH]; simpl; [done|].
  destruct (key x <=? key y)%Z; [done|].
  rewrite IH. apply Permutation_swap.
Qed.

Lemma sorted_perm l : sorted key l ≡ₚ l.
Proof.
  induction l as [|x l IH]; simpl; [done|].
  by rewrite insert_asc_perm, IH.
Qed.

Lemma insert_asc_sorted x l :
  StronglySorted (λ a b, (key a ≤ key b)%Z) l →
  StronglySorted (λ a b, (key a ≤ key b)%Z) (insert_asc key x l).
Proof.
  induction 1 as [|y l Hl IH Hy]; simpl.
  - repeat constructor.
  - destruct (Z.leb_spec (key x) (key y)).
    + constructor; [by constructor|].
      constructor; [done|]. eapply Forall_impl; [done|]. simpl. intros; lia.
    + constructor; [done|].
      rewrite insert_asc_perm. constructor; [lia|done].
Qed.

Lemma sorted_sorted l : StronglySorted (λ a b, (key a ≤ key b)%Z) (sorted key l).
Proof.
  induction l as [|x l IH]; simpl; [constructor|]. by apply insert_asc_sorted.
Qed.

Lemma insert_asc_stable v x l :
  filter (λ a, key a = v) (insert_asc key x l) = filter (λ a, key a = v) (x :: l).
Proof.
  induction l as [|y l IH]; simpl; [done|].
  destruct (Z.leb_spec (key x) (key y)); [done|].
  rewrite filter_cons, IH, !filter_cons.
  destruct (decide (key y = v)), (decide (key x = v)); try done. lia.
Qed.

(** Stability: records with equal keys keep their order. *)
Lemma sorted_stable v l :
  filter (λ a, key a = v) (sorted key l) = filter (λ a, key a = v) l.
Proof.
  induction l as [|x l IH]; simpl; [done|].
  by rewrite insert_asc_stable, !filter_cons, IH.
Qed.

End sorting.

Section sorting_reverse.
Context {A : Type} (key : A → Z).

Lemma sorted_reverse_sorted_neg (l : list A) :
  sorted_reverse key l = sorted (λ a, (- key a)%Z) l.
Proof.
  induction l as [|x l IH]; simpl; [done|].
  rewrite IH. generalize (sorted (λ a, (- key a)%Z) l). intros k.
  induction k as [|y k IHk]; simpl; [done|].
  rewrite IHk. destruct (Z.leb_spec (key y) (key x)), (Z.leb_spec (- key x) (- key y));
    (done || lia).
Qed.

Lemma sorted_reverse_perm (l : list A) : sorted_reverse key l ≡ₚ l.
Proof. rewrite sorted_reverse_sorted_neg. apply sorted_perm. Qed.

Lemma sorted_reverse_sorted (l : list A) :
  StronglySorted (λ a b, (key b ≤ key a)%Z) (sorted_reverse key l).
Proof.
  rewrite sorted_reverse_sorted_neg.
  induction (sorted_sorted (λ a, (- key a)%Z) l) as [|x k Hk IH Hx];
    constructor; [done|].
  eapply Forall_impl; [done|]. simpl. intros; lia.
Qed.

Lemma sorted_reverse_stable (v : Z) (l : list A) :
  filter (λ a, key a = v) (sorted_reverse key l) = filter (λ a, key a = v) l.
Proof.
  rewrite sorted_reverse_sorted_neg.
  transitivity (filter (λ a, (- key a)%Z = (- v)%Z) (sorted (λ a, (- key a)%Z) l)).
  { apply list_filter_iff. intros; lia. }
  rewrite sorted_stable. apply list_filter_iff. intros; lia.
Qed.

End sorting_reverse.

Lemma sorted_decorated {A} (f : A → Z) (l : list A) :
  sorted fst (zip (f <$> l) l) = (λ x, (f x, x)) <$> sorted f l.
Proof.
  induction l as [|x l IH]; csimpl; [done|].
  rewrite IH. generalize (sorted f l). intros k.
  induction k as [|y k IHk]; csimpl; [done|].
  destruct (f x <=? f y)%Z; [done|]. by rewrite IHk.
Qed.

(** A key function that does not raise on the elements of [l] sorts them. *)
Lemma sorted_try_Some {A} (key : A → option Z) (f : A → Z) (l : list A) :
  (∀ x, x ∈ l → key x = Some (f x)) → sorted_try key l = Some (sorted f l).
Proof.
  intros Hkey. unfold sorted_try.
  assert (mapM key l = Some (f <$> l)) as ->.
  { apply mapM_Some. apply Forall2_fmap_r, Forall_Forall2_diag, Forall_forall.
    intros x Hx. by apply Hkey. }
  simpl. rewrite sorted_decorated, <- list_fmap_compose. f_equal.
  apply list_fmap_id.
Qed.

(** Two lists sorted strictly by an injective rank, with the same elements,
    are the same list. *)
Lemma strictly_sorted_unique {A} (rank : A → Z) (l1 l2 : list A) :
  StronglySorted (λ a b, (rank a < rank b)%Z) l1 →
  StronglySorted (λ a b, (rank a < rank b)%Z) l2 →
  (∀ x, x ∈ l1 ↔ x ∈ l2) → l1 = l2.
Proof.
  revert l2. induction l1 as [|x l1 IH]; intros l2 H1 H2 Hel.
  - destruct l2 as [|y l2]; [done|]. exfalso.
    eapply elem_of_nil, Hel. left.
  - apply StronglySorted_inv in H1 as [H1 Hx].
    destruct l2 as [|y l2]; [exfalso; eapply elem_of_nil, Hel; left|].
    apply StronglySorted_inv in H2 as [H2 Hy].
    rewrite Forall_forall in Hx, Hy.
    assert (x = y) as <-.
    { pose proof (proj1 (Hel x) (list_elem_of_here _ _)) as Hxy.
      pose proof (proj2 (Hel y) (list_elem_of_here _ _)) as Hyx.
      apply elem_of_cons in Hxy as [?|Hxy]; [done|].
      apply elem_of_cons in Hyx as [?|Hyx]; [done|].
      specialize (Hx _ Hyx). specialize (Hy _ Hxy). lia. }
    f_equal. apply IH; [done..|].
    intros z. specialize (Hel z). rewrite !elem_of_cons in Hel.
    split; intros Hz.
    + destruct (proj1 Hel (or_intror Hz)) as [->|?]; [|done].
      specialize (Hx _ Hz). lia.
    + destruct (proj2 Hel (or_intror Hz)) as [->|?]; [|done].
      specialize (Hy _ Hz). lia.
Qed.

(** ** Hour buckets *)

Lemma make_Some y m d H M S t :
  make y m d H M S = Some t →
  t = mk_datetime y m d H M S ∧ (0 ≤ H ≤ 23)%Z ∧ (1 ≤ m ≤ 12)%Z ∧
  (1 ≤ d ≤ days_in_month y m)%Z ∧ (1 ≤ y ≤ 9999)%Z.
Proof.
  unfold make. intros Hm. case_match eqn:Hc; [|done]. simplify_eq.
  repeat (apply andb_prop in Hc as [Hc ?]). split; [done|]. lia.
Qed.

Lemma strptime_IMSp_hour s t : strptime_IMSp s = Some t → (0 ≤ hour t ≤ 23)%Z.
Proof.
  unfold strptime_IMSp. intros Hp.
  apply bind_Some in Hp as ([[[h m] sec] pm] & _ & Hm).
  apply make_Some in Hm as (-> & ? & _). simpl. lia.
Qed.

Lemma strptime_IMp_hour s t : strptime_IMp s = Some t → (0 ≤ hour t ≤ 23)%Z.
Proof.
  unfold strptime_IMp. intros Hp.
  apply bind_Some in Hp as ([[h m] pm] & _ & Hm).
  apply make_Some in Hm as (-> & ? & _). simpl. lia.
Qed.

Lemma strptime_HM_hour s t : strptime_HM s = Some t → (0 ≤ hour t ≤ 23)%Z.
Proof.
  unfold strptime_HM. intros Hp.
  apply bind_Some in Hp as ([h m] & _ & Hm).
  apply make_Some in Hm as (-> & ? & _). simpl. lia.
Qed.

Lemma parse_time_3_hour s t : parse_time_3 s = Some t → (0 ≤ hour t ≤ 23)%Z.
Proof.
  unfold parse_time_3. intros Hp.
  destruct (strptime_IMSp s) eqn:H1; simplify_eq; [by eapply strptime_IMSp_hour|].
  destruct (strptime_IMp s) eqn:H2; simplify_eq; [by eapply strptime_IMp_hour|].
  by eapply strptime_HM_hour.
Qed.

Lemma hour_cases (h : Z) :
  (0 ≤ h ≤ 23)%Z →
  h ∈ [0; 1; 2; 3; 4; 5; 6; 7; 8; 9; 10; 11; 12; 13; 14; 15; 16; 17; 18; 19;
       20; 21; 22; 23]%Z.
Proof.
  intros Hh. change (h ∈ seqZ 0 24). apply elem_of_seqZ. lia.
Qed.

Lemma hour_label_of_hour t : hour_label t = label_of_hour (hour t).
Proof. done. Qed.

Lemma strptime_Ip_label (h : Z) :
  (0 ≤ h ≤ 23)%Z → strptime_Ip (label_of_hour h) = Some (mk_datetime 1900 1 1 h 0 0).
Proof.
  intros Hh%hour_cases. repeat (apply elem_of_cons in Hh as [->|Hh]; [by vm_compute|]).
  by apply elem_of_nil in Hh.
Qed.

Lemma label_of_hour_not_Unknown (h : Z) :
  (0 ≤ h ≤ 23)%Z → label_of_hour h ≠ "Unknown".
Proof.
  intros Hh%hour_cases. repeat (apply elem_of_cons in Hh as [->|Hh]; [by vm_compute|]).
  by apply elem_of_nil in Hh.
Qed.

Lemma hour_label_padded t :
  (0 ≤ hour t ≤ 23)%Z → hour_label t = strip_leading_zero (padded_label t).
Proof.
  unfold hour_label, padded_label, strftime_Ip.
  intros Hh%hour_cases. repeat (apply elem_of_cons in Hh as [->|Hh]; [by vm_compute|]).
  by apply elem_of_nil in Hh.
Qed.

Lemma hour_rank_label (h : Z) :
  (0 ≤ h ≤ 23)%Z → hour_rank (label_of_hour h) = (timestamp (mk_datetime 1900 1 1 0 0 0) + h * 3600)%Z.
Proof.
  intros Hh. unfold hour_rank. rewrite strptime_Ip_label by done. simpl.
  unfold timestamp, toordinal. simpl. lia.
Qed.

Lemma first_parse_time s :
  first_parse [strptime_IMSp; strptime_IMp; strptime_HM] s = parse_time_3 s.
Proof.
  unfold parse_time_3. simpl.
  destruct (strptime_IMSp s), (strptime_IMp s), (strptime_HM s); done.
Qed.

Lemma hour_bucket_str s :
  hour_bucket (Some (VStr s)) =
    match parse_time_3 (strip s) with
    | Some t => hour_label t
    | None => "Unknown"
    end.
Proof.
  unfold hour_bucket. rewrite first_parse_time.
  destruct (parse_time_3 (strip s)) as [t|] eqn:Hp.
  - rewrite decide_False by (intros Heq; by rewrite Heq in Hp).
    symmetry. apply hour_label_padded. by eapply parse_time_3_hour.
  - by destruct (decide _).
Qed.

(** The bucket that [count_by_hour] tallies for a record is the
    Hour Bucket of its [incident_time]. *)
Lemma count_by_hour_step_bucket st row :
  (count_by_hour_step st row).1 = dict_incr st.1 (hour_bucket_of row).
Proof.
  destruct st as [hour_counts out]. unfold hour_bucket_of.
  destruct (row !! "incident_time") as [[|z|s]|] eqn:Hrow;
    rewrite ?hour_bucket_str; unfold count_by_hour_step, get; rewrite Hrow;
    cbn [default from_option id truthy isinstance_str str];
    rewrite ?andb_false_r; try done.
  destruct s as [|c s]; [done|]. cbn [andb].
  by destruct (parse_time_3 (strip (String c s))).
Qed.

Lemma count_by_hour_loop_table data :
  (count_by_hour_loop data).1 = count_table (hour_bucket_of <$> data).
Proof.
  unfold count_by_hour_loop.
  induction data as [|row data IH] using rev_ind; [done|].
  rewrite foldl_app, fmap_app. simpl.
  rewrite count_by_hour_step_bucket, IH. apply dict_incr_count_table.
Qed.

(** A bucket is [Unknown] or the label of an hour of the clock. *)
Lemma hour_bucket_cases raw :
  hour_bucket raw = "Unknown" ∨ ∃ h, (0 ≤ h ≤ 23)%Z ∧ hour_bucket raw = label_of_hour h.
Proof.
  unfold hour_bucket. destruct raw as [[|z|s]|]; auto.
  destruct (decide (strip s = "")); auto.
  rewrite first_parse_time.
  destruct (parse_time_3 _) as [t|] eqn:Hp; auto.
  right. exists (hour t).
  assert (0 ≤ hour t ≤ 23)%Z as Hh by (by eapply parse_time_3_hour).
  split; [done|]. by rewrite <- hour_label_padded.
Qed.

Lemma hour_bucket_of_cases row :
  hour_bucket_of row = "Unknown" ∨
  ∃ h, (0 ≤ h ≤ 23)%Z ∧ hour_bucket_of row = label_of_hour h.
Proof. apply hour_bucket_cases. Qed.

(** Every observed bucket other than [Unknown] is the label of an hour. *)
Lemma observed_hour_label (data : list record) (x : string) :
  x ∈ filter (λ h, h ≠ "Unknown") (first_seen (hour_bucket_of <$> data)) →
  ∃ h, (0 ≤ h ≤ 23)%Z ∧ x = label_of_hour h.
Proof.
  rewrite list_elem_of_filter, elem_of_first_seen, list_elem_of_fmap.
  intros [Hx (row & -> & _)].
  destruct (hour_bucket_of_cases row) as [?|?]; done.
Qed.

Lemma count_by_hour_table data : count_by_hour data = Some (hour_table data).
Proof.
  unfold count_by_hour, hour_table. rewrite count_by_hour_loop_table.
  set (buckets := hour_bucket_of <$> data).
  set (hc := count_table buckets).
  set (hc' := dict_set hc "Unknown" (default 0 (dict_get hc "Unknown"))).
  assert (filter (λ h, h ≠ "Unknown") (dict_keys hc')
          = filter (λ h, h ≠ "Unknown") (first_seen buckets)) as ->.
  { unfold hc', hc. rewrite dict_keys_set, dict_keys_count_table.
    destruct (decide _); [done|].
    rewrite filter_app, filter_cons_False, filter_nil, app_nil_r by naive_solver.
    done. }
  rewrite (sorted_try_Some _ hour_rank).
  2:{ intros x (h & Hh & ->)%observed_hour_label. unfold hour_rank.
      by rewrite strptime_Ip_label. }
  simpl. apply mapM_Some, Forall2_fmap_r, Forall_Forall2_diag, Forall_forall.
  intros h Hin. unfold hc', hc.
  rewrite dict_get_set, dict_get_count_table.
  destruct (decide (h = "Unknown")) as [->|Hne]; simpl.
  - destruct (decide ("Unknown" ∈ buckets)); simpl; [done|].
    by rewrite occurrences_notin.
  - rewrite dict_get_count_table, decide_True; [done|].
    apply elem_of_app in Hin as [Hin|Hin%list_elem_of_singleton]; [|done].
    rewrite sorted_perm in Hin.
    apply list_elem_of_filter in Hin as [_ Hin]. by rewrite elem_of_first_seen in Hin.
Qed.

Lemma StronglySorted_strengthen {A} (R R' : relation A) (l : list A) :
  StronglySorted R l → NoDup l →
  (∀ a b, a ∈ l → b ∈ l → a ≠ b → R a b → R' a b) →
  StronglySorted R' l.
Proof.
  induction 1 as [|x l Hl IH Hx]; intros Hnd HR; constructor.
  - apply NoDup_cons in Hnd as [_ Hnd]. apply IH; [done|].
    intros a b Ha Hb. apply HR; by right.
  - apply NoDup_cons in Hnd as [Hxl _]. rewrite Forall_forall in Hx.
    apply Forall_forall. intros y Hy. apply HR; [left|by right| |by apply Hx].
    intros ->. done.
Qed.

(** The observed hours, in the order [count_by_hour] gives them. *)
Lemma observed_hours_sorted (data : list record) :
  StronglySorted (λ a b, (hour_rank a < hour_rank b)%Z)
    (sorted hour_rank
       (filter (λ h, h ≠ "Unknown") (first_seen (hour_bucket_of <$> data)))).
Proof.
  eapply StronglySorted_strengthen; [apply sorted_sorted| |].
  - rewrite sorted_perm. apply NoDup_filter, NoDup_first_seen.
  - intros a b Ha Hb Hab Hle. rewrite sorted_perm in Ha, Hb.
    apply observed_hour_label in Ha as (ha & Hha & ->).
    apply observed_hour_label in Hb as (hb & Hhb & ->).
    rewrite !hour_rank_label in Hle |- * by done.
    assert (ha ≠ hb) by congruence. lia.
Qed.

Lemma hour_rank_chronological (a b : string) :
  (∃ h, (0 ≤ h ≤ 23)%Z ∧ a = label_of_hour h) →
  (∃ h, (0 ≤ h ≤ 23)%Z ∧ b = label_of_hour h) →
  (hour_rank a < hour_rank b)%Z → chronological a b.
Proof.
  intros (ha & Hha & ->) (hb & Hhb & ->) Hlt.
  rewrite !hour_rank_label in Hlt by done.
  eexists _, _. rewrite !strptime_Ip_label by done.
  split_and!; [done..|]. simpl. lia.
Qed.

Lemma filter_fmap {A B} (f : A → B) (P : B → Prop) `{∀ y, Decision (P y)}
    (l : list A) :
  filter P (f <$> l) = f <$> filter (λ x, P (f x)) l.
Proof.
  induction l as [|x l IH]; [done|].
  csimpl. rewrite !filter_cons, IH. by destruct (decide (P (f x))).
Qed.

Lemma occurrences_fmap {A B} `{EqDecision B} (f : A → B) (k : B) (l : list A) :
  occurrences k (f <$> l) = length (filter (λ x, f x = k) l).
Proof. unfold occurrences. by rewrite filter_fmap, length_fmap. Qed.

Lemma default_dict_get_count_table {K} `{EqDecision K} (l : list K) (k : K) :
  default 0 (dict_get (count_table l) k) = occurrences k l.
Proof.
  rewrite dict_get_count_table. destruct (decide (k ∈ l)); [done|].
  by rewrite occurrences_notin.
Qed.

Lemma default_dict_get_hour_table data h :
  default 0 (dict_get (hour_table data) h) = occurrences h (hour_bucket_of <$> data).
Proof.
  unfold hour_table. cbv zeta. rewrite dict_get_table.
  case_decide as Hh; [done|]. simpl. symmetry. apply occurrences_notin.
  intros Hin. apply Hh. apply elem_of_app.
  destruct (decide (h = "Unknown")) as [->|Hne]; [right; left|left].
  rewrite sorted_perm. apply list_elem_of_filter. split; [done|].
  by apply elem_of_first_seen.
Qed.



(** ** The counting metrics *)

Lemma count_by_grade_table data : count_by_grade data = count_table (grade_of <$> data).
Proof. apply (counting_loop grade_of). Qed.

Lemma count_by_location_table data :
  count_by_location data = count_table (location_of <$> data).
Proof. apply (counting_loop location_of). Qed.

Lemma count_by_subtype_table data :
  count_by_subtype data = count_table (subtype_of <$> data).
Proof. apply (counting_loop subtype_of). Qed.

Lemma top_students_table data n :
  top_students data n
  = slice_to n (sorted_reverse (λ x, Z.of_nat x.2) (count_table (student_of <$> data))).
Proof. unfold top_students. by rewrite (counting_loop student_of). Qed.

Lemma top_authors_table data n :
  top_authors data n
  = slice_to n (sorted_reverse (λ x, Z.of_nat x.2) (count_table (author_of <$> data))).
Proof. unfold top_authors. by rewrite (counting_loop author_of). Qed.

Lemma filter_all {A} (P : A → Prop) `{∀ x, Decision (P x)} (l : list A) :
  (∀ x, x ∈ l → P x) → filter P l = l.
Proof.
  induction l as [|x l IH]; intros Hl; [done|].
  rewrite filter_cons_True by (apply Hl; left).
  f_equal. apply IH. intros y Hy. apply Hl. by right.
Qed.

Lemma sum_list_fmap {A} (f : A → nat) (l : list A) :
  sum_list (f <$> l) = sum_list_with f l.
Proof. induction l as [|x l IH]; csimpl; [done|]. by rewrite IH. Qed.

Lemma total_count_app {K} (l1 l2 : list (K * nat)) :
  total_count (l1 ++ l2) = total_count l1 + total_count l2.
Proof. unfold total_count. by rewrite fmap_app, sum_list_with_app. Qed.

Lemma total_count_perm {K} (l1 l2 : list (K * nat)) :
  l1 ≡ₚ l2 → total_count l1 = total_count l2.
Proof. unfold total_count. by intros ->. Qed.

Lemma total_count_table_with {K} (f : K → nat) (l : list K) :
  total_count ((λ k, (k, f k)) <$> l) = sum_list_with f l.
Proof.
  unfold total_count. rewrite <- list_fmap_compose. apply sum_list_fmap.
Qed.

Lemma total_count_hour_table data : total_count (hour_table data) = length data.
Proof.
  set (buckets := hour_bucket_of <$> data).
  transitivity (total_count (count_table buckets));
    [|by rewrite total_count_table; unfold buckets; rewrite length_fmap].
  unfold hour_table, count_table. fold buckets.
  rewrite !total_count_table_with, sum_list_with_app, sorted_perm. simpl.
  destruct (decide ("Unknown" ∈ buckets)) as [Hin|Hout].
  - rewrite <- (filter_app_complement (λ h, h ≠ "Unknown") (first_seen buckets)) at 2.
    rewrite sum_list_with_app. f_equal.
    assert (filter (λ h, ¬ h ≠ "Unknown") (first_seen buckets) ≡ₚ ["Unknown"]) as ->;
      [|done].
    apply NoDup_Permutation; [apply NoDup_filter, NoDup_first_seen|apply NoDup_singleton|].
    intros x. rewrite list_elem_of_filter, elem_of_first_seen, list_elem_of_singleton.
    split; [intros [Hx _]; by destruct (decide (x = "Unknown"))|intros ->; naive_solver].
  - rewrite occurrences_notin by done.
    rewrite filter_all; [lia|].
    intros x Hx ->. by rewrite elem_of_first_seen in Hx.
Qed.

(** ** Grouping loops *)

Section grouping.
Context {A K V : Type} `{EqDecision K}.
Context (f : A → K) (summary : list A → V) (update : option V → A → V).
Hypothesis update_None : ∀ a, update None a = summary [a].
Hypothesis update_Some : ∀ l a, update (Some (summary l)) a = summary (l ++ [a]).

Lemma filter_key_absent (k : K) (data : list A) :
  k ∉ f <$> data → filter (λ a, f a = k) data = [].
Proof.
  intros Hk. induction data as [|a data IH]; [done|].
  rewrite fmap_cons, not_elem_of_cons in Hk. destruct Hk as [Hne Hk].
  rewrite filter_cons_False by done. by apply IH.
Qed.

Lemma dict_get_group_table (data : list A) (k : K) :
  dict_get (group_table f summary data) k
  = if decide (k ∈ f <$> data) then Some (summary (filter (λ a, f a = k) data))
    else None.
Proof.
  unfold group_table. rewrite dict_get_table.
  destruct (decide (k ∈ first_seen (f <$> data))) as [Hk|Hk];
    rewrite elem_of_first_seen in Hk.
  - by rewrite decide_True.
  - by rewrite decide_False.
Qed.

Lemma group_table_snoc (data : list A) (a : A) :
  dict_set (group_table f summary data) (f a)
    (update (dict_get (group_table f summary data) (f a)) a)
  = group_table f summary (data ++ [a]).
Proof.
  apply dict_ext.
  - apply dict_keys_set_NoDup. unfold group_table. rewrite dict_keys_table.
    apply NoDup_first_seen.
  - rewrite dict_keys_set. unfold group_table.
    rewrite !dict_keys_table, fmap_app.
    change (f <$> [a]) with [f a]. rewrite first_seen_snoc.
    destruct (decide (f a ∈ first_seen (f <$> data))) as [Hx|Hx];
      rewrite elem_of_first_seen in Hx.
    + by rewrite decide_True.
    + by rewrite decide_False.
  - intros k. rewrite dict_get_set, !dict_get_group_table, filter_app.
    destruct (decide (k = f a)) as [->|Hne].
    + rewrite (decide_True (P := f a ∈ f <$> data ++ [a]))
        by (rewrite fmap_app; set_solver).
      rewrite filter_cons_True, filter_nil by done. f_equal.
      destruct (decide (f a ∈ f <$> data)) as [Hin|Hout].
      * apply update_Some.
      * rewrite filter_key_absent by done. apply update_None.
    + rewrite filter_cons_False, filter_nil, app_nil_r by done.
      destruct (decide (k ∈ f <$> data)) as [Hin|Hout].
      * rewrite decide_True by (rewrite fmap_app; set_solver). done.
      * rewrite decide_False; [done|]. rewrite fmap_app. set_solver.
Qed.

(** A loop that updates the entry of the key of every element builds the
    group table. *)
Lemma grouping_loop (data : list A) :
  foldl (λ d a, dict_set d (f a) (update (dict_get d (f a)) a)) [] data
  = group_table f summary data.
Proof.
  induction data as [|a data IH] using rev_ind; [done|].
  rewrite foldl_app. simpl. rewrite IH. apply group_table_snoc.
Qed.

End grouping.

Lemma dict_set_twice {K V} `{EqDecision K} (d : list (K * V)) k v v' :
  dict_set (dict_set d k v) k v' = dict_set d k v'.
Proof.
  induction d as [|[k0 v0] d IH]; simpl.
  - by rewrite decide_True.
  - destruct (decide (k = k0)) as [->|Hne]; simpl.
    + by rewrite decide_True.
    + rewrite decide_False by done. by rewrite IH.
Qed.

(** ** The building partitions *)

Lemma building_groups_step_set groups row :
  building_groups_step groups row
  = dict_set groups (school_of row)
      (default [] (dict_get groups (school_of row)) ++ [row]).
Proof.
  unfold building_groups_step. fold (school_of row).
  destruct (dict_get groups (school_of row)) eqn:Hg; [by rewrite Hg|].
  rewrite dict_get_set, decide_True by done. simpl. apply dict_set_twice.
Qed.

Lemma building_groups_table data :
  building_groups data = group_table school_of (λ rows, rows) data.
Proof.
  unfold building_groups.
  rewrite <- (grouping_loop school_of (λ rows, rows)
                (λ o row, default [] o ++ [row])) by done.
  induction data as [|row data IH] using rev_ind; [done|].
  rewrite !foldl_app. simpl. by rewrite building_groups_step_set, IH.
Qed.

Lemma building_groups_step_perm groups row :
  mjoin (building_groups_step groups row).*2 ≡ₚ row :: mjoin groups.*2.
Proof.
  rewrite building_groups_step_set. generalize (school_of row). intros k.
  induction groups as [|[k0 rows] groups IH]; csimpl; [done|].
  destruct (decide (k = k0)) as [->|Hne]; csimpl.
  - rewrite <- app_assoc. simpl. by rewrite <- Permutation_middle.
  - rewrite IH. by rewrite Permutation_middle.
Qed.

Lemma building_groups_perm data : mjoin (building_groups data).*2 ≡ₚ data.
Proof.
  unfold building_groups.
  induction data as [|row data IH] using rev_ind; [done|].
  rewrite foldl_app. simpl. rewrite building_groups_step_perm, IH.
  by rewrite <- Permutation_cons_append.
Qed.

(** C5: grouping by [student_school], with [Unknown Building] for a record
    without the field, puts every record in exactly one partition, the
    partitions taken together are the collection, with nothing dropped and
    nothing twice, and the partitions come in the order in which their
    schools are first seen. *)
Theorem building_groups_partition (data : list record) :
  (building_groups data).*1 = first_seen (school_of <$> data)
  ∧ NoDup (building_groups data).*1
  ∧ (∀ school rows, (school, rows) ∈ building_groups data →
       rows = filter (λ row, school_of row = school) data)
  ∧ (∀ row, row ∈ data →
       ∃ rows, (school_of row, rows) ∈ building_groups data ∧ row ∈ rows)
  ∧ (∀ row school rows, (school, rows) ∈ building_groups data → row ∈ rows →
       school = school_of row)
  ∧ mjoin (building_groups data).*2 ≡ₚ data
  ∧ (∀ row, row !! "student_school" = None → school_of row = VStr "Unknown Building").
Proof.
  assert (∀ school rows, (school, rows) ∈ building_groups data →
            rows = filter (λ row, school_of row = school) data) as Hrows.
  { intros school rows. rewrite building_groups_table. unfold group_table.
    rewrite list_elem_of_fmap. intros (k & [= -> ->] & _). done. }
  split_and!.
  - rewrite building_groups_table. apply (dict_keys_table (K := value)).
  - rewrite building_groups_table.
    assert ((group_table school_of (λ rows, rows) data).*1
            = first_seen (school_of <$> data)) as ->
      by apply (dict_keys_table (K := value)).
    apply NoDup_first_seen.
  - done.
  - intros row Hrow. exists (filter (λ r, school_of r = school_of row) data). split.
    + rewrite building_groups_table. unfold group_table.
      apply list_elem_of_fmap. exists (school_of row). split; [done|].
      apply elem_of_first_seen, list_elem_of_fmap. eauto.
    + by apply list_elem_of_filter.
  - intros row school rows Hin Hrow. apply Hrows in Hin as ->.
    by apply list_elem_of_filter in Hrow as [-> _].
  - apply building_groups_perm.
  - intros row Hrow. unfold school_of, get. by rewrite Hrow.
Qed.

(** ** The hour by location breakdown *)

Lemma hourly_location_hour_cases row :
  hourly_location_hour row = "Unknown" ∨
  ∃ h, (0 ≤ h ≤ 23)%Z ∧ hourly_location_hour row = label_of_hour h.
Proof.
  unfold hourly_location_hour.
  destruct (truthy _); [|by left].
  destruct (strptime_IMp _) as [t|] eqn:Hp; [|by left].
  right. exists (hour t). split; [by eapply strptime_IMp_hour|done].
Qed.

Lemma hourly_location_loop data :
  foldl hourly_location_step [] data
  = group_table hourly_location_hour (λ rows, count_table (location_of <$> rows)) data.
Proof.
  apply (grouping_loop hourly_location_hour
           (λ rows, count_table (location_of <$> rows))
           (λ o row, dict_incr (default [] o) (location_of row))).
  - intros a. apply (dict_incr_count_table [] (location_of a)).
  - intros l a. simpl. rewrite fmap_app. apply dict_incr_count_table.
Qed.

Lemma hourly_location_table data : hourly_location data = Some (breakdown_table data).
Proof.
  unfold hourly_location, breakdown_table. rewrite hourly_location_loop.
  rewrite (sorted_try_Some _ breakdown_rank); [done|].
  intros [hour locations]. unfold group_table.
  rewrite list_elem_of_fmap. intros (k & [= -> _] & Hk).
  apply elem_of_first_seen, list_elem_of_fmap in Hk as (row & -> & _).
  unfold hourly_location_key, breakdown_rank. simpl.
  destruct (decide _) as [Hne|]; [|done].
  destruct (hourly_location_hour_cases row) as [?|(h & Hh & ->)]; [done|].
  unfold hour_rank. by rewrite strptime_Ip_label.
Qed.

Lemma total_count_incr {K} `{EqDecision K} (d : list (K * nat)) (k : K) :
  total_count (dict_incr d k) = S (total_count d).
Proof.
  unfold dict_incr, total_count.
  induction d as [|[k0 n0] d IH]; csimpl; [done|].
  destruct (decide (k = k0)) as [->|Hne]; csimpl; [lia|].
  rewrite IH. lia.
Qed.

Lemma total_count_breakdown_rows groups :
  total_count (breakdown_rows groups) = sum_list (total_count <$> groups.*2).
Proof.
  unfold breakdown_rows.
  induction groups as [|[hour locations] groups IH]; csimpl; [done|].
  rewrite total_count_app, IH. f_equal.
  unfold total_count. rewrite <- list_fmap_compose. done.
Qed.

Lemma total_count_hourly_location_step counts row :
  sum_list (total_count <$> (hourly_location_step counts row).*2)
  = S (sum_list (total_count <$> counts.*2)).
Proof.
  unfold hourly_location_step.
  generalize (hourly_location_hour row) (get row "incident_location" (VStr "Unknown")).
  intros hour location.
  induction counts as [|[k0 d0] counts IH]; [done|].
  cbn [dict_get dict_set].
  destruct (decide (hour = k0)) as [->|Hne]; csimpl.
  - rewrite total_count_incr. lia.
  - rewrite IH. lia.
Qed.

Lemma total_count_breakdown_table data : total_count (breakdown_table data) = length data.
Proof.
  unfold breakdown_table. rewrite total_count_breakdown_rows, sorted_perm.
  rewrite <- hourly_location_loop.
  induction data as [|row data IH] using rev_ind; [done|].
  rewrite foldl_app, length_app. simpl.
  rewrite total_count_hourly_location_step, IH. lia.
Qed.


(** C1: a record whose [incident_time] is in the 24-hour form is bucketed
    as its hour by [count_by_hour] and as [Unknown] by [hourly_location],
    which tries the 12-hour pattern without seconds only. *)
Theorem hourly_location_one_pattern :
  let row : record := {[ "incident_time" := VStr "14:30" ]} in
  hour_bucket_of row = "2pm"
  ∧ count_by_hour [row] = Some [("2pm", 1); ("Unknown", 0)]
  ∧ hourly_location_hour row = "Unknown"
  ∧ hourly_location [row] = Some [("Unknown", VStr "Unknown", 1)].
Proof. by vm_compute. Qed.

(** ** The empty collection *)

(** C8, as stated, fails: on the empty collection [count_by_hour] returns
    the row of [Unknown] with count 0, not an empty table. *)
Lemma count_by_hour_empty_not_empty :
  count_by_hour [] = Some [("Unknown", 0)] ∧ count_by_hour [] ≠ Some [].
Proof. split; by vm_compute. Qed.

Lemma slice_to_nil {A} n : slice_to n (@nil A) = [].
Proof. unfold slice_to. destruct (0 <=? n)%Z; by rewrite take_nil. Qed.

(** C8, amended: on the empty collection no metric function fails;
    [count_by_grade], [count_by_location], [count_by_subtype],
    [top_students], [top_authors] and [hourly_location] return an empty
    table, [count_by_date] a pair of empty tables, and [count_by_hour] the
    single row of [Unknown] with count 0. *)
Theorem metrics_of_empty (env : environment) :
  count_by_grade [] = []
  ∧ count_by_location [] = []
  ∧ count_by_subtype [] = []
  ∧ count_by_hour [] = Some [("Unknown", 0)]
  ∧ count_by_date env [] = Some (mk_date_metric [] [])
  ∧ (∀ top_n, top_students [] top_n = [])
  ∧ (∀ top_n, top_authors [] top_n = [])
  ∧ hourly_location [] = Some []
  ∧ is_Some (calculate_summary_metrics env []).
Proof.
  split_and!.
  - done.
  - done.
  - done.
  - by vm_compute.
  - by vm_compute.
  - intros top_n. apply slice_to_nil.
  - intros top_n. apply slice_to_nil.
  - by vm_compute.
  - eexists. by vm_compute.
Qed.

(** ** The rankings *)

Lemma filter_sublist {A} (P : A → Prop) `{∀ x, Decision (P x)} (l1 l2 : list A) :
  l1 `sublist_of` l2 → filter P l1 `sublist_of` filter P l2.
Proof.
  induction 1 as [|x l1 l2 Hl IH|x l1 l2 Hl IH]; [done| |].
  - rewrite !filter_cons. destruct (decide (P x)); [by constructor|done].
  - rewrite filter_cons. destruct (decide (P x)); [by constructor|done].
Qed.

Lemma StronglySorted_sublist {A} (R : relation A) (l1 l2 : list A) :
  l1 `sublist_of` l2 → StronglySorted R l2 → StronglySorted R l1.
Proof.
  induction 1 as [|x l1 l2 Hl IH|x l1 l2 Hl IH]; intros Hs; [done| |].
  - apply StronglySorted_inv in Hs as [Hs Hx]. constructor; [by apply IH|].
    rewrite Forall_forall in Hx. apply Forall_forall. intros y Hy.
    apply Hx. by eapply elem_of_sublist.
  - apply StronglySorted_inv in Hs as [Hs _]. by apply IH.
Qed.

Section ranking.
Context (key_of : record → value).

Lemma ranking_perm data : ranking key_of data ≡ₚ count_table (key_of <$> data).
Proof. apply sorted_reverse_perm. Qed.

Lemma ranking_descending data n :
  StronglySorted (λ a b, b.2 ≤ a.2) (take n (ranking key_of data)).
Proof.
  apply (StronglySorted_sublist _ _ (ranking key_of data)); [apply sublist_take|].
  unfold ranking.
  induction (sorted_reverse_sorted (λ x : value * nat, Z.of_nat x.2)
               (count_table (key_of <$> data)))
    as [|x k Hk IH Hx]; constructor; [done|].
  eapply Forall_impl; [done|]. simpl. intros; lia.
Qed.

Lemma ranking_ties data n a b :
  before a b (take n (ranking key_of data)) → a.2 = b.2 →
  before a.1 b.1 (first_seen (key_of <$> data)).
Proof.
  unfold before. intros Hab Heq.
  assert ([a; b] `sublist_of` ranking key_of data) as Hr
    by (etrans; [done|apply sublist_take]).
  apply (filter_sublist (λ x, Z.of_nat x.2 = Z.of_nat a.2)) in Hr.
  rewrite filter_cons_True, filter_cons_True, filter_nil in Hr by (simpl; lia).
  unfold ranking in Hr. rewrite sorted_reverse_stable in Hr.
  assert ([a; b] `sublist_of` count_table (key_of <$> data)) as Hc
    by (etrans; [done|apply sublist_filter]).
  apply (fmap_sublist fst) in Hc.
  change ((count_table (key_of <$> data)).*1)
    with (dict_keys (count_table (key_of <$> data))) in Hc.
  by rewrite dict_keys_count_table in Hc.
Qed.

Lemma length_ranking data (n : nat) :
  length (take n (ranking key_of data)) = n `min` distinct (key_of <$> data).
Proof. by rewrite length_take, ranking_perm, length_count_table. Qed.

End ranking.

(** ** Calendar dates *)

Lemma digit_cases (k : Z) : (0 ≤ k ≤ 9)%Z → k ∈ [0; 1; 2; 3; 4; 5; 6; 7; 8; 9]%Z.
Proof. intros Hk. change (k ∈ seqZ 0 10). apply elem_of_seqZ. lia. Qed.

Lemma month_cases (m : Z) :
  (1 ≤ m ≤ 12)%Z → m ∈ [1; 2; 3; 4; 5; 6; 7; 8; 9; 10; 11; 12]%Z.
Proof. intros Hm. change (m ∈ seqZ 1 12). apply elem_of_seqZ. lia. Qed.

Lemma day_cases (d : Z) :
  (1 ≤ d ≤ 31)%Z →
  d ∈ [1; 2; 3; 4; 5; 6; 7; 8; 9; 10; 11; 12; 13; 14; 15; 16; 17; 18; 19; 20;
       21; 22; 23; 24; 25; 26; 27; 28; 29; 30; 31]%Z.
Proof. intros Hd. change (d ∈ seqZ 1 31). apply elem_of_seqZ. lia. Qed.

Lemma re_range_digit_char (k : Z) (rest : string) :
  (0 ≤ k ≤ 9)%Z → re_range 0 9 (String (digit_char k) rest) = [(k, rest)].
Proof.
  intros Hk%digit_cases.
  repeat (apply elem_of_cons in Hk as [->|Hk]; [done|]).
  by apply elem_of_nil in Hk.
Qed.

Lemma re_digit_digit_char (k : Z) (rest : string) :
  (0 ≤ k ≤ 9)%Z → re_digit (String (digit_char k) rest) = [(k, rest)].
Proof.
  intros Hk%digit_cases.
  repeat (apply elem_of_cons in Hk as [->|Hk]; [by vm_compute|]).
  by apply elem_of_nil in Hk.
Qed.

Lemma list_bind_singleton {A B} (f : A → list B) (x : A) : [x] ≫= f = f x.
Proof. simpl. apply app_nil_r. Qed.

Lemma re_Y_zfill4 (y : Z) (rest : string) :
  (0 ≤ y ≤ 9999)%Z → re_Y (zfill4 y +:+ rest) = [(y, rest)].
Proof.
  intros Hy.
  pose proof (Z.div_mod y 100 ltac:(lia)).
  pose proof (Z.mod_pos_bound y 100 ltac:(lia)).
  pose proof (Z.div_mod (y `div` 100) 10 ltac:(lia)).
  pose proof (Z.mod_pos_bound (y `div` 100) 10 ltac:(lia)).
  pose proof (Z.div_mod (y `mod` 100) 10 ltac:(lia)).
  pose proof (Z.mod_pos_bound (y `mod` 100) 10 ltac:(lia)).
  change (zfill4 y +:+ rest)
    with (String (digit_char ((y `div` 100) `div` 10))
            (String (digit_char ((y `div` 100) `mod` 10))
               (String (digit_char ((y `mod` 100) `div` 10))
                  (String (digit_char ((y `mod` 100) `mod` 10)) rest)))).
  unfold re_Y.
  rewrite re_digit_digit_char, list_bind_singleton by lia. cbv beta iota.
  rewrite re_digit_digit_char, list_bind_singleton by lia. cbv beta iota.
  rewrite re_digit_digit_char, list_bind_singleton by lia. cbv beta iota.
  rewrite re_digit_digit_char, list_bind_singleton by lia. cbv beta iota.
  do 2 f_equal. lia.
Qed.

Lemma re_m_zfill2 (m : Z) (rest : string) :
  (1 ≤ m ≤ 12)%Z → ∃ tl, re_m (zfill2 m +:+ rest) = (m, rest) :: tl.
Proof.
  intros Hm%month_cases.
  repeat (apply elem_of_cons in Hm as [->|Hm]; [eexists; reflexivity|]).
  by apply elem_of_nil in Hm.
Qed.

Lemma re_d_zfill2 (d : Z) (rest : string) :
  (1 ≤ d ≤ 31)%Z → ∃ tl, re_d (zfill2 d +:+ rest) = (d, rest) :: tl.
Proof.
  intros Hd%day_cases.
  repeat (apply elem_of_cons in Hd as [->|Hd]; [eexists; reflexivity|]).
  by apply elem_of_nil in Hd.
Qed.

Lemma list_bind_cons_head {A B} (f : A → list B) (x : A) (tl : list A) (b : B) l :
  f x = b :: l → ∃ l', (x :: tl) ≫= f = b :: l'.
Proof. intros Hf. simpl. rewrite Hf. eauto. Qed.

Lemma days_in_month_le y m : (days_in_month y m ≤ 31)%Z.
Proof. unfold days_in_month. repeat case_match; lia. Qed.

(** The format reads a date of the calendar from its canonical form, on
    either separator. *)
Lemma strptime_mdY_canonical (sep : ascii) t :
  make (year t) (month t) (day t) 0 0 0 = Some t →
  strptime_mdY sep (zfill2 (month t) +:+ String sep (zfill2 (day t)
                      +:+ String sep (zfill4 (year t)))) = Some t.
Proof.
  intros Hmake. apply make_Some in Hmake as Hm.
  destruct Hm as (_ & _ & Hmo & Hd & Hy).
  pose proof (days_in_month_le (year t) (month t)).
  unfold strptime_mdY.
  assert (∀ s, re_char sep (String sep s) = [(tt, s)]) as Hsep.
  { intros s. unfold re_char. by rewrite Ascii.eqb_refl. }
  assert (∃ tl, (re_m (zfill2 (month t) +:+ String sep (zfill2 (day t)
                         +:+ String sep (zfill4 (year t))))
            ≫= λ '(m, s1), re_char sep s1
            ≫= λ '(_, s2), re_d s2
            ≫= λ '(d, s3), re_char sep s3
            ≫= λ '(_, s4), re_Y s4
            ≫= λ '(y, s5), [((m, d, y), s5)])
          = ((month t, day t, year t), "") :: tl) as [tl Htl].
  { destruct (re_m_zfill2 (month t) (String sep (zfill2 (day t) +:+ String sep (zfill4 (year t)))))
      as [tl1 ->]; [done|].
    destruct (re_d_zfill2 (day t) (String sep (zfill4 (year t)))) as [tl2 Hday]; [lia|].
    eapply list_bind_cons_head. cbv beta iota.
    rewrite Hsep, list_bind_singleton. cbv beta iota.
    rewrite Hday. simpl mbind. cbv beta iota.
    rewrite Ascii.eqb_refl. simpl mbind. cbv beta iota.
    change (zfill4 (year t)) with (zfill4 (year t) +:+ "") at 1.
    rewrite re_Y_zfill4 by lia. simpl. reflexivity. }
  unfold full_match. rewrite Htl. simpl. done.
Qed.

(** The pattern with slashes rejects a date written with dashes. *)
Lemma strptime_mdY_slash_dashed (m : Z) (rest : string) :
  (1 ≤ m ≤ 12)%Z → strptime_mdY "/" (zfill2 m +:+ String "-" rest) = None.
Proof.
  intros Hm%month_cases. unfold strptime_mdY.
  repeat (apply elem_of_cons in Hm as [->|Hm]; [done|]).
  by apply elem_of_nil in Hm.
Qed.

Lemma lstrip_zero_zfill4 (y : Z) :
  (1000 ≤ y ≤ 9999)%Z → lstrip_zero (zfill4 y) = zfill4 y.
Proof.
  intros Hy.
  assert (1 ≤ (y `div` 100) `div` 10 ≤ 9)%Z as Hk.
  { rewrite Z.div_div by lia. change (100 * 10)%Z with 1000%Z.
    pose proof (Z.div_le_mono 1000 y 1000 ltac:(lia) ltac:(lia)).
    pose proof (Z.div_le_mono y 9999 1000 ltac:(lia) ltac:(lia)).
    change (1000 `div` 1000)%Z with 1%Z in *. change (9999 `div` 1000)%Z with 9%Z in *.
    lia. }
  change (zfill4 y)
    with (String (digit_char ((y `div` 100) `div` 10))
            (String (digit_char ((y `div` 100) `mod` 10)) (zfill2 (y `mod` 100)))).
  generalize (String (digit_char ((y `div` 100) `mod` 10)) (zfill2 (y `mod` 100))).
  intros rest.
  assert ((y `div` 100) `div` 10 ∈ seqZ 1 9)%Z as Hin by (apply elem_of_seqZ; lia).
  change (seqZ 1 9) with [1; 2; 3; 4; 5; 6; 7; 8; 9]%Z in Hin.
  repeat (apply elem_of_cons in Hin as [->|Hin]; [done|]).
  by apply elem_of_nil in Hin.
Qed.

Section calendar.
Context (env : environment).

(** Where the year is written on four digits, [strftime] writes the
    canonical form. *)
Lemma strftime_Y_zfill4 (y : Z) :
  pads_year env = true ∨ (1000 ≤ y)%Z → (y ≤ 9999)%Z → strftime_Y env y = zfill4 y.
Proof.
  intros Hpad Hy. unfold strftime_Y.
  destruct (pads_year env); [done|]. destruct Hpad as [|Hpad]; [done|].
  apply lstrip_zero_zfill4. lia.
Qed.

(** A date that an environment holds reads back, if its year is written
    on four digits and its key is no special string: the second loop of
    [count_by_date] then finds it again. *)
Lemma reads_back_valid t :
  valid_date env t →
  pads_year env = true ∨ (1000 ≤ year t)%Z →
  special env (strftime_mdY env t) = None →
  reads_back env t.
Proof.
  intros [Hmake Hb] Hpad Hs. apply make_Some in Hmake as Hm.
  destruct Hm as (_ & _ & _ & _ & Hy).
  unfold reads_back, to_datetime. rewrite Hs.
  unfold strftime_mdY. rewrite strftime_Y_zfill4 by (done || lia).
  change (zfill2 (month t) +:+ "/" +:+ zfill2 (day t) +:+ "/" +:+ zfill4 (year t))
    with (zfill2 (month t) +:+ String "/" (zfill2 (day t) +:+ String "/" (zfill4 (year t)))).
  rewrite strptime_mdY_canonical by done. simpl. by rewrite Hb.
Qed.

Lemma reads_back_inj t1 t2 :
  reads_back env t1 → reads_back env t2 →
  strftime_mdY env t1 = strftime_mdY env t2 → t1 = t2.
Proof. unfold reads_back. intros H1 H2 Heq. rewrite Heq in H1. congruence. Qed.

(** ** Dates and weekdays *)

Lemma first_parse_date s :
  first_parse [to_datetime env "/"; to_datetime env "-"] s
  = match to_datetime env "/" s with
    | None => to_datetime env "-" s
    | Some t => Some t
    end.
Proof. simpl. destruct (to_datetime env "/" s), (to_datetime env "-" s); done. Qed.

Lemma count_by_date_step_date st row :
  count_by_date_step env st row
  = match calendar_date_of env row with
    | Some t =>
        mk_date_state (dict_incr (date_counts st) (strftime_mdY env t))
          (dict_incr (day_totals st) (strftime_A t)) (printed st)
    | None =>
        mk_date_state (date_counts st) (day_totals st)
          (printed st ++ [date_diagnostic row])
    end.
Proof.
  unfold count_by_date_step, calendar_date_of, calendar_date, date_diagnostic, get.
  destruct (row !! "incident_date") as [[|z|s]|] eqn:Hrow;
    cbn [default from_option id truthy isinstance_str str];
    rewrite ?andb_false_r; try done.
  destruct s as [|c s]; [done|]. cbn [andb]. rewrite first_parse_date.
  destruct (to_datetime env "/" (String c s)) as [t|]; [done|].
  by destruct (to_datetime env "-" (String c s)).
Qed.

Lemma dates_of_snoc data row :
  dates_of env (data ++ [row])
  = dates_of env data ++ match calendar_date_of env row with Some t => [t] | None => [] end.
Proof.
  unfold dates_of. rewrite omap_app. simpl. by destruct (calendar_date_of env row).
Qed.

Lemma dates_of_app data1 data2 :
  dates_of env (data1 ++ data2) = dates_of env data1 ++ dates_of env data2.
Proof. apply omap_app. Qed.

Lemma date_diagnostics_app data1 data2 :
  date_diagnostics env (data1 ++ data2)
  = date_diagnostics env data1 ++ date_diagnostics env data2.
Proof. unfold date_diagnostics. by rewrite filter_app, fmap_app. Qed.

Lemma regular_app data1 data2 :
  regular env (data1 ++ data2) ↔ regular env data1 ∧ regular env data2.
Proof.
  unfold regular. rewrite dates_of_app. setoid_rewrite elem_of_app. naive_solver.
Qed.

Lemma count_by_date_first_loop data :
  foldl (count_by_date_step env) (mk_date_state [] [] []) data
  = mk_date_state (date_table env data)
      (count_table (strftime_A <$> dates_of env data)) (date_diagnostics env data).
Proof.
  unfold date_table, date_diagnostics.
  induction data as [|row data IH] using rev_ind; [done|].
  rewrite foldl_app. simpl. rewrite IH, count_by_date_step_date, dates_of_snoc.
  rewrite filter_app. simpl.
  destruct (calendar_date_of env row) as [t|] eqn:Hrow.
  - rewrite !fmap_app. simpl. rewrite !dict_incr_count_table.
    rewrite filter_cons_False, filter_nil, app_nil_r by (by rewrite Hrow). done.
  - rewrite !app_nil_r, filter_cons_True, filter_nil, fmap_app by done. done.
Qed.

Lemma count_by_date_first_printed_diagnostics data :
  count_by_date_first_printed env data = date_diagnostics env data.
Proof. unfold count_by_date_first_printed. by rewrite count_by_date_first_loop. Qed.

(** The second loop counts a key that parses on the weekday of the date it
    parses to, and prints a line for a key that does not. *)
Lemma day_counts_loop (table : list (string * nat)) day_counts out :
  foldl (day_counts_step env) (day_counts, out) table
  = (foldl (λ d t, dict_incr d (strftime_A t)) day_counts
       (omap (to_datetime env "/") table.*1),
     out ++ (ErrorReparsingDate
             <$> filter (λ key, to_datetime env "/" key = None) table.*1)).
Proof.
  revert day_counts out.
  induction table as [|[key n] table IH]; intros day_counts out.
  { simpl. by rewrite app_nil_r. }
  simpl foldl at 1. csimpl. rewrite filter_cons.
  destruct (to_datetime env "/" key) as [t|] eqn:Hkey.
  - rewrite decide_False by done. by rewrite IH.
  - rewrite decide_True by done. rewrite IH. csimpl. by rewrite <- app_assoc.
Qed.

(** The two loops of [count_by_date], in every environment. *)
Lemma count_by_date_loops_tables data :
  count_by_date_loops env data
  = (mk_date_state (date_table env data)
       (count_table (strftime_A <$> dates_of env data))
       (date_diagnostics env data ++ reparse_errors env data),
     count_table (strftime_A <$> reparsed env data)).
Proof.
  unfold count_by_date_loops. rewrite count_by_date_first_loop.
  cbn [date_counts day_totals printed]. rewrite day_counts_loop.
  fold (reparsed env data) (reparse_errors env data).
  by rewrite (counting_loop strftime_A).
Qed.

Lemma count_by_date_rows data :
  count_by_date env data
  = avg ← day_of_week_avg (count_table (strftime_A <$> dates_of env data))
            (count_table (strftime_A <$> reparsed env data));
    Some (mk_date_metric (date_table env data) avg).
Proof. unfold count_by_date. by rewrite count_by_date_loops_tables. Qed.

Lemma count_by_date_printed_lines data :
  count_by_date_printed env data = date_diagnostics env data ++ reparse_errors env data.
Proof. unfold count_by_date_printed. by rewrite count_by_date_loops_tables. Qed.

Lemma filter_ext_in {A} (P Q : A → Prop) `{∀ x, Decision (P x)} `{∀ x, Decision (Q x)}
    (l : list A) :
  (∀ x, x ∈ l → P x ↔ Q x) → filter P l = filter Q l.
Proof.
  induction l as [|x l IH]; intros Hl; [done|].
  rewrite !filter_cons. rewrite IH by (intros y Hy; apply Hl; by right).
  pose proof (Hl x (list_elem_of_here _ _)) as Hx.
  destruct (decide (P x)) as [HP|HP], (decide (Q x)) as [HQ|HQ]; naive_solver.
Qed.

Lemma first_seen_fmap {A B} `{EqDecision A} `{EqDecision B} (f : A → B) (l : list A) :
  (∀ x y, x ∈ l → y ∈ l → f x = f y → x = y) →
  first_seen (f <$> l) = f <$> first_seen l.
Proof.
  induction l as [|x l IH]; intros Hinj; [done|].
  csimpl. f_equal. rewrite IH by (intros y z Hy Hz; apply Hinj; by right).
  rewrite filter_fmap. f_equal. apply filter_ext_in.
  intros y Hy. rewrite elem_of_first_seen in Hy. split.
  - intros Hne ->. done.
  - intros Hne Heq. apply Hne. apply Hinj; [by right|left|done].
Qed.

(** On a regular collection the keys of the table of dates are the
    distinct dates, every key parses again, and nothing is printed by the
    second loop. *)
Lemma date_table_keys data :
  regular env data →
  (date_table env data).*1 = strftime_mdY env <$> first_seen (dates_of env data).
Proof.
  intros Hreg. transitivity (dict_keys (date_table env data)); [done|].
  unfold date_table. rewrite dict_keys_count_table.
  apply first_seen_fmap. intros x y Hx Hy. apply reads_back_inj; by apply Hreg.
Qed.

Lemma reparsed_regular data :
  regular env data → reparsed env data = first_seen (dates_of env data).
Proof.
  intros Hreg. unfold reparsed. rewrite date_table_keys by done.
  assert (∀ t, t ∈ first_seen (dates_of env data) → reads_back env t) as Hl
    by (intros t Ht; apply Hreg; by rewrite elem_of_first_seen in Ht).
  induction (first_seen (dates_of env data)) as [|t ts IH]; [done|].
  csimpl. rewrite (Hl t) by left. simpl. f_equal. apply IH.
  intros t' Ht'. apply Hl. by right.
Qed.

Lemma reparse_errors_regular data :
  regular env data → reparse_errors env data = [].
Proof.
  intros Hreg. unfold reparse_errors. rewrite date_table_keys by done.
  assert (∀ t, t ∈ first_seen (dates_of env data) → reads_back env t) as Hl
    by (intros t Ht; apply Hreg; by rewrite elem_of_first_seen in Ht).
  induction (first_seen (dates_of env data)) as [|t ts IH]; [done|].
  csimpl. rewrite filter_cons, decide_False by (by rewrite (Hl t) by left).
  apply IH. intros t' Ht'. apply Hl. by right.
Qed.

Lemma strftime_A_week_order t : strftime_A t ∈ week_order.
Proof.
  unfold strftime_A, weekday.
  pose proof (Z.mod_pos_bound (toordinal t + 6) 7 ltac:(lia)) as Hw.
  generalize dependent ((toordinal t + 6) `mod` 7)%Z. intros w Hw.
  assert (w ∈ seqZ 0 7) as Hin by (apply elem_of_seqZ; lia).
  change (seqZ 0 7) with [0; 1; 2; 3; 4; 5; 6]%Z in Hin.
  repeat (apply elem_of_cons in Hin as [->|Hin]; [by vm_compute; set_solver|]).
  by apply elem_of_nil in Hin.
Qed.

Lemma index_week_order day :
  day ∈ week_order → index week_order day = Some (weekday_rank day).
Proof.
  unfold week_order. intros Hin.
  repeat (apply elem_of_cons in Hin as [->|Hin]; [done|]).
  by apply elem_of_nil in Hin.
Qed.

Lemma weekday_rank_inj a b :
  a ∈ week_order → b ∈ week_order → weekday_rank a = weekday_rank b → a = b.
Proof.
  unfold week_order. intros Ha Hb.
  repeat (apply elem_of_cons in Ha as [->|Ha]);
    try (by apply elem_of_nil in Ha);
    repeat (apply elem_of_cons in Hb as [->|Hb]);
    try (by apply elem_of_nil in Hb); by vm_compute.
Qed.

Lemma week_order_sorted :
  StronglySorted (λ a b, (weekday_rank a < weekday_rank b)%Z) week_order.
Proof. repeat (constructor; [|repeat constructor; by vm_compute]). constructor. Qed.

Lemma insert_asc_fmap {A B} (key : B → Z) (h : A → B) (x : A) (l : list A) :
  insert_asc key (h x) (h <$> l) = h <$> insert_asc (key ∘ h) x l.
Proof.
  induction l as [|y l IH]; csimpl; [done|].
  destruct (key (h x) <=? key (h y))%Z; [done|]. by rewrite IH.
Qed.

Lemma sorted_fmap {A B} (key : B → Z) (h : A → B) (l : list A) :
  sorted key (h <$> l) = h <$> sorted (key ∘ h) l.
Proof.
  induction l as [|x l IH]; csimpl; [done|]. by rewrite IH, insert_asc_fmap.
Qed.

Lemma filter_first_seen_distinct {A} `{EqDecision A} (P : A → Prop)
    `{∀ x, Decision (P x)} (l : list A) :
  length (filter P (first_seen l)) = distinct (filter P l).
Proof.
  unfold distinct. apply Permutation_length, NoDup_Permutation.
  - apply NoDup_filter, NoDup_first_seen.
  - apply NoDup_remove_dups.
  - intros x. rewrite elem_of_remove_dups, !list_elem_of_filter, elem_of_first_seen.
    done.
Qed.

(** The weekdays that occur are sorted into the order of the week. *)
Lemma sorted_weekdays data :
  sorted weekday_rank (first_seen (strftime_A <$> dates_of env data))
  = filter (λ day, dates_on env day data ≠ []) week_order.
Proof.
  apply (strictly_sorted_unique weekday_rank).
  - eapply StronglySorted_strengthen; [apply sorted_sorted| |].
    + rewrite sorted_perm. apply NoDup_first_seen.
    + intros a b Ha Hb Hne Hle. rewrite sorted_perm, elem_of_first_seen in Ha, Hb.
      apply list_elem_of_fmap in Ha as (ta & -> & _).
      apply list_elem_of_fmap in Hb as (tb & -> & _).
      destruct (decide (weekday_rank (strftime_A ta) = weekday_rank (strftime_A tb)))
        as [Heq|]; [|lia].
      apply weekday_rank_inj in Heq; [done|apply strftime_A_week_order..].
  - eapply StronglySorted_sublist; [apply sublist_filter|apply week_order_sorted].
  - intros day. rewrite sorted_perm, elem_of_first_seen, list_elem_of_fmap,
      list_elem_of_filter. unfold dates_on. split.
    + intros (t & -> & Ht). split; [|apply strftime_A_week_order].
      intros Hnil. eapply (filter_nil_not_elem_of _ _ t); [apply Hnil|done|done].
    + intros [Hne _].
      destruct (filter (λ d, strftime_A d = day) (dates_of env data)) as [|t ts] eqn:Hf;
        [done|].
      assert (t ∈ filter (λ d, strftime_A d = day) (dates_of env data)) as Hin
        by (rewrite Hf; left).
      apply list_elem_of_filter in Hin as [<- Hin]. eauto.
Qed.

Lemma day_of_week_avg_rows data :
  day_of_week_avg (count_table (strftime_A <$> dates_of env data))
    (count_table (strftime_A <$> first_seen (dates_of env data)))
  = Some (average_table env data).
Proof.
  unfold day_of_week_avg.
  set (day_counts := count_table (strftime_A <$> first_seen (dates_of env data))).
  assert (mapM (λ '(day, total),
             avg ← truediv total (default 0 (dict_get day_counts day));
             Some (day, round2 avg))
            (count_table (strftime_A <$> dates_of env data))
          = Some ((λ day, (day, weekday_average env day data))
                  <$> first_seen (strftime_A <$> dates_of env data))) as ->.
  { apply mapM_Some. unfold count_table.
    apply Forall2_fmap, Forall_Forall2_diag, Forall_forall.
    intros day Hday. rewrite elem_of_first_seen in Hday. simpl.
    unfold day_counts. rewrite dict_get_count_table.
    assert (day ∈ strftime_A <$> first_seen (dates_of env data)) as Hin.
    { apply list_elem_of_fmap in Hday as (t & -> & Ht).
      apply list_elem_of_fmap. exists t. by rewrite elem_of_first_seen. }
    rewrite decide_True by done. simpl.
    apply occurrences_pos in Hin.
    unfold weekday_average, dates_on.
    rewrite <- filter_first_seen_distinct, <- !occurrences_fmap.
    destruct (occurrences day (strftime_A <$> first_seen (dates_of env data))); [lia|].
    done. }
  simpl. rewrite (sorted_try_Some _ (λ x, weekday_rank x.1)).
  2:{ intros [day avg] Hin. apply list_elem_of_fmap in Hin as (d & [= -> ->] & Hd).
      simpl. apply index_week_order.
      rewrite elem_of_first_seen in Hd.
      apply list_elem_of_fmap in Hd as (t & -> & _). apply strftime_A_week_order. }
  f_equal. unfold average_table. rewrite <- sorted_weekdays.
  apply (sorted_fmap (λ x : string * Q, weekday_rank x.1)
           (λ day, (day, weekday_average env day data))).
Qed.

Lemma count_by_date_table data :
  regular env data →
  count_by_date env data
  = Some (mk_date_metric (date_table env data) (average_table env data)).
Proof.
  intros Hreg. rewrite count_by_date_rows, reparsed_regular by done.
  by rewrite day_of_week_avg_rows.
Qed.

Lemma count_by_date_printed_diagnostics data :
  regular env data → count_by_date_printed env data = date_diagnostics env data.
Proof.
  intros Hreg.
  by rewrite count_by_date_printed_lines, reparse_errors_regular, app_nil_r.
Qed.

End calendar.

(** * Further properties of the metric functions *)

(** X1: [count_by_grade], [count_by_location] and [count_by_subtype] return
    one row per distinct value of their field, in the order in which the
    values are first seen, each with the number of records that carry it.
    [Unknown] stands for a record that lacks the field; a field that is
    present keeps its value as the key, also when that value is [None]. *)
Theorem count_by_field_rows (data : list record) :
  count_by_grade data = count_table (grade_of <$> data)
  ∧ count_by_location data = count_table (location_of <$> data)
  ∧ count_by_subtype data = count_table (subtype_of <$> data)
  ∧ (∀ g, dict_get (count_by_grade data) g
          = if decide (g ∈ grade_of <$> data)
            then Some (occurrences g (grade_of <$> data)) else None)
  ∧ (∀ row, row !! "grade_level" = None → grade_of row = VStr "Unknown")
  ∧ (∀ row v, row !! "grade_level" = Some v → grade_of row = v)
  ∧ count_by_grade [{[ "grade_level" := VNone ]}; ∅]
    = [(VNone, 1); (VStr "Unknown", 1)].
Proof.
  split_and!.
  - apply count_by_grade_table.
  - apply count_by_location_table.
  - apply count_by_subtype_table.
  - intros g. rewrite count_by_grade_table. apply dict_get_count_table.
  - intros row Hrow. unfold grade_of, get. by rewrite Hrow.
  - intros row v Hrow. unfold grade_of, get. by rewrite Hrow.
  - by vm_compute.
Qed.

Lemma slice_to_nonneg {A} (n : Z) (l : list A) :
  (0 ≤ n)%Z → slice_to n l = take (Z.to_nat n) l.
Proof. intros Hn. unfold slice_to. by rewrite (proj2 (Z.leb_le 0 n)). Qed.

Lemma slice_to_neg {A} (n : Z) (l : list A) :
  (n < 0)%Z → slice_to n l = take (length l - Z.to_nat (- n)) l.
Proof. intros Hn. unfold slice_to. by rewrite (proj2 (Z.leb_gt 0 n)). Qed.

(** X2: for a limit [top_n] that is not negative, [top_students] and
    [top_authors] return the first [top_n] rows of the ranking: one row per
    student (author) with the number of records, by descending count, rows
    with equal counts in the order in which the students (authors) are
    first seen in the data; the number of rows is the smaller of [top_n]
    and the number of distinct students (authors). *)
Theorem top_n_ranking (data : list record) (top_n : Z) :
  (0 ≤ top_n)%Z →
  top_students data top_n = take (Z.to_nat top_n) (ranking student_of data)
  ∧ top_authors data top_n = take (Z.to_nat top_n) (ranking author_of data)
  ∧ ranking student_of data ≡ₚ count_table (student_of <$> data)
  ∧ ranking author_of data ≡ₚ count_table (author_of <$> data)
  ∧ StronglySorted (λ a b, b.2 ≤ a.2) (top_students data top_n)
  ∧ StronglySorted (λ a b, b.2 ≤ a.2) (top_authors data top_n)
  ∧ (∀ a b, before a b (top_students data top_n) → a.2 = b.2 →
       before a.1 b.1 (first_seen (student_of <$> data)))
  ∧ (∀ a b, before a b (top_authors data top_n) → a.2 = b.2 →
       before a.1 b.1 (first_seen (author_of <$> data)))
  ∧ length (top_students data top_n)
    = Z.to_nat top_n `min` distinct (student_of <$> data)
  ∧ length (top_authors data top_n)
    = Z.to_nat top_n `min` distinct (author_of <$> data).
Proof.
  intros Hn.
  assert (top_students data top_n = take (Z.to_nat top_n) (ranking student_of data))
    as Hs by (rewrite top_students_table; by apply slice_to_nonneg).
  assert (top_authors data top_n = take (Z.to_nat top_n) (ranking author_of data))
    as Ha by (rewrite top_authors_table; by apply slice_to_nonneg).
  rewrite Hs, Ha. split_and!; try done.
  - apply ranking_perm.
  - apply ranking_perm.
  - apply ranking_descending.
  - apply ranking_descending.
  - apply ranking_ties.
  - apply ranking_ties.
  - apply length_ranking.
  - apply length_ranking.
Qed.

Lemma top_n_ranking_witness :
  let data : list record :=
    [{[ "student_name" := VStr "Ann" ]}; {[ "student_name" := VStr "Bob" ]};
     {[ "student_name" := VStr "Bob" ]}; ∅] in
  (0 ≤ 2)%Z ∧ length (top_students data 2) = 2.
Proof.
  intros data. split; [lia|].
  destruct (top_n_ranking data 2 ltac:(lia)) as (_ & _ & _ & _ & _ & _ & _ & _ & Hlen & _).
  rewrite Hlen. by vm_compute.
Defined.

(** X3: a negative [top_n] does not fail: the slice [[:top_n]] then drops
    the last [- top_n] rows of the ranking, so [top_students] and
    [top_authors] return all but the [- top_n] lowest ranked rows.  The
    result has as many rows as there are distinct names, less [- top_n], and
    it is empty exactly when there are at most [- top_n] distinct names. *)
Theorem top_n_negative (data : list record) (top_n : Z) :
  (top_n < 0)%Z →
  top_students data top_n
  = take (distinct (student_of <$> data) - Z.to_nat (- top_n)) (ranking student_of data)
  ∧ top_authors data top_n
  = take (distinct (author_of <$> data) - Z.to_nat (- top_n)) (ranking author_of data)
  ∧ length (top_students data top_n)
    = distinct (student_of <$> data) - Z.to_nat (- top_n)
  ∧ length (top_authors data top_n)
    = distinct (author_of <$> data) - Z.to_nat (- top_n)
  ∧ (top_students data top_n = []
     ↔ distinct (student_of <$> data) ≤ Z.to_nat (- top_n))
  ∧ (top_authors data top_n = []
     ↔ distinct (author_of <$> data) ≤ Z.to_nat (- top_n)).
Proof.
  intros Hn.
  assert (∀ key_of, length (ranking key_of data) = distinct (key_of <$> data)) as Hlen
    by (intros key_of; by rewrite ranking_perm, length_count_table).
  rewrite top_students_table, top_authors_table, !slice_to_neg by done.
  fold (ranking student_of data) (ranking author_of data). rewrite !Hlen.
  assert (∀ key_of,
            length (take (distinct (key_of <$> data) - Z.to_nat (- top_n))
                      (ranking key_of data))
            = distinct (key_of <$> data) - Z.to_nat (- top_n)) as Htake
    by (intros key_of; rewrite length_take, Hlen; lia).
  split_and!; [done|done|apply Htake|apply Htake|..].
  - rewrite <- length_zero_iff_nil, Htake. lia.
  - rewrite <- length_zero_iff_nil, Htake. lia.
Qed.

Lemma top_n_negative_witness :
  let data : list record :=
    [{[ "student_name" := VStr "Ann" ]}; {[ "student_name" := VStr "Bob" ]};
     {[ "student_name" := VStr "Bob" ]}; ∅] in
  (-1 < 0)%Z ∧ top_students data (-1) = [(VStr "Bob", 2); (VStr "Ann", 1)].
Proof.
  intros data. split; [lia|].
  destruct (top_n_negative data (-1) ltac:(lia)) as (-> & _).
  by vm_compute.
Defined.

(** ** The rows of the hour by location breakdown *)

Lemma elem_of_breakdown_rows groups h l c :
  (h, l, c) ∈ breakdown_rows groups ↔ ∃ d, (h, d) ∈ groups ∧ (l, c) ∈ d.
Proof.
  unfold breakdown_rows. rewrite list_elem_of_join. split.
  - intros (rows & Hin & Hrows).
    apply list_elem_of_fmap in Hrows as ([h' d] & -> & Hg).
    apply list_elem_of_fmap in Hin as ([l' c'] & [= -> -> ->] & Hd). eauto.
  - intros (d & Hg & Hd). exists ((λ x : value * nat, (h, x.1, x.2)) <$> d). split.
    + apply list_elem_of_fmap. by exists (l, c).
    + apply list_elem_of_fmap. by exists (h, d).
Qed.

Lemma breakdown_rows_perm groups groups' :
  groups ≡ₚ groups' → breakdown_rows groups ≡ₚ breakdown_rows groups'.
Proof. unfold breakdown_rows. by intros ->. Qed.

Lemma NoDup_count_table {K} `{EqDecision K} (l : list K) : NoDup (count_table l).
Proof.
  apply (NoDup_fmap_1 fst).
  change (NoDup (dict_keys (count_table l))).
  rewrite dict_keys_count_table. apply NoDup_first_seen.
Qed.

Lemma elem_of_count_table {K} `{EqDecision K} (l : list K) k c :
  (k, c) ∈ count_table l ↔ k ∈ l ∧ c = occurrences k l.
Proof.
  unfold count_table. rewrite list_elem_of_fmap. split.
  - intros (k' & [= -> ->] & Hk). by rewrite elem_of_first_seen in Hk.
  - intros [Hk ->]. exists k. by rewrite elem_of_first_seen.
Qed.

Lemma elem_of_group_table {A K V} `{EqDecision K} (f : A → K) (summary : list A → V)
    (data : list A) k v :
  (k, v) ∈ group_table f summary data
  ↔ k ∈ f <$> data ∧ v = summary (filter (λ a, f a = k) data).
Proof.
  unfold group_table. rewrite list_elem_of_fmap. split.
  - intros (k' & [= -> ->] & Hk). by rewrite elem_of_first_seen in Hk.
  - intros [Hk ->]. exists k. by rewrite elem_of_first_seen.
Qed.

Lemma NoDup_group_table {A K V} `{EqDecision K} (f : A → K) (summary : list A → V)
    (data : list A) :
  NoDup (group_table f summary data).
Proof.
  apply (NoDup_fmap_1 fst).
  change (NoDup (dict_keys (group_table f summary data))).
  unfold group_table. rewrite dict_keys_table. apply NoDup_first_seen.
Qed.

Lemma NoDup_breakdown_rows groups :
  NoDup groups.*1 → (∀ h d, (h, d) ∈ groups → NoDup d) →
  NoDup (breakdown_rows groups).
Proof.
  induction groups as [|[h d] groups IH]; intros Hk Hd; [constructor|].
  unfold breakdown_rows. csimpl. apply NoDup_cons in Hk as [Hh Hk].
  apply NoDup_app. split_and!.
  - apply (NoDup_fmap_2_strong _).
    + intros [l1 c1] [l2 c2] _ _ [= -> ->]. done.
    + apply (Hd h). left.
  - intros [[h' l] c] Hin Hin'.
    apply list_elem_of_fmap in Hin as ([l' c'] & Heq & _). simplify_eq/=.
    apply (elem_of_breakdown_rows groups h l' c') in Hin' as (d' & Hg & _).
    apply Hh. apply list_elem_of_fmap. by exists (h, d').
  - apply IH; [done|]. intros h' d' Hin. apply (Hd h'). by right.
Qed.

Lemma occurrences_pair data h l :
  occurrences (h, l) (hour_location_of <$> data)
  = occurrences l (location_of <$> filter (λ row, hourly_location_hour row = h) data).
Proof.
  rewrite !occurrences_fmap, list_filter_filter. f_equal.
  apply filter_ext_in. intros row _. unfold hour_location_of.
  split; [intros [= -> ->]; done|intros [-> ->]; done].
Qed.

(** Up to the order of the rows, [hourly_location] counts the pairs of an
    hour label and a location. *)
Lemma breakdown_table_perm data :
  breakdown_table data ≡ₚ count_table (hour_location_of <$> data).
Proof.
  unfold breakdown_table. rewrite (breakdown_rows_perm _ _ (sorted_perm _ _)).
  apply NoDup_Permutation.
  - apply NoDup_breakdown_rows.
    + change (NoDup (dict_keys (group_table hourly_location_hour
                (λ rows, count_table (location_of <$> rows)) data))).
      unfold group_table. rewrite dict_keys_table. apply NoDup_first_seen.
    + intros h d [_ ->]%elem_of_group_table. apply NoDup_count_table.
  - apply NoDup_count_table.
  - intros [[h l] c]. rewrite elem_of_breakdown_rows.
    rewrite (elem_of_count_table (hour_location_of <$> data) (h, l) c).
    rewrite occurrences_pair. split.
    + intros (d & [Hh ->]%elem_of_group_table & [Hl ->]%elem_of_count_table).
      split; [|done].
      apply list_elem_of_fmap in Hl as (row & -> & [<- Hrow]%list_elem_of_filter).
      apply list_elem_of_fmap. by exists row.
    + intros [Hin ->].
      apply list_elem_of_fmap in Hin as (row & [= -> ->] & Hrow).
      eexists. split.
      * apply elem_of_group_table. split; [|done].
        apply list_elem_of_fmap. by exists row.
      * apply elem_of_count_table. split; [|done].
        apply list_elem_of_fmap. exists row. split; [done|].
        by apply list_elem_of_filter.
Qed.

Lemma breakdown_hours_sorted groups :
  StronglySorted (λ a b, (breakdown_rank a ≤ breakdown_rank b)%Z) groups →
  StronglySorted (λ a b, (clock_rank a ≤ clock_rank b)%Z) (breakdown_rows groups).*1.*1.
Proof.
  induction 1 as [|[h d] groups Hs IH Hh]; [constructor|].
  change (breakdown_rows ((h, d) :: groups))
    with (((λ x : value * nat, (h, x.1, x.2)) <$> d) ++ breakdown_rows groups).
  rewrite !fmap_app.
  assert (∀ x, x ∈ ((λ x : value * nat, (h, x.1, x.2)) <$> d).*1.*1 → x = h) as Hd.
  { intros x Hx. apply list_elem_of_fmap in Hx as (y & -> & Hx).
    apply list_elem_of_fmap in Hx as (z & -> & Hx).
    by apply list_elem_of_fmap in Hx as (w & -> & _). }
  apply StronglySorted_app_2; [|revert Hd; clear|done].
  - intros x1 x2 Hx1%Hd Hx2. subst x1.
    apply list_elem_of_fmap in Hx2 as ([h2 l2] & -> & Hx2).
    apply list_elem_of_fmap in Hx2 as ([[h2' l2'] c2] & [= <- <-] & Hx2).
    apply elem_of_breakdown_rows in Hx2 as (d2 & Hg & _).
    rewrite Forall_forall in Hh. apply (Hh _ Hg).
  - generalize (((λ x : value * nat, (h, x.1, x.2)) <$> d).*1.*1).
    intros l Hl. induction l as [|x l IHl]; constructor.
    + apply IHl. intros y Hy. apply Hl. by right.
    + apply Forall_forall. intros y Hy.
      rewrite (Hl x), (Hl y); [done|by right|by left].
Qed.

Lemma StronglySorted_impl_in {A} (R R' : relation A) (l : list A) :
  StronglySorted R l →
  (∀ a b, a ∈ l → b ∈ l → R a b → R' a b) →
  StronglySorted R' l.
Proof.
  induction 1 as [|x l Hl IH Hx]; intros HR; constructor.
  - apply IH. intros a b Ha Hb. apply HR; by right.
  - rewrite Forall_forall in Hx. apply Forall_forall. intros y Hy.
    apply HR; [left|by right|by apply Hx].
Qed.

Lemma filter_breakdown_rows_absent groups h :
  h ∉ groups.*1 → filter (λ r, r.1.1 = h) (breakdown_rows groups) = [].
Proof.
  intros Hh. apply (filter_key_absent (λ r : string * value * nat, r.1.1)).
  intros Hin. apply list_elem_of_fmap in Hin as ([[h' l] c] & -> & Hin).
  apply elem_of_breakdown_rows in Hin as (d & Hg & _).
  apply Hh, list_elem_of_fmap. by exists (h', d).
Qed.

Lemma filter_breakdown_rows groups h d :
  NoDup groups.*1 → (h, d) ∈ groups →
  filter (λ r, r.1.1 = h) (breakdown_rows groups) = (λ x, (h, x.1, x.2)) <$> d.
Proof.
  induction groups as [|[h0 d0] groups IH]; intros Hk Hin; [by apply elem_of_nil in Hin|].
  apply NoDup_cons in Hk as [Hh0 Hk].
  change (breakdown_rows ((h0, d0) :: groups))
    with (((λ x : value * nat, (h0, x.1, x.2)) <$> d0) ++ breakdown_rows groups).
  rewrite filter_app. apply elem_of_cons in Hin as [[= -> ->]|Hin].
  - rewrite filter_breakdown_rows_absent, app_nil_r by done.
    apply filter_all. intros r Hr. by apply list_elem_of_fmap in Hr as (x & -> & _).
  - rewrite IH by done.
    assert (h ≠ h0) as Hne.
    { intros ->. apply Hh0, list_elem_of_fmap. by exists (h0, d). }
    rewrite (filter_key_absent (λ r : string * value * nat, r.1.1)); [done|].
    intros Hr. apply list_elem_of_fmap in Hr as (r & -> & Hr).
    by apply list_elem_of_fmap in Hr as (x & -> & _).
Qed.

Lemma breakdown_table_hours data h :
  h ∈ (breakdown_table data).*1.*1 →
  h = "Unknown" ∨ ∃ k, (0 ≤ k ≤ 23)%Z ∧ h = label_of_hour k.
Proof.
  intros Hh.
  apply list_elem_of_fmap in Hh as ([h' l] & -> & Hh).
  apply list_elem_of_fmap in Hh as ([[h'' l'] c] & Heq & Hh). simplify_eq/=.
  rewrite (breakdown_table_perm data) in Hh.
  apply elem_of_count_table in Hh as [Hh _].
  apply list_elem_of_fmap in Hh as (row & [= -> ->] & _).
  apply hourly_location_hour_cases.
Qed.

(** X4: [hourly_location] never fails.  Up to their order, its rows are
    the count table of the pairs of an hour label and a location; the
    hours come in the order of the clock with the rows of [Unknown] last;
    and within one hour the locations come in the order in which records
    of that hour first show them. *)
Theorem hourly_location_rows (data : list record) :
  ∃ rows,
    hourly_location data = Some rows
    ∧ rows ≡ₚ count_table (hour_location_of <$> data)
    ∧ StronglySorted (λ a b, a = b ∨ b = "Unknown" ∨ chronological a b) rows.*1.*1
    ∧ (∀ h, (filter (λ r, r.1.1 = h) rows).*1.*2
            = first_seen (location_of
                <$> filter (λ row, hourly_location_hour row = h) data)).
Proof.
  exists (breakdown_table data). split_and!.
  - apply hourly_location_table.
  - apply breakdown_table_perm.
  - eapply StronglySorted_impl_in; [apply breakdown_hours_sorted, sorted_sorted|].
    intros a b Ha Hb Hle.
    destruct (decide (b = "Unknown")) as [|Hb']; [by auto|].
    apply breakdown_table_hours in Ha, Hb.
    destruct Hb as [|(kb & Hkb & ->)]; [done|].
    unfold clock_rank in Hle. rewrite (decide_True (P := label_of_hour kb ≠ _)) in Hle by done.
    destruct Ha as [->|(ka & Hka & ->)].
    + rewrite (decide_False (P := "Unknown" ≠ "Unknown")) in Hle by naive_solver.
      rewrite hour_rank_label in Hle by done.
      assert (timestamp (mk_datetime 1900 1 1 0 0 0) + 23 * 3600
              < timestamp datetime_max)%Z by by vm_compute.
      lia.
    + rewrite decide_True in Hle by (by apply label_of_hour_not_Unknown).
      destruct (decide (ka = kb)) as [->|Hne]; [by left|].
      right; right. apply hour_rank_chronological; [by exists ka|by exists kb|].
      rewrite !hour_rank_label in Hle |- * by done. lia.
  - intros h. unfold breakdown_table.
    set (G := group_table hourly_location_hour
                (λ rows, count_table (location_of <$> rows)) data).
    assert (NoDup (sorted breakdown_rank G).*1) as Hnd.
    { rewrite sorted_perm. change (NoDup (dict_keys G)).
      unfold G, group_table. rewrite dict_keys_table. apply NoDup_first_seen. }
    destruct (decide (h ∈ hourly_location_hour <$> data)) as [Hin|Hout].
    + rewrite (filter_breakdown_rows _ h
                 (count_table (location_of
                    <$> filter (λ row, hourly_location_hour row = h) data))).
      * rewrite <- !list_fmap_compose.
        change (dict_keys (count_table (location_of
                  <$> filter (λ row, hourly_location_hour row = h) data))
                = first_seen (location_of
                  <$> filter (λ row, hourly_location_hour row = h) data)).
        apply dict_keys_count_table.
      * done.
      * rewrite sorted_perm. by apply elem_of_group_table.
    + rewrite filter_breakdown_rows_absent.
      * by rewrite filter_key_absent.
      * rewrite sorted_perm. change (h ∉ dict_keys G).
        unfold G, group_table. rewrite dict_keys_table. by rewrite elem_of_first_seen.
Qed.

(** ** The date metric *)

Section date_metric.
Context (env : environment).

(** A date that the environment holds is the calendar date of both of its
    canonical forms, unless the form is a special string. *)
Lemma calendar_date_canonical t :
  valid_date env t →
  (special env (zfill2 (month t) +:+ "/" +:+ zfill2 (day t) +:+ "/" +:+ zfill4 (year t))
   = None →
   calendar_date env
     (Some (VStr (zfill2 (month t) +:+ "/" +:+ zfill2 (day t) +:+ "/" +:+ zfill4 (year t))))
   = Some t)
  ∧ (special env (zfill2 (month t) +:+ "-" +:+ zfill2 (day t) +:+ "-" +:+ zfill4 (year t))
     = None →
     calendar_date env
       (Some (VStr (zfill2 (month t) +:+ "-" +:+ zfill2 (day t) +:+ "-" +:+ zfill4 (year t))))
     = Some t).
Proof.
  intros [Hmake Hb]. apply make_Some in Hmake as Hm.
  destruct Hm as (_ & _ & Hmo & _).
  split; intros Hs.
  - change (calendar_date env (Some (VStr ?x)))
      with (first_parse [to_datetime env "/"; to_datetime env "-"] x).
    rewrite first_parse_date. unfold to_datetime at 1. rewrite Hs.
    change (zfill2 (month t) +:+ "/" +:+ zfill2 (day t) +:+ "/" +:+ zfill4 (year t))
      with (zfill2 (month t) +:+ String "/" (zfill2 (day t) +:+ String "/" (zfill4 (year t)))).
    rewrite strptime_mdY_canonical by done. simpl. by rewrite Hb.
  - change (calendar_date env (Some (VStr ?x)))
      with (first_parse [to_datetime env "/"; to_datetime env "-"] x).
    rewrite first_parse_date. unfold to_datetime. rewrite Hs.
    change (zfill2 (month t) +:+ "-" +:+ zfill2 (day t) +:+ "-" +:+ zfill4 (year t))
      with (zfill2 (month t) +:+ String "-" (zfill2 (day t) +:+ String "-" (zfill4 (year t)))).
    rewrite strptime_mdY_slash_dashed by done.
    rewrite strptime_mdY_canonical by done. simpl. by rewrite Hb.
Qed.

(** What the format reads and the environment holds is a valid date. *)
Lemma to_datetime_valid sep s t :
  special env s = None → to_datetime env sep s = Some t → valid_date env t.
Proof.
  unfold to_datetime, valid_date, strptime_mdY. intros -> Hp.
  apply bind_Some in Hp as (t' & Hp & Hb).
  apply bind_Some in Hp as ([[m d] y] & _ & Hm).
  destruct (holds env t') eqn:Hin; simplify_eq.
  split; [|done].
  apply make_Some in Hm as Ht. destruct Ht as (-> & _). done.
Qed.

(** A collection is regular when no [incident_date] of it is a special
    string, no key of its dates is one, and the year of every date is
    written on four digits. *)
Lemma regular_plain data :
  (∀ row c s, row ∈ data → row !! "incident_date" = Some (VStr (String c s)) →
     special env (String c s) = None) →
  (∀ t, t ∈ dates_of env data →
     special env (strftime_mdY env t) = None
     ∧ (pads_year env = true ∨ (1000 ≤ year t)%Z)) →
  regular env data.
Proof.
  intros Hrows Hdates t Ht. destruct (Hdates t Ht) as [Hs Hpad].
  apply reads_back_valid; [|done..].
  unfold dates_of in Ht. apply list_elem_of_omap in Ht as (row & Hrow & Hdate).
  unfold calendar_date_of, calendar_date in Hdate.
  destruct (row !! "incident_date") as [[|z|[|c s]]|] eqn:Hraw; try done.
  rewrite first_parse_date in Hdate. specialize (Hrows row c s Hrow Hraw).
  destruct (to_datetime env "/" (String c s)) eqn:H1; simplify_eq;
    (eapply to_datetime_valid; [exact Hrows|eassumption]).
Qed.

Lemma length_dates_diagnostics data :
  length (dates_of env data) + length (date_diagnostics env data) = length data.
Proof.
  unfold dates_of, date_diagnostics. rewrite length_fmap.
  induction data as [|row data IH]; [done|].
  rewrite filter_cons. csimpl.
  destruct (calendar_date_of env row) as [t|] eqn:Ht.
  - rewrite decide_False by done. simpl. lia.
  - rewrite decide_True by done. simpl. lia.
Qed.

Lemma length_filter_omap {A B} `{EqDecision B} (f : A → option B) (b : B) (l : list A) :
  length (filter (λ y, y = b) (omap f l)) = length (filter (λ x, f x = Some b) l).
Proof.
  induction l as [|x l IH]; [done|].
  rewrite (filter_cons (λ x, f x = Some b)). csimpl.
  destruct (f x) as [y|] eqn:Hy.
  - rewrite filter_cons. destruct (decide (y = b)) as [->|Hne].
    + rewrite decide_True by done. simpl. by rewrite IH.
    + rewrite decide_False by congruence. done.
  - rewrite decide_False by done. done.
Qed.

Lemma date_diagnostic_not_reparse row s : date_diagnostic row ≠ ErrorReparsingDate s.
Proof. unfold date_diagnostic. by repeat case_match. Qed.

Lemma date_table_snoc data row t :
  calendar_date_of env row = Some t →
  date_table env (data ++ [row]) = dict_incr (date_table env data) (strftime_mdY env t).
Proof.
  intros Ht. unfold date_table.
  by rewrite dates_of_snoc, Ht, fmap_app, dict_incr_count_table.
Qed.

Lemma calendar_date_not_str row :
  (∀ c s, row !! "incident_date" ≠ Some (VStr (String c s))) →
  calendar_date_of env row = None ∧ date_diagnostic row = InvalidOrMissingDate row.
Proof.
  intros Hrow. unfold calendar_date_of, date_diagnostic, calendar_date.
  destruct (row !! "incident_date") as [[|z|[|c s]]|]; try done.
  by destruct (Hrow c s).
Qed.

Lemma dates_of_skip data1 data2 row :
  calendar_date_of env row = None →
  dates_of env (data1 ++ row :: data2) = dates_of env (data1 ++ data2).
Proof.
  intros Hrow. rewrite (dates_of_app env data1 (row :: data2)), dates_of_app.
  unfold dates_of at 2. csimpl. by rewrite Hrow.
Qed.

Lemma dates_of_filter (P : record → Prop) `{∀ row, Decision (P row)} data t :
  t ∈ dates_of env (filter P data) → t ∈ dates_of env data.
Proof.
  unfold dates_of. rewrite !list_elem_of_omap. intros (row & Hrow & Ht).
  apply list_elem_of_filter in Hrow as [_ Hrow]. eauto.
Qed.

End date_metric.

(** Where the library counts nanoseconds, pads the year and knows no
    special string, every collection is regular. *)
Lemma regular_nanoseconds data : regular nanoseconds data.
Proof. apply regular_plain; [done|]. intros t _. split; [done|by left]. Qed.





(** ** Numbers of rows *)

Lemma length_hour_table data :
  length (hour_table data)
  = distinct (hour_bucket_of <$> data)
    + (if decide ("Unknown" ∈ hour_bucket_of <$> data) then 0 else 1).
Proof.
  unfold hour_table. cbv zeta.
  set (buckets := hour_bucket_of <$> data).
  rewrite length_fmap, length_app, sorted_perm. simpl.
  rewrite <- length_first_seen.
  pose proof (NoDup_first_seen buckets) as Hnd.
  pose proof (elem_of_first_seen "Unknown" buckets) as Hin.
  destruct (decide ("Unknown" ∈ buckets)) as [Hu|Hu].
  - apply Hin in Hu. clear Hin. revert Hnd Hu.
    generalize (first_seen buckets). intros l. induction l as [|x l IH]; intros Hnd Hu.
    + by apply elem_of_nil in Hu.
    + apply NoDup_cons in Hnd as [Hx Hnd]. rewrite filter_cons.
      apply elem_of_cons in Hu as [<-|Hu].
      * rewrite decide_False by naive_solver.
        rewrite (filter_all (λ h, h ≠ "Unknown")); [simpl; lia|].
        intros y Hy ->. done.
      * rewrite decide_True by (intros ->; done). simpl.
        specialize (IH Hnd Hu). lia.
  - rewrite (filter_all (λ h, h ≠ "Unknown")); [lia|].
    intros y Hy ->. by apply Hu, Hin.
Qed.


(** ** The whole summary *)


(** ** District and buildings *)

Lemma occurrences_groups {A K} `{EqDecision K} (f : A → K) (k : K)
    (groups : list (list A)) (data : list A) :
  mjoin groups ≡ₚ data →
  occurrences k (f <$> data) = sum_list ((λ rows, occurrences k (f <$> rows)) <$> groups).
Proof.
  intros Hperm. rewrite occurrences_fmap, <- Hperm. clear Hperm.
  induction groups as [|rows groups IH]; [done|].
  csimpl. rewrite filter_app, length_app, IH. by rewrite occurrences_fmap.
Qed.


(** ** Names of the building reports *)

Lemma underscore_valid : "_"%char ∉ invalid_chars.
Proof. apply (bool_decide_unpack _). by vm_compute. Qed.

Lemma sub_invalid_chars s c :
  c ∈ list_ascii_of_string (sub_invalid s) → c ∉ invalid_chars.
Proof.
  induction s as [|c' s IH]; simpl; [by intros ?%elem_of_nil|].
  intros [->|Hc]%elem_of_cons; [|by apply IH].
  case_decide; [apply underscore_valid|done].
Qed.

Lemma sub_invalid_length s : String.length (sub_invalid s) = String.length s.
Proof. induction s as [|c s IH]; simpl; [done|]. by rewrite IH. Qed.

Lemma sub_invalid_clean s :
  (∀ c, c ∈ list_ascii_of_string s → c ∉ invalid_chars) → sub_invalid s = s.
Proof.
  induction s as [|c s IH]; simpl; intros Hs; [done|].
  rewrite decide_False by (apply Hs; left).
  f_equal. apply IH. intros c' Hc'. apply Hs. by right.
Qed.

Lemma sub_invalid_app s1 s2 :
  sub_invalid (s1 +:+ s2) = sub_invalid s1 +:+ sub_invalid s2.
Proof. induction s1 as [|c s1 IH]; simpl; [done|]. by rewrite IH. Qed.

Lemma sub_invalid_get s i c :
  String.get i s = Some c →
  String.get i (sub_invalid s)
  = Some (if decide (c ∈ invalid_chars) then "_"%char else c).
Proof.
  revert i. induction s as [|c' s IH]; intros i Hget; [done|].
  destruct i as [|i]; simpl in *; [by simplify_eq|by apply IH].
Qed.

Lemma sanitize_building_name_str v :
  ∃ s, sanitize_building_name v = sub_invalid s
       ∧ (∀ s', v = VStr s' → s = s').
Proof.
  exists (match v with VNone => "Unknown Building" | _ => str v end).
  destruct v as [|z|s]; (split; [reflexivity|]); by intros ? [= <-].
Qed.

(** X12: [sanitize_building_name] returns a name without any of the nine
    characters of its class.  On a string it keeps the length and changes
    nothing but those characters, a clean name is returned as it is, and
    sanitizing twice is sanitizing once; [None] becomes [Unknown Building].
    The name that reaches the workbook template has no blank either. *)
Theorem sanitize_building_name_safe (building_name : value) :
  (∀ c, c ∈ list_ascii_of_string (sanitize_building_name building_name) →
        c ∉ invalid_chars)
  ∧ (∀ s, building_name = VStr s →
       String.length (sanitize_building_name building_name) = String.length s
       ∧ (∀ i c, String.get i s = Some c → (c ∉ invalid_chars) →
            String.get i (sanitize_building_name building_name) = Some c)
       ∧ (∀ i c, String.get i s = Some c → (c ∈ invalid_chars) →
            String.get i (sanitize_building_name building_name) = Some "_"%char)
       ∧ ((∀ c, c ∈ list_ascii_of_string s → c ∉ invalid_chars) →
            sanitize_building_name building_name = s))
  ∧ sanitize_building_name (VStr (sanitize_building_name building_name))
    = sanitize_building_name building_name
  ∧ sanitize_building_name VNone = "Unknown Building"
  ∧ (∀ c, c ∈ list_ascii_of_string (workbook_building_name building_name) →
        (c ∉ invalid_chars) ∧ c ≠ " "%char).
Proof.
  split_and!.
  - destruct (sanitize_building_name_str building_name) as (s & -> & _).
    apply sub_invalid_chars.
  - intros s ->. unfold sanitize_building_name. simpl. split_and!.
    + apply sub_invalid_length.
    + intros i c Hget Hc. by rewrite (sub_invalid_get s i c), decide_False.
    + intros i c Hget Hc. by rewrite (sub_invalid_get s i c), decide_True.
    + apply sub_invalid_clean.
  - unfold sanitize_building_name at 1. simpl.
    apply sub_invalid_clean. intros c.
    destruct (sanitize_building_name_str building_name) as (s & -> & _).
    apply sub_invalid_chars.
  - by vm_compute.
  - unfold workbook_building_name.
    destruct (sanitize_building_name_str building_name) as (s & -> & _).
    induction s as [|c' s IH]; simpl; [by intros c ?%elem_of_nil|].
    intros c [->|Hc]%elem_of_cons; [|by apply IH].
    case_decide as Hc'; simpl.
    + split; [apply underscore_valid|done].
    + destruct (Ascii.eqb c' " ") eqn:Heq.
      * split; [apply underscore_valid|done].
      * split; [done|]. intros ->. by rewrite Ascii.eqb_refl in Heq.
Qed.

(** X13: two different building names can get the same sanitized name, so
    the same folder: names that differ only in characters of the class
    and underscores do, and so do the key [None] and the key
    [Unknown Building] that the grouping loop gives to a record without
    [student_school], which are two groups of [generate_building_reports]. *)
Theorem sanitize_building_name_collides (s1 s2 : string) (c1 c2 : ascii) :
  c1 ∈ "_"%char :: invalid_chars → c2 ∈ "_"%char :: invalid_chars →
  sanitize_building_name (VStr (s1 +:+ String c1 s2))
  = sanitize_building_name (VStr (s1 +:+ String c2 s2))
  ∧ (c1 ≠ c2 → VStr (s1 +:+ String c1 s2) ≠ VStr (s1 +:+ String c2 s2))
  ∧ sanitize_building_name VNone = sanitize_building_name (VStr "Unknown Building")
  ∧ (∀ (data : list record) (row1 row2 : record),
       row1 ∈ data → row2 ∈ data →
       row1 !! "student_school" = Some VNone → row2 !! "student_school" = None →
       ∃ rows1 rows2,
         (VNone, rows1) ∈ building_groups data
         ∧ (VStr "Unknown Building", rows2) ∈ building_groups data
         ∧ row1 ∈ rows1 ∧ row2 ∈ rows2 ∧ (row1 ∉ rows2) ∧ (row2 ∉ rows1)).
Proof.
  intros Hc1 Hc2.
  assert (∀ c, c ∈ "_"%char :: invalid_chars →
            (if decide (c ∈ invalid_chars) then "_"%char else c) = "_"%char) as Hsub.
  { intros c [->|Hc]%elem_of_cons; [|by rewrite decide_True].
    by rewrite decide_False by apply underscore_valid. }
  split_and!.
  - unfold sanitize_building_name. simpl.
    rewrite !sub_invalid_app. simpl. by rewrite !Hsub.
  - intros Hne [= Heq]. apply Hne.
    induction s1 as [|c s1 IH]; simpl in Heq; by simplify_eq.
  - by vm_compute.
  - intros data row1 row2 Hin1 Hin2 Hrow1 Hrow2.
    assert (school_of row1 = VNone) as Hs1 by (unfold school_of, get; by rewrite Hrow1).
    assert (school_of row2 = VStr "Unknown Building") as Hs2
      by (unfold school_of, get; by rewrite Hrow2).
    exists (filter (λ a, school_of a = VNone) data),
           (filter (λ a, school_of a = VStr "Unknown Building") data).
    rewrite building_groups_table, !elem_of_group_table, !list_elem_of_filter.
    split_and!; try done.
    + apply list_elem_of_fmap. by exists row1.
    + apply list_elem_of_fmap. by exists row2.
    + rewrite Hs1. by intros [? _].
    + rewrite Hs2. by intros [? _].
Qed.

Lemma sanitize_building_name_collides_witness :
  ("/"%char ∈ "_"%char :: invalid_chars) ∧ (":"%char ∈ "_"%char :: invalid_chars)
  ∧ sanitize_building_name (VStr "North/South") = "North_South"
  ∧ sanitize_building_name (VStr "North:South") = "North_South".
Proof.
  assert ("/"%char ∈ "_"%char :: invalid_chars) as H1
    by (apply (bool_decide_unpack _); by vm_compute).
  assert (":"%char ∈ "_"%char :: invalid_chars) as H2
    by (apply (bool_decide_unpack _); by vm_compute).
  split_and!; [done|done| |].
  - by vm_compute.
  - destruct (sanitize_building_name_collides "North" "South" "/" ":" H1 H2) as (Heq & _).
    etrans; [symmetry; exact Heq|]. by vm_compute.
Defined.

(** ** The two hour bucketings *)

Lemma colons_cons c s :
  colons (String c s) = (if decide (c = ":"%char) then 1 else 0) + colons s.
Proof.
  unfold colons, occurrences. simpl. rewrite filter_cons.
  by destruct (decide (c = ":"%char)).
Qed.

Lemma digit_not_colon c d : digit c = Some d → c ≠ ":"%char.
Proof. intros Hd ->. by vm_compute in Hd. Qed.

Lemma lower_char_colon c : lower_char c = ":"%char → c = ":"%char.
Proof.
  destruct c as [[] [] [] [] [] [] [] []]; vm_compute; intros; by simplify_eq.
Qed.

(** ** Characters in UTF-8 *)

Lemma N_of_ascii_colon c : c = ":"%char ↔ N_of_ascii c = 58%N.
Proof.
  split; [by intros ->|]. intros Hc.
  rewrite <- (ascii_N_embedding c), Hc. done.
Qed.

Lemma continuation_not_colon c b : continuation c = Some b → c ≠ ":"%char.
Proof. intros Hc ->. by vm_compute in Hc. Qed.

(** A character takes one byte below 128, two below 2048, three below
    65536 and four from there on; no byte of a longer character is a
    colon. *)
Lemma next_char_bytes s cp r :
  next_char s = Some (cp, r) →
  (∃ c0, s = String c0 r ∧ cp = N_of_ascii c0 ∧ (cp < 128)%N)
  ∨ (∃ c0 c1, s = String c0 (String c1 r) ∧ (128 ≤ cp < 2048)%N
              ∧ c0 ≠ ":"%char ∧ c1 ≠ ":"%char)
  ∨ (∃ c0 c1 c2, s = String c0 (String c1 (String c2 r)) ∧ (2048 ≤ cp < 65536)%N
                 ∧ c0 ≠ ":"%char ∧ c1 ≠ ":"%char ∧ c2 ≠ ":"%char)
  ∨ (∃ c0 c1 c2 c3, s = String c0 (String c1 (String c2 (String c3 r)))
                    ∧ (65536 ≤ cp)%N
                    ∧ c0 ≠ ":"%char ∧ c1 ≠ ":"%char ∧ c2 ≠ ":"%char ∧ c3 ≠ ":"%char).
Proof.
  destruct s as [|c0 r0]; [done|]. unfold next_char.
  assert (∀ c b, continuation c = Some b → (b < 64)%N) as Hcont.
  { intros c b. unfold continuation. case_match eqn:Hc; [|done]. intros [= <-].
    apply andb_prop in Hc as [_ Hc%N.ltb_lt]. lia. }
  assert (∀ c, (128 ≤ N_of_ascii c)%N → c ≠ ":"%char) as Hlead.
  { intros c Hc ->. vm_compute in Hc. by apply Hc. }
  destruct (N_of_ascii c0 <? 128)%N eqn:H1; [apply N.ltb_lt in H1|apply N.ltb_ge in H1].
  { intros [= <- <-]. left. by exists c0. }
  destruct (N_of_ascii c0 <? 192)%N eqn:H2; [done|apply N.ltb_ge in H2].
  destruct (N_of_ascii c0 <? 224)%N eqn:H3; [apply N.ltb_lt in H3|apply N.ltb_ge in H3].
  { destruct r0 as [|c1 r1]; [done|].
    destruct (continuation c1) as [b1|] eqn:Hb1; [|done]. cbv zeta.
    case_match eqn:Hcp; [|done]. apply N.leb_le in Hcp. intros [= <- <-].
    right; left. exists c0, c1. pose proof (Hcont _ _ Hb1).
    split_and!; [done|done|lia|by apply Hlead|by eapply continuation_not_colon]. }
  destruct (N_of_ascii c0 <? 240)%N eqn:H4; [apply N.ltb_lt in H4|apply N.ltb_ge in H4].
  { destruct r0 as [|c1 [|c2 r2]]; [done..|].
    destruct (continuation c1) as [b1|] eqn:Hb1; [|done].
    destruct (continuation c2) as [b2|] eqn:Hb2; [|done]. cbv zeta.
    case_match eqn:Hcp; [|done]. apply N.leb_le in Hcp. intros [= <- <-].
    right; right; left. exists c0, c1, c2.
    pose proof (Hcont _ _ Hb1). pose proof (Hcont _ _ Hb2).
    split_and!; [done|done|lia|by apply Hlead|by eapply continuation_not_colon..]. }
  destruct (N_of_ascii c0 <? 248)%N eqn:H5; [apply N.ltb_lt in H5|done].
  destruct r0 as [|c1 [|c2 [|c3 r3]]]; [done..|].
  destruct (continuation c1) as [b1|] eqn:Hb1; [|done].
  destruct (continuation c2) as [b2|] eqn:Hb2; [|done].
  destruct (continuation c3) as [b3|] eqn:Hb3; [|done]. cbv zeta.
  case_match eqn:Hcp; [|done]. apply N.leb_le in Hcp. intros [= <- <-].
  right; right; right. exists c0, c1, c2, c3.
  split_and!; [done|done|by apply Hlead|by eapply continuation_not_colon..].
Qed.

Lemma next_char_colons s cp r :
  next_char s = Some (cp, r) →
  colons s = (if decide (cp = 58%N) then 1 else 0) + colons r.
Proof.
  intros Hs. apply next_char_bytes in Hs
    as [(c0 & -> & -> & ?)|[(c0 & c1 & -> & ? & ? & ?)|[(c0 & c1 & c2 & -> & ? & ? & ? & ?)
       |(c0 & c1 & c2 & c3 & -> & ? & ? & ? & ? & ?)]]];
    rewrite !colons_cons.
  - destruct (decide (c0 = ":"%char)) as [->|Hne]; [done|].
    rewrite decide_False; [done|]. by intros ?%N_of_ascii_colon.
  - rewrite !decide_False by (done || lia). done.
  - rewrite !decide_False by (done || lia). done.
  - rewrite !decide_False by (done || lia). done.
Qed.

Lemma next_char_length s cp r :
  next_char s = Some (cp, r) → String.length r < String.length s.
Proof.
  intros Hs. apply next_char_bytes in Hs
    as [(c0 & -> & _)|[(c0 & c1 & -> & _)|[(c0 & c1 & c2 & -> & _)
       |(c0 & c1 & c2 & c3 & -> & _)]]]; simpl; lia.
Qed.

Lemma isspace_bound cp : isspace cp = true → (cp < 65536)%N ∧ cp ≠ 58%N.
Proof.
  unfold isspace. intros Hcp.
  repeat (apply orb_prop in Hcp as [Hcp|Hcp]);
    repeat (apply andb_prop in Hcp as [Hcp ?]);
    repeat match goal with
           | H : (_ <=? _)%N = true |- _ => apply N.leb_le in H
           | H : (_ =? _)%N = true |- _ => apply N.eqb_eq in H
           end; lia.
Qed.

Lemma after_space_colons s r : after_space s = Some r → colons s = colons r.
Proof.
  unfold after_space. destruct (next_char s) as [[cp r']|] eqn:Hs; [|done].
  destruct (isspace cp) eqn:Hcp; [|done]. intros [= ->].
  rewrite (next_char_colons _ _ _ Hs), decide_False; [done|].
  by apply isspace_bound.
Qed.

Lemma after_space_length s r : after_space s = Some r → String.length r < String.length s.
Proof.
  unfold after_space. destruct (next_char s) as [[cp r']|] eqn:Hs; [|done].
  destruct (isspace cp); [|done]. intros [= ->]. by eapply next_char_length.
Qed.

(** [lstrip] and [spaces_star] step over one white-space character at a
    time. *)
Lemma lstrip_unfold s :
  lstrip s = match after_space s with Some r => lstrip r | None => s end.
Proof.
  unfold after_space. destruct s as [|c0 r0]; [done|].
  change (lstrip (String c0 r0)) with
    (match next_char (String c0 r0) with
     | Some (cp, _) =>
         if isspace cp then
           if (cp <? 128)%N then lstrip r0
           else
             match r0 with
             | String _ r2 =>
                 if (cp <? 2048)%N then lstrip r2
                 else match r2 with
                      | String _ r3 => lstrip r3
                      | EmptyString => String c0 r0
                      end
             | EmptyString => String c0 r0
             end
         else String c0 r0
     | None => String c0 r0
     end).
  destruct (next_char (String c0 r0)) as [[cp r]|] eqn:Hs; [|done].
  destruct (isspace cp) eqn:Hcp; [|done].
  apply isspace_bound in Hcp as [Hcp _].
  apply next_char_bytes in Hs
    as [(c0' & [= <- <-] & -> & ?)|[(c0' & c1 & [= <- ->] & ? & _)
       |[(c0' & c1 & c2 & [= <- ->] & ? & _)|(c0' & c1 & c2 & c3 & _ & ? & _)]]].
  - by rewrite (proj2 (N.ltb_lt _ _)) by done.
  - rewrite (proj2 (N.ltb_ge _ _)) by lia. by rewrite (proj2 (N.ltb_lt _ _)) by lia.
  - rewrite (proj2 (N.ltb_ge cp 128)) by lia. by rewrite (proj2 (N.ltb_ge _ _)) by lia.
  - lia.
Qed.

Lemma spaces_star_unfold s :
  spaces_star s = match after_space s with
                  | Some r => spaces_star r ++ [s]
                  | None => [s]
                  end.
Proof.
  unfold after_space. destruct s as [|c0 r0]; [done|].
  change (spaces_star (String c0 r0)) with
    (match next_char (String c0 r0) with
     | Some (cp, _) =>
         if isspace cp then
           if (cp <? 128)%N then spaces_star r0 ++ [String c0 r0]
           else
             match r0 with
             | String _ r2 =>
                 if (cp <? 2048)%N then spaces_star r2 ++ [String c0 r0]
                 else match r2 with
                      | String _ r3 => spaces_star r3 ++ [String c0 r0]
                      | EmptyString => [String c0 r0]
                      end
             | EmptyString => [String c0 r0]
             end
         else [String c0 r0]
     | None => [String c0 r0]
     end).
  destruct (next_char (String c0 r0)) as [[cp r]|] eqn:Hs; [|done].
  destruct (isspace cp) eqn:Hcp; [|done].
  apply isspace_bound in Hcp as [Hcp _].
  apply next_char_bytes in Hs
    as [(c0' & [= <- <-] & -> & ?)|[(c0' & c1 & [= <- ->] & ? & _)
       |[(c0' & c1 & c2 & [= <- ->] & ? & _)|(c0' & c1 & c2 & c3 & _ & ? & _)]]].
  - by rewrite (proj2 (N.ltb_lt _ _)) by done.
  - rewrite (proj2 (N.ltb_ge _ _)) by lia. by rewrite (proj2 (N.ltb_lt _ _)) by lia.
  - rewrite (proj2 (N.ltb_ge cp 128)) by lia. by rewrite (proj2 (N.ltb_ge _ _)) by lia.
  - lia.
Qed.

Lemma string_length_ind (P : string → Prop) :
  (∀ s, (∀ r, String.length r < String.length s → P r) → P s) → ∀ s, P s.
Proof.
  intros HP s. remember (String.length s) as n eqn:Hn. revert s Hn.
  induction (lt_wf n) as [n _ IH]. intros s ->.
  apply HP. intros r Hr. by apply (IH _ Hr).
Qed.

Lemma colons_lstrip s : colons (lstrip s) ≤ colons s.
Proof.
  induction s as [s IH] using string_length_ind.
  rewrite lstrip_unfold. destruct (after_space s) as [r|] eqn:Hs; [|done].
  rewrite (after_space_colons _ _ Hs). apply IH. by eapply after_space_length.
Qed.

Lemma colons_rstrip s : colons (rstrip s) ≤ colons s.
Proof.
  induction s as [|c s IH]; [done|].
  change (rstrip (String c s))
    with (match lstrip (String c s) with
          | EmptyString => EmptyString
          | String _ _ => String c (rstrip s)
          end).
  destruct (lstrip (String c s)); [change (colons "") with 0; lia|].
  rewrite !colons_cons. lia.
Qed.

Lemma colons_strip s : colons (strip s) ≤ colons s.
Proof.
  unfold strip. etrans; [apply colons_rstrip|apply colons_lstrip].
Qed.

Lemma spaces_star_colons s r : r ∈ spaces_star s → colons s = colons r.
Proof.
  revert r. induction s as [s IH] using string_length_ind. intros r.
  rewrite spaces_star_unfold. destruct (after_space s) as [r'|] eqn:Hs.
  - intros [Hin| ->%list_elem_of_singleton]%elem_of_app; [|done].
    rewrite (after_space_colons _ _ Hs). apply IH; [|done].
    by eapply after_space_length.
  - by intros ->%list_elem_of_singleton.
Qed.

Lemma reads_colons_spaces : reads_colons 0 re_spaces.
Proof.
  intros s x r Hin. unfold re_spaces in Hin.
  destruct (after_space s) as [r'|] eqn:Hs; [|by apply elem_of_nil in Hin].
  apply list_elem_of_fmap in Hin as (r'' & [= -> ->] & Hr).
  rewrite (after_space_colons _ _ Hs). by apply spaces_star_colons.
Qed.

Lemma decimal_not_colon cp d : decimal cp = Some d → cp ≠ 58%N.
Proof. intros Hd ->. by vm_compute in Hd. Qed.

Lemma reads_colons_digit : reads_colons 0 re_digit.
Proof.
  intros s x r Hin. unfold re_digit in Hin.
  destruct (next_char s) as [[cp r']|] eqn:Hs; [|by apply elem_of_nil in Hin].
  destruct (decimal cp) as [d|] eqn:Hd; [|by apply elem_of_nil in Hin].
  apply list_elem_of_singleton in Hin as [= -> ->].
  rewrite (next_char_colons _ _ _ Hs), decide_False; [done|].
  by eapply decimal_not_colon.
Qed.

Lemma reads_colons_range lo hi : reads_colons 0 (re_range lo hi).
Proof.
  intros [|c s] x r Hin; [by apply elem_of_nil in Hin|]. simpl in Hin.
  destruct (digit c) as [d|] eqn:Hd; [|by apply elem_of_nil in Hin].
  destruct (_ && _); [|by apply elem_of_nil in Hin].
  apply list_elem_of_singleton in Hin as [= -> ->].
  rewrite colons_cons, decide_False; [done|by eapply digit_not_colon].
Qed.

Lemma reads_colons_char (a : ascii) :
  reads_colons (if decide (a = ":"%char) then 1 else 0) (re_char a).
Proof.
  intros [|c s] x r Hin; [by apply elem_of_nil in Hin|]. simpl in Hin.
  destruct (Ascii.eqb _ _) eqn:Heq; [|by apply elem_of_nil in Hin].
  apply list_elem_of_singleton in Hin as [= -> ->].
  apply Ascii.eqb_eq in Heq. rewrite colons_cons.
  destruct (decide (a = ":"%char)) as [->|Hne].
  - by rewrite decide_True by (by apply lower_char_colon).
  - rewrite decide_False; [done|]. intros ->. apply Hne.
    apply lower_char_colon. by rewrite <- Heq.
Qed.

Lemma reads_colons_bind {A B} (k1 k2 : nat) (m : matcher A) (f : A → matcher B) :
  reads_colons k1 m → (∀ x, reads_colons k2 (f x)) →
  reads_colons (k1 + k2) (λ s, m s ≫= λ '(x, s1), f x s1).
Proof.
  intros Hm Hf s y r Hin.
  apply list_elem_of_bind in Hin as ([x s1] & Hin & Hx).
  rewrite (Hm s x s1 Hx), (Hf x s1 y r Hin). lia.
Qed.

Lemma reads_colons_ret {A} (x : A) : reads_colons 0 (λ s, [(x, s)]).
Proof. intros s y r Hin. by apply list_elem_of_singleton in Hin as [= -> ->]. Qed.

Lemma reads_colons_alt {A} (k : nat) (ms : list (matcher A)) :
  Forall (reads_colons k) ms → reads_colons k (re_alt ms).
Proof.
  intros Hms s x r Hin. unfold re_alt in Hin.
  apply list_elem_of_bind in Hin as (m & Hin & Hm).
  rewrite Forall_forall in Hms. by apply (Hms m Hm s x r).
Qed.

Lemma reads_colons_two a b :
  reads_colons 0 a → reads_colons 0 b → reads_colons 0 (re_two a b).
Proof.
  intros Ha Hb. unfold re_two.
  apply (reads_colons_bind 0 0 a (λ x s1, b s1 ≫= λ '(y, s2), [((10 * x + y)%Z, s2)])); [done|].
  intros x. apply (reads_colons_bind 0 0 b (λ y s2, [((10 * x + y)%Z, s2)])); [done|].
  intros y. apply reads_colons_ret.
Qed.

Lemma reads_colons_I : reads_colons 0 re_I.
Proof.
  apply reads_colons_alt.
  repeat constructor; try apply reads_colons_two; apply reads_colons_range.
Qed.

Lemma reads_colons_M : reads_colons 0 re_M.
Proof.
  apply reads_colons_alt.
  repeat constructor; try apply reads_colons_two;
    first [apply reads_colons_range|apply reads_colons_digit].
Qed.

Lemma reads_colons_S : reads_colons 0 re_S.
Proof.
  apply reads_colons_alt.
  repeat constructor; try apply reads_colons_two;
    first [apply reads_colons_range|apply reads_colons_digit].
Qed.

Lemma reads_colons_p : reads_colons 0 re_p.
Proof.
  apply reads_colons_alt. repeat constructor.
  - apply (reads_colons_bind 0 0 (re_char "a")
             (λ _ s1, re_char "m" s1 ≫= λ '(_, s2), [(false, s2)]));
      [apply (reads_colons_char "a")|].
    intros _. apply (reads_colons_bind 0 0 (re_char "m") (λ _ s2, [(false, s2)]));
      [apply (reads_colons_char "m")|intros _; apply reads_colons_ret].
  - apply (reads_colons_bind 0 0 (re_char "p")
             (λ _ s1, re_char "m" s1 ≫= λ '(_, s2), [(true, s2)]));
      [apply (reads_colons_char "p")|].
    intros _. apply (reads_colons_bind 0 0 (re_char "m") (λ _ s2, [(true, s2)]));
      [apply (reads_colons_char "m")|intros _; apply reads_colons_ret].
Qed.

Lemma full_match_elem {A} (m : matcher A) s x :
  full_match m s = Some x → (x, "") ∈ m s.
Proof.
  unfold full_match. destruct (m s) as [|[y [|c r]] l]; simpl; try done.
  intros [= ->]. left.
Qed.

Lemma strptime_IMp_colons s t : strptime_IMp s = Some t → colons s = 1.
Proof.
  unfold strptime_IMp. intros Hp.
  apply bind_Some in Hp as ([[h m] pm] & Hm%full_match_elem & _).
  revert Hm.
  apply (reads_colons_bind 0 1 re_I
           (λ h s1, re_char ":" s1 ≫= λ '(_, s2), re_M s2 ≫= λ '(m, s3),
              re_spaces s3 ≫= λ '(_, s4), re_p s4 ≫= λ '(pm, s5), [((h, m, pm), s5)]));
    [apply reads_colons_I|]. intros h'.
  apply (reads_colons_bind 1 0 (re_char ":")
           (λ _ s2, re_M s2 ≫= λ '(m, s3),
              re_spaces s3 ≫= λ '(_, s4), re_p s4 ≫= λ '(pm, s5), [((h', m, pm), s5)]));
    [apply (reads_colons_char ":")|]. intros _.
  apply (reads_colons_bind 0 0 re_M
           (λ m s3, re_spaces s3 ≫= λ '(_, s4), re_p s4 ≫= λ '(pm, s5), [((h', m, pm), s5)]));
    [apply reads_colons_M|]. intros m'.
  apply (reads_colons_bind 0 0 re_spaces
           (λ _ s4, re_p s4 ≫= λ '(pm, s5), [((h', m', pm), s5)]));
    [apply reads_colons_spaces|]. intros _.
  apply (reads_colons_bind 0 0 re_p (λ pm s5, [((h', m', pm), s5)]));
    [apply reads_colons_p|]. intros pm'. apply reads_colons_ret.
Qed.

Lemma strptime_IMSp_colons s t : strptime_IMSp s = Some t → colons s = 2.
Proof.
  unfold strptime_IMSp. intros Hp.
  apply bind_Some in Hp as ([[[h m] sec] pm] & Hm%full_match_elem & _).
  revert Hm.
  apply (reads_colons_bind 0 2 re_I
           (λ h s1, re_char ":" s1 ≫= λ '(_, s2), re_M s2 ≫= λ '(m, s3),
              re_char ":" s3 ≫= λ '(_, s4), re_S s4 ≫= λ '(sec, s5),
              re_spaces s5 ≫= λ '(_, s6), re_p s6 ≫= λ '(pm, s7),
              [((h, m, sec, pm), s7)]));
    [apply reads_colons_I|]. intros h'.
  apply (reads_colons_bind 1 1 (re_char ":")
           (λ _ s2, re_M s2 ≫= λ '(m, s3),
              re_char ":" s3 ≫= λ '(_, s4), re_S s4 ≫= λ '(sec, s5),
              re_spaces s5 ≫= λ '(_, s6), re_p s6 ≫= λ '(pm, s7),
              [((h', m, sec, pm), s7)]));
    [apply (reads_colons_char ":")|]. intros _.
  apply (reads_colons_bind 0 1 re_M
           (λ m s3, re_char ":" s3 ≫= λ '(_, s4), re_S s4 ≫= λ '(sec, s5),
              re_spaces s5 ≫= λ '(_, s6), re_p s6 ≫= λ '(pm, s7),
              [((h', m, sec, pm), s7)]));
    [apply reads_colons_M|]. intros m'.
  apply (reads_colons_bind 1 0 (re_char ":")
           (λ _ s4, re_S s4 ≫= λ '(sec, s5),
              re_spaces s5 ≫= λ '(_, s6), re_p s6 ≫= λ '(pm, s7),
              [((h', m', sec, pm), s7)]));
    [apply (reads_colons_char ":")|]. intros _.
  apply (reads_colons_bind 0 0 re_S
           (λ sec s5, re_spaces s5 ≫= λ '(_, s6), re_p s6 ≫= λ '(pm, s7),
              [((h', m', sec, pm), s7)]));
    [apply reads_colons_S|]. intros sec'.
  apply (reads_colons_bind 0 0 re_spaces
           (λ _ s6, re_p s6 ≫= λ '(pm, s7), [((h', m', sec', pm), s7)]));
    [apply reads_colons_spaces|]. intros _.
  apply (reads_colons_bind 0 0 re_p (λ pm s7, [((h', m', sec', pm), s7)]));
    [apply reads_colons_p|]. intros pm'. apply reads_colons_ret.
Qed.

(** A time that the pattern without seconds accepts is parsed by it in
    [count_by_hour] as well: the pattern with seconds, tried first, wants
    two colons. *)
Lemma parse_time_3_IMp s t : strptime_IMp s = Some t → parse_time_3 s = Some t.
Proof.
  intros Hp. unfold parse_time_3.
  destruct (strptime_IMSp s) as [t'|] eqn:Hs; [|by rewrite Hp].
  apply strptime_IMSp_colons in Hs. apply strptime_IMp_colons in Hp. lia.
Qed.

Lemma colons_app s1 s2 : colons (s1 +:+ s2) = colons s1 + colons s2.
Proof.
  induction s1 as [|c s1 IH]; [done|].
  change (String c s1 +:+ s2) with (String c (s1 +:+ s2)).
  rewrite !colons_cons, IH. lia.
Qed.

Lemma colons_pretty_N_go (x : N) s : colons (pretty_N_go x s) = colons s.
Proof.
  revert s. induction (N.lt_wf_0 x) as [x _ IH]; intros s.
  assert (x = 0 ∨ 0 < x)%N as [->|?] by lia.
  - by rewrite pretty_N_go_0.
  - rewrite pretty_N_go_step by done. rewrite IH by (by apply N.div_lt).
    rewrite colons_cons, decide_False; [done|].
    unfold pretty_N_char. by repeat case_match.
Qed.

Lemma colons_pretty_Z (z : Z) : colons (pretty z) = 0.
Proof.
  assert (∀ p : positive, colons (pretty p) = 0) as Hpos.
  { intros p. unfold pretty, pretty_positive, pretty, pretty_N.
    rewrite decide_False by done. apply colons_pretty_N_go. }
  destruct z as [|p|p]; [done|apply Hpos|].
  change (pretty (Z.neg p)) with ("-" +:+ pretty p).
  by rewrite colons_app, Hpos.
Qed.

(** A record gets from [hourly_location] the hour that [count_by_hour]
    gives it, or [Unknown]. *)
Lemma hourly_location_hour_bucket row :
  hourly_location_hour row = hour_bucket_of row ∨ hourly_location_hour row = "Unknown".
Proof.
  unfold hourly_location_hour, hour_bucket_of, get.
  destruct (row !! "incident_time") as [[|z|s]|]; cbn [default from_option id is_not_None str];
    [by right| | |by right].
  - right. destruct (truthy _); [|done].
    destruct (strptime_IMp _) as [t|] eqn:Hp; [|done].
    apply strptime_IMp_colons in Hp.
    pose proof (colons_strip (pretty z)) as Hle. rewrite colons_pretty_Z in Hle. lia.
  - destruct (truthy _); [|by right].
    destruct (strptime_IMp _) as [t|] eqn:Hp; [|by right].
    left. by rewrite hour_bucket_str, (parse_time_3_IMp _ t).
Qed.

Lemma length_filter_impl {A} (P Q : A → Prop) `{∀ x, Decision (P x)} `{∀ x, Decision (Q x)}
    (l : list A) :
  (∀ x, x ∈ l → P x → Q x) → length (filter P l) ≤ length (filter Q l).
Proof.
  induction l as [|x l IH]; intros HPQ; [done|].
  rewrite !filter_cons.
  assert (length (filter P l) ≤ length (filter Q l)) as Hle
    by (apply IH; intros y Hy; apply HPQ; by right).
  destruct (decide (P x)) as [HP|HP].
  - rewrite decide_True by (apply HPQ; [left|done]). simpl. lia.
  - destruct (decide (Q x)); simpl; lia.
Qed.

Lemma total_count_breakdown_hour data h :
  total_count (filter (λ r, r.1.1 = h) (breakdown_table data))
  = occurrences h (hourly_location_hour <$> data).
Proof.
  unfold breakdown_table.
  set (G := group_table hourly_location_hour
              (λ rows, count_table (location_of <$> rows)) data).
  assert (NoDup (sorted breakdown_rank G).*1) as Hnd.
  { rewrite sorted_perm. change (NoDup (dict_keys G)).
    unfold G, group_table. rewrite dict_keys_table. apply NoDup_first_seen. }
  destruct (decide (h ∈ hourly_location_hour <$> data)) as [Hin|Hout].
  - rewrite (filter_breakdown_rows _ h
               (count_table (location_of
                  <$> filter (λ row, hourly_location_hour row = h) data))).
    + unfold total_count. rewrite <- list_fmap_compose.
      change (total_count (count_table (location_of
                <$> filter (λ row, hourly_location_hour row = h) data))
              = occurrences h (hourly_location_hour <$> data)).
      by rewrite total_count_table, length_fmap, occurrences_fmap.
    + done.
    + rewrite sorted_perm. by apply elem_of_group_table.
  - rewrite filter_breakdown_rows_absent.
    + by rewrite occurrences_notin.
    + rewrite sorted_perm. change (h ∉ dict_keys G).
      unfold G, group_table. rewrite dict_keys_table. by rewrite elem_of_first_seen.
Qed.


(** ** What [count_by_hour] prints *)

Lemma count_by_hour_step_printed st row :
  (count_by_hour_step st row).2
  = st.2 ++ match time_diagnostic row with Some e => [e] | None => [] end.
Proof.
  destruct st as [hour_counts out]. unfold count_by_hour_step, time_diagnostic, get.
  destruct (row !! "incident_time") as [[|z|[|c s]]|] eqn:Hrow;
    cbn [default from_option id truthy isinstance_str str andb snd];
    rewrite ?andb_false_r, ?app_nil_r; try done.
  destruct (parse_time_3 _); simpl; by rewrite ?app_nil_r.
Qed.

Lemma count_by_hour_printed_omap data :
  count_by_hour_printed data = omap time_diagnostic data.
Proof.
  unfold count_by_hour_printed, count_by_hour_loop.
  induction data as [|row data IH] using rev_ind; [done|].
  rewrite foldl_app, omap_app. simpl.
  rewrite count_by_hour_step_printed, IH. f_equal.
Qed.

Lemma hour_label_not_Unknown s t : parse_time_3 s = Some t → hour_label t ≠ "Unknown".
Proof.
  intros Hp%parse_time_3_hour. rewrite hour_label_of_hour.
  by apply label_of_hour_not_Unknown.
Qed.

Lemma hour_bucket_Unknown row :
  hour_bucket_of row = "Unknown"
  ↔ is_Some (time_diagnostic row) ∨ has_time_text row = false.
Proof.
  unfold hour_bucket_of, time_diagnostic, has_time_text.
  destruct (row !! "incident_time") as [[|z|[|c s]]|] eqn:Hrow;
    try (split; [by right|done]).
  rewrite hour_bucket_str.
  destruct (parse_time_3 _) as [t|] eqn:Hp.
  - split; [intros Hu; by destruct (hour_label_not_Unknown _ t Hp)|].
    intros [[? ?]|?]; done.
  - split; [by left|done].
Qed.


(** ** [consolidate_metrics_to_csv] *)

Lemma consolidate_loop_app items1 items2 file :
  consolidate_loop (items1 ++ items2) file
  = match consolidate_loop items1 file with
    | (file', None) => consolidate_loop items2 file'
    | (file', Some e) => (file', Some e)
    end.
Proof.
  revert file. induction items1 as [|[name [[|row0 rows]|d]] items1 IH]; intros file; simpl.
  - done.
  - apply IH.
  - apply IH.
  - done.
Qed.

Lemma consolidate_loop_flat items file :
  Forall (λ item : string * metric_data, ∃ rows, item.2 = MRows rows) items →
  (consolidate_loop items file).2 = None.
Proof.
  intros Hitems. revert file.
  induction Hitems as [|[name data] items (rows & Hrows) _ IH]; intros file; [done|].
  simpl in Hrows. subst data. destruct rows as [|row0 rows]; simpl; apply IH.
Qed.


(** ** The layout of the workbook *)

Lemma in_block_nil r0 r1 c0 width : in_block r0 r1 c0 width [].
Proof. split; [constructor|constructor]. Qed.

Lemma in_block_weaken r0 r1 r0' r1' c0 width width' ws :
  in_block r0 r1 c0 width ws → r0' ≤ r0 → r1 ≤ r1' → width ≤ width' →
  in_block r0' r1' c0 width' ws.
Proof.
  intros [Hnd Hws] ? ? ?. split; [done|].
  eapply Forall_impl; [exact Hws|]. simpl. intros w ?. lia.
Qed.

Lemma in_block_app r0 r1 r2 c0 width ws1 ws2 :
  in_block r0 r1 c0 width ws1 → in_block r1 r2 c0 width ws2 → r0 ≤ r1 → r1 ≤ r2 →
  in_block r0 r2 c0 width (ws1 ++ ws2).
Proof.
  intros [Hnd1 Hws1] [Hnd2 Hws2] ? ?. split.
  - rewrite fmap_app. apply NoDup_app. split_and!; [done| |done].
    intros x Hx1 Hx2.
    apply list_elem_of_fmap in Hx1 as (w1 & -> & Hw1).
    apply list_elem_of_fmap in Hx2 as (w2 & Heq & Hw2).
    rewrite Forall_forall in Hws1, Hws2.
    specialize (Hws1 _ Hw1). specialize (Hws2 _ Hw2). rewrite Heq in Hws1. lia.
  - apply Forall_app. split.
    + eapply Forall_impl; [exact Hws1|]. simpl. intros w ?. lia.
    + eapply Forall_impl; [exact Hws2|]. simpl. intros w ?. lia.
Qed.

Lemma write_line_block r c width values :
  length values ≤ width → in_block r (r + 1) c width (write_line r c values).
Proof.
  intros Hlen. unfold write_line. split.
  - apply NoDup_alt. intros i j x Hi Hj.
    rewrite list_lookup_fmap, list_lookup_imap in Hi, Hj.
    destruct (values !! i) as [vi|] eqn:Hvi; [|done].
    destruct (values !! j) as [vj|] eqn:Hvj; [|done].
    simpl in Hi, Hj. simplify_eq. lia.
  - apply Forall_forall. intros w Hw.
    apply list_elem_of_lookup in Hw as [i Hi].
    rewrite list_lookup_imap in Hi.
    destruct (values !! i) as [vi|] eqn:Hvi; [|done].
    apply lookup_lt_Some in Hvi. simpl in Hi. simplify_eq. simpl. lia.
Qed.

Lemma write_rows_block c width rows r ws :
  Forall (λ row : list (string * cell), length row ≤ width) rows →
  ∃ ws', write_rows c rows (r, ws) = (r + length rows, ws ++ ws')
         ∧ in_block r (r + length rows) c width ws'.
Proof.
  intros Hrows. revert r ws.
  induction Hrows as [|row rows Hrow _ IH]; intros r ws.
  - exists []. simpl. rewrite Nat.add_0_r, app_nil_r. split; [done|apply in_block_nil].
  - unfold write_rows in *. simpl.
    destruct (IH (r + 1) (ws ++ write_line r c row.*2)) as (ws' & -> & Hws').
    exists (write_line r c row.*2 ++ ws'). split.
    + f_equal; [lia|by rewrite app_assoc].
    + eapply (in_block_app r (r + 1));
        [|eapply in_block_weaken; [exact Hws'|simpl; lia..]|simpl; lia..].
      apply write_line_block. by rewrite length_fmap.
Qed.

Lemma write_table_block c width headers rows r ws :
  length headers ≤ width →
  Forall (λ row : list (string * cell), length row ≤ width) rows →
  ∃ ws', write_table c headers rows (r, ws) = (r + 1 + length rows, ws ++ ws')
         ∧ in_block r (r + 1 + length rows) c width ws'.
Proof.
  intros Hh Hrows. unfold write_table. simpl.
  destruct (write_rows_block c width rows (r + 1)
              (ws ++ write_line r c (CVal ∘ VStr <$> headers)) Hrows) as (ws' & -> & Hws').
  exists (write_line r c (CVal ∘ VStr <$> headers) ++ ws'). split.
  - by rewrite app_assoc.
  - eapply (in_block_app r (r + 1)); [|done|lia|lia].
    apply write_line_block. by rewrite length_fmap.
Qed.

Lemma in_block_single r c width (v : cell) :
  1 ≤ width → in_block r (r + 1) c width [(r, c, v)].
Proof.
  intros Hw. split; [apply NoDup_singleton|].
  apply Forall_singleton. simpl. lia.
Qed.

Lemma sub_metric_rows_width by_date sub_metric_name :
  Forall (λ row : list (string * cell), length row ≤ 2)
    (sub_metric_rows by_date sub_metric_name).
Proof.
  unfold sub_metric_rows. repeat case_decide; [| |constructor];
    apply Forall_forall; intros row (x & -> & _)%list_elem_of_fmap; done.
Qed.

Lemma write_sub_metric_block c by_date sub_metric_name r ws :
  ∃ r' ws', write_sub_metric c by_date (r, ws) sub_metric_name = (r', ws ++ ws')
            ∧ r < r' ∧ in_block r r' c 2 ws'.
Proof.
  unfold write_sub_metric. cbn [fst snd].
  pose proof (sub_metric_rows_width by_date sub_metric_name) as Hw.
  assert (in_block r (r + 1) c 2 [(r, c, CVal (VStr sub_metric_name))]) as Hname.
  { apply in_block_single. lia. }
  destruct (sub_metric_rows by_date sub_metric_name) as [|row0 rows] eqn:Hrows.
  - eexists _, _. cbn [fst snd]. split_and!; [done|lia|].
    eapply in_block_weaken; [exact Hname|lia..].
  - destruct (write_table_block c 2 row0.*1 (row0 :: rows) (r + 1)
                (ws ++ [(r, c, CVal (VStr sub_metric_name))])) as (ws' & -> & Hws'); [|done|].
    { apply Forall_cons in Hw as [Hrow0 _]. by rewrite length_fmap. }
    cbn [fst snd]. eexists _, ([(r, c, CVal (VStr sub_metric_name))] ++ ws').
    split_and!; [by rewrite app_assoc|lia|].
    eapply (in_block_app r (r + 1)); [done| |lia|lia].
    eapply in_block_weaken; [exact Hws'|lia..].
Qed.

Lemma write_metric_block st metric_name metric_data width :
  2 ≤ width →
  (metric_name = "incidents_by_loc_hour" → 3 ≤ width) →
  match metric_data with
  | MRows rows => Forall (λ row : row_dict, length row ≤ width) rows
  | MNested _ => True
  end →
  ∃ ws', cells (write_metric st (metric_name, metric_data)) = cells st ++ ws'
    ∧ current_col (write_metric st (metric_name, metric_data))
      = (section_start metric_name st).2
    ∧ (section_start metric_name st).1
      < current_row (write_metric st (metric_name, metric_data))
    ∧ in_block (section_start metric_name st).1
        (current_row (write_metric st (metric_name, metric_data)))
        (section_start metric_name st).2 width ws'
    ∧ head ws' = Some ((section_start metric_name st).1,
                       (section_start metric_name st).2, CVal (VStr metric_name)).
Proof.
  intros Hwidth Hloc Hdata. unfold write_metric.
  fold (section_start metric_name st).
  destruct (section_start metric_name st) as [r c]. cbn [fst snd].
  assert (in_block r (r + 1) c width [(r, c, CVal (VStr metric_name))]) as Hname.
  { apply in_block_single. lia. }
  destruct metric_data as [[|row0 rows]|by_date].
  - exists [(r, c, CVal (VStr metric_name));
            (r + 1, c, CVal (VStr "No Data Available"))].
    cbn [cells current_col current_row]. split_and!; [by rewrite <- app_assoc|done|lia| |done].
    eapply (in_block_app r (r + 1) _ c width [_] [_]); [done| |lia|lia].
    eapply in_block_weaken; [apply (in_block_single (r + 1) c width); lia|lia..].
  - set (table := (λ row : row_dict, prod_map id CVal <$> row) <$> row0 :: rows).
    assert (Forall (λ row : list (string * cell), length row ≤ width) table) as Htable.
    { unfold table. apply Forall_fmap. eapply Forall_impl; [exact Hdata|].
      intros row Hrow. simpl. by rewrite length_fmap. }
    case_decide as Hname'.
    + destruct (write_table_block c width ["Hour"; "Location"; "Count"] table (r + 1)
                  (cells st ++ [(r, c, CVal (VStr metric_name))])) as (ws' & -> & Hws');
        [simpl; by apply Hloc|done|].
      exists ([(r, c, CVal (VStr metric_name))] ++ ws').
      cbn [cells current_col current_row fst snd].
      split_and!; [by rewrite app_assoc|done|lia| |done].
      eapply (in_block_app r (r + 1)); [done| |lia|lia].
      eapply in_block_weaken; [exact Hws'|lia..].
    + destruct (write_table_block c width row0.*1 table (r + 1)
                  (cells st ++ [(r, c, CVal (VStr metric_name))])) as (ws' & -> & Hws');
        [|done|].
      { apply Forall_cons in Hdata as [Hrow0 _]. by rewrite length_fmap. }
      exists ([(r, c, CVal (VStr metric_name))] ++ ws').
      cbn [cells current_col current_row fst snd].
      split_and!; [by rewrite app_assoc|done|lia| |done].
      eapply (in_block_app r (r + 1)); [done| |lia|lia].
      eapply in_block_weaken; [exact Hws'|lia..].
  - set (subs := if decide (metric_name = "incidents_by_date")
                 then ["day_of_week_avg"; "date_counts"]
                 else ["date_counts"; "day_of_week_avg"]).
    assert (∃ s1 s2, subs = [s1; s2]) as (s1 & s2 & ->)
      by (unfold subs; case_decide; eauto).
    cbn [foldl].
    destruct (write_sub_metric_block c by_date s1 (r + 1)
                (cells st ++ [(r, c, CVal (VStr metric_name))])) as (r1 & ws1 & -> & Hr1 & Hws1).
    destruct (write_sub_metric_block c by_date s2 r1
                ((cells st ++ [(r, c, CVal (VStr metric_name))]) ++ ws1))
      as (r2 & ws2 & -> & Hr2 & Hws2).
    exists ([(r, c, CVal (VStr metric_name))] ++ ws1 ++ ws2).
    cbn [cells current_col current_row fst snd].
    split_and!; [by rewrite !app_assoc|done|lia| |done].
    eapply (in_block_app r (r + 1)); [done| |lia|lia].
    eapply (in_block_app (r + 1) r1).
    + eapply in_block_weaken; [exact Hws1|lia..].
    + eapply in_block_weaken; [exact Hws2|lia..].
    + lia.
    + lia.
Qed.

Lemma in_block_columns r0 r1 c0 width ws :
  in_block r0 r1 c0 width ws →
  NoDup ws.*1 ∧ Forall (λ w : written, 1 ≤ r0 → 1 ≤ w.1.1) ws
  ∧ Forall (λ w : written, w.1.2 ∈ seq c0 width) ws.
Proof.
  intros [Hnd Hws]. split_and!; [done| |].
  - eapply Forall_impl; [exact Hws|]. simpl. intros w ?. lia.
  - eapply Forall_impl; [exact Hws|]. simpl. intros w ?. apply elem_of_seq. lia.
Qed.

Lemma columns_app (cols1 cols2 : list nat) (ws1 ws2 : list written) :
  NoDup ws1.*1 → NoDup ws2.*1 →
  Forall (λ w : written, w.1.2 ∈ cols1) ws1 →
  Forall (λ w : written, w.1.2 ∈ cols2) ws2 →
  Forall (λ c, c ∉ cols2) cols1 →
  NoDup (ws1 ++ ws2).*1 ∧ Forall (λ w : written, w.1.2 ∈ cols1 ++ cols2) (ws1 ++ ws2).
Proof.
  intros Hnd1 Hnd2 Hc1 Hc2 Hdisj.
  rewrite Forall_forall in Hc1. rewrite Forall_forall in Hc2.
  rewrite Forall_forall in Hdisj. split.
  - rewrite fmap_app. apply NoDup_app. split_and!; [done| |done].
    intros x Hx1 Hx2.
    apply list_elem_of_fmap in Hx1 as (w1 & -> & Hw1).
    apply list_elem_of_fmap in Hx2 as (w2 & Heq & Hw2).
    apply (Hdisj w1.1.2); [by apply Hc1|]. rewrite Heq. by apply Hc2.
  - apply Forall_app. split; apply Forall_forall; intros w Hw; apply elem_of_app.
    + left. by apply Hc1.
    + right. by apply Hc2.
Qed.

Lemma count_rows_width {K} key (cell : K → value) count table :
  Forall (λ row : row_dict, length row ≤ 2) (count_rows key cell count table).
Proof.
  apply Forall_forall. by intros row (x & -> & _)%list_elem_of_fmap.
Qed.

Lemma loc_hour_rows_width table :
  Forall (λ row : row_dict, length row ≤ 3) (loc_hour_rows table).
Proof.
  apply Forall_forall. by intros row (x & -> & _)%list_elem_of_fmap.
Qed.

Lemma head_elem_of {A} (l : list A) x : head l = Some x → x ∈ l.
Proof. destruct l; [done|]. intros [= ->]. left. Qed.

(** The calls of [ws.cell]: no cell is written twice, the tables are in
    their columns and the titles in their places. *)
Lemma workbook_calls_layout (m : metrics) :
  NoDup (workbook_calls (metrics_dict m)).*1
  ∧ Forall (λ w : written, 1 ≤ w.1.1 ∧ w.1.2 ∈ [1; 2; 8; 9; 11; 12; 14; 15; 4; 5; 6])
      (workbook_calls (metrics_dict m))
  ∧ (1, 1, CVal (VStr "incidents_by_grade")) ∈ workbook_calls (metrics_dict m)
  ∧ (1, 4, CVal (VStr "incidents_by_loc_hour")) ∈ workbook_calls (metrics_dict m)
  ∧ (1, 8, CVal (VStr "incidents_by_date")) ∈ workbook_calls (metrics_dict m)
  ∧ (1, 11, CVal (VStr "incidents_by_subtype")) ∈ workbook_calls (metrics_dict m)
  ∧ (1, 14, CVal (VStr "top_students")) ∈ workbook_calls (metrics_dict m)
  ∧ (∃ r, 1 < r ∧ (r, 1, CVal (VStr "incidents_by_location"))
                    ∈ workbook_calls (metrics_dict m))
  ∧ (∃ r, 1 < r ∧ (r, 1, CVal (VStr "incidents_by_hour"))
                    ∈ workbook_calls (metrics_dict m))
  ∧ (∃ r, 1 < r ∧ (r, 14, CVal (VStr "top_authors"))
                    ∈ workbook_calls (metrics_dict m)).
Proof.
  unfold workbook_calls, metrics_dict. cbn [foldl].
  set (st0 := mk_sheet 1 1 []).
  destruct (write_metric_block st0 "incidents_by_grade"
              (MRows (count_rows "Grade" id "Count" (incidents_by_grade m))) 2)
    as (w1 & Hc1 & Hcol1 & Hlt1 & Hb1 & Hh1); [lia|done|apply count_rows_width|].
  set (st1 := write_metric st0 _) in *.
  destruct (write_metric_block st1 "incidents_by_location"
              (MRows (count_rows "Location" id "Count" (incidents_by_location m))) 2)
    as (w2 & Hc2 & Hcol2 & Hlt2 & Hb2 & Hh2); [lia|done|apply count_rows_width|].
  set (st2 := write_metric st1 _) in *.
  destruct (write_metric_block st2 "incidents_by_hour"
              (MRows (count_rows "Hour" VStr "Count" (incidents_by_hour m))) 2)
    as (w3 & Hc3 & Hcol3 & Hlt3 & Hb3 & Hh3); [lia|done|apply count_rows_width|].
  set (st3 := write_metric st2 _) in *.
  destruct (write_metric_block st3 "incidents_by_date" (MNested (incidents_by_date m)) 2)
    as (w4 & Hc4 & Hcol4 & Hlt4 & Hb4 & Hh4); [lia|done|done|].
  set (st4 := write_metric st3 _) in *.
  destruct (write_metric_block st4 "incidents_by_subtype"
              (MRows (count_rows "Subtype" id "Count" (incidents_by_subtype m))) 2)
    as (w5 & Hc5 & Hcol5 & Hlt5 & Hb5 & Hh5); [lia|done|apply count_rows_width|].
  set (st5 := write_metric st4 _) in *.
  destruct (write_metric_block st5 "top_students"
              (MRows (count_rows "Student" id "Incidents" (metric_top_students m))) 2)
    as (w6 & Hc6 & Hcol6 & Hlt6 & Hb6 & Hh6); [lia|done|apply count_rows_width|].
  set (st6 := write_metric st5 _) in *.
  destruct (write_metric_block st6 "top_authors"
              (MRows (count_rows "Author" id "Logs" (metric_top_authors m))) 2)
    as (w7 & Hc7 & Hcol7 & Hlt7 & Hb7 & Hh7); [lia|done|apply count_rows_width|].
  set (st7 := write_metric st6 _) in *.
  destruct (write_metric_block st7 "incidents_by_loc_hour"
              (MRows (loc_hour_rows (incidents_by_loc_hour m))) 3)
    as (w8 & Hc8 & Hcol8 & Hlt8 & Hb8 & Hh8); [lia|lia|apply loc_hour_rows_width|].
  set (st8 := write_metric st7 _) in *.
  change (section_start "incidents_by_grade" st0) with (1, 1) in *.
  change (section_start "incidents_by_location" st1)
    with (current_row st1 + 2, current_col st1) in *.
  change (section_start "incidents_by_hour" st2)
    with (current_row st2 + 2, current_col st2) in *.
  change (section_start "incidents_by_date" st3) with (1, 8) in *.
  change (section_start "incidents_by_subtype" st4) with (1, 11) in *.
  change (section_start "top_students" st5) with (1, 14) in *.
  change (section_start "top_authors" st6)
    with (current_row st6 + 2, current_col st6) in *.
  change (section_start "incidents_by_loc_hour" st7) with (1, 4) in *.
  cbn [fst snd] in *.
  rewrite Hcol1 in Hcol2, Hb2, Hh2. rewrite Hcol2 in Hcol3, Hb3, Hh3.
  rewrite Hcol6 in Hcol7, Hb7, Hh7.
  assert (cells st8 = (w1 ++ w2 ++ w3) ++ w4 ++ w5 ++ (w6 ++ w7) ++ w8) as ->.
  { rewrite Hc8, Hc7, Hc6, Hc5, Hc4, Hc3, Hc2, Hc1. simpl. by rewrite <- !app_assoc. }
  assert (in_block 1 (current_row st3) 1 2 (w1 ++ w2 ++ w3)) as HA.
  { eapply (in_block_app 1 (current_row st1)); [done| |lia|lia].
    eapply (in_block_app (current_row st1) (current_row st2)); [| |lia|lia].
    - eapply in_block_weaken; [exact Hb2|lia..].
    - eapply in_block_weaken; [exact Hb3|lia..]. }
  assert (in_block 1 (current_row st7) 14 2 (w6 ++ w7)) as HB.
  { eapply (in_block_app 1 (current_row st6)); [done| |lia|lia].
    eapply in_block_weaken; [exact Hb7|lia..]. }
  apply in_block_columns in HA as (HA1 & HA2 & HA3).
  apply in_block_columns in Hb4 as (H41 & H42 & H43).
  apply in_block_columns in Hb5 as (H51 & H52 & H53).
  apply in_block_columns in HB as (HB1 & HB2 & HB3).
  apply in_block_columns in Hb8 as (H81 & H82 & H83).
  destruct (columns_app _ _ _ _ HB1 H81 HB3 H83) as [Hn1 Hf1];
    [apply (bool_decide_unpack _); by vm_compute|].
  destruct (columns_app _ _ _ _ H51 Hn1 H53 Hf1) as [Hn2 Hf2];
    [apply (bool_decide_unpack _); by vm_compute|].
  destruct (columns_app _ _ _ _ H41 Hn2 H43 Hf2) as [Hn3 Hf3];
    [apply (bool_decide_unpack _); by vm_compute|].
  destruct (columns_app _ _ _ _ HA1 Hn3 HA3 Hf3) as [Hn4 Hf4];
    [apply (bool_decide_unpack _); by vm_compute|].
  split_and!.
  - done.
  - apply Forall_forall. intros w Hw. split.
    + assert (Forall (λ w : written, 1 ≤ w.1.1)
                ((w1 ++ w2 ++ w3) ++ w4 ++ w5 ++ (w6 ++ w7) ++ w8)) as Hrows.
      { apply Forall_app; split;
          [eapply Forall_impl; [exact HA2|]; simpl; intros ? Hr; by apply Hr|].
        apply Forall_app; split;
          [eapply Forall_impl; [exact H42|]; simpl; intros ? Hr; by apply Hr|].
        apply Forall_app; split;
          [eapply Forall_impl; [exact H52|]; simpl; intros ? Hr; by apply Hr|].
        apply Forall_app; split;
          (eapply Forall_impl; [first [exact HB2|exact H82]|]);
          simpl; intros ? Hr; by apply Hr. }
      rewrite Forall_forall in Hrows. by apply Hrows.
    + rewrite Forall_forall in Hf4. exact (Hf4 w Hw).
  - apply head_elem_of in Hh1. rewrite !elem_of_app. auto.
  - apply head_elem_of in Hh8. rewrite !elem_of_app. auto 10.
  - apply head_elem_of in Hh4. rewrite !elem_of_app. auto.
  - apply head_elem_of in Hh5. rewrite !elem_of_app. auto.
  - apply head_elem_of in Hh6. rewrite !elem_of_app. auto 10.
  - exists (current_row st1 + 2). split; [lia|].
    apply head_elem_of in Hh2. rewrite !elem_of_app. auto.
  - exists (current_row st2 + 2). split; [lia|].
    apply head_elem_of in Hh3. rewrite !elem_of_app. auto.
  - exists (current_row st6 + 2). split; [lia|].
    apply head_elem_of in Hh7. rewrite !elem_of_app. auto 10.
Qed.


(** *** The values that openpyxl accepts *)

Section workbook_values.
Context (P : cell → Prop).

Lemma write_line_values r c values :
  Forall P values → Forall (λ w : written, P w.2) (write_line r c values).
Proof.
  intros Hvalues. unfold write_line. apply Forall_forall. intros w Hw.
  apply list_elem_of_lookup in Hw as [i Hi]. rewrite list_lookup_imap in Hi.
  destruct (values !! i) as [v|] eqn:Hv; [|done]. simpl in Hi. simplify_eq. simpl.
  by eapply Forall_lookup_1.
Qed.

Lemma write_rows_values c (rows : list (list (string * cell))) st :
  Forall (λ row : list (string * cell), Forall P row.*2) rows →
  Forall (λ w : written, P w.2) st.2 →
  Forall (λ w : written, P w.2) (write_rows c rows st).2.
Proof.
  intros Hrows. revert st.
  induction Hrows as [|row rows Hrow _ IH]; intros st Hst; [done|].
  unfold write_rows in *. simpl. apply IH. simpl.
  apply Forall_app. split; [done|by apply write_line_values].
Qed.

Lemma write_table_values c headers (rows : list (list (string * cell))) st :
  Forall (λ h, P (CVal (VStr h))) headers →
  Forall (λ row : list (string * cell), Forall P row.*2) rows →
  Forall (λ w : written, P w.2) st.2 →
  Forall (λ w : written, P w.2) (write_table c headers rows st).2.
Proof.
  intros Hh Hrows Hst. unfold write_table. apply write_rows_values; [done|]. simpl.
  apply Forall_app. split; [done|]. apply write_line_values. by apply Forall_fmap.
Qed.

Lemma table_values_cells rows :
  table_values P rows → Forall (λ row : list (string * cell), Forall P row.*2) rows.
Proof. intros Hrows. eapply Forall_impl; [exact Hrows|]. by intros row [_ ?]. Qed.

Lemma write_sub_metric_values c by_date st sub_metric_name :
  P (CVal (VStr sub_metric_name)) →
  table_values P (sub_metric_rows by_date sub_metric_name) →
  Forall (λ w : written, P w.2) st.2 →
  Forall (λ w : written, P w.2) (write_sub_metric c by_date st sub_metric_name).2.
Proof.
  intros Hname Hrows Hst. unfold write_sub_metric. cbn [fst snd].
  assert (Forall (λ w : written, P w.2)
            (st.2 ++ [(st.1, c, CVal (VStr sub_metric_name))])) as Hst'
    by (apply Forall_app; split; [done|by apply Forall_singleton]).
  destruct (sub_metric_rows by_date sub_metric_name) as [|row0 rows] eqn:Heq; [done|].
  apply write_table_values; [|by apply table_values_cells|done].
  by apply Forall_cons in Hrows as [[? _] _].
Qed.

Lemma write_metric_values st metric_name metric_data :
  P (CVal (VStr metric_name)) →
  P (CVal (VStr "No Data Available")) →
  match metric_data with
  | MRows rows =>
      Forall (λ h, P (CVal (VStr h))) ["Hour"; "Location"; "Count"]
      ∧ table_values P ((λ row : row_dict, prod_map id CVal <$> row) <$> rows)
  | MNested by_date =>
      ∀ sub_metric_name, sub_metric_name ∈ ["day_of_week_avg"; "date_counts"] →
        P (CVal (VStr sub_metric_name))
        ∧ table_values P (sub_metric_rows by_date sub_metric_name)
  end →
  Forall (λ w : written, P w.2) (cells st) →
  Forall (λ w : written, P w.2) (cells (write_metric st (metric_name, metric_data))).
Proof.
  intros Hname Hnone Hdata Hst. unfold write_metric.
  fold (section_start metric_name st).
  destruct (section_start metric_name st) as [r c].
  assert (Forall (λ w : written, P w.2)
            (cells st ++ [(r, c, CVal (VStr metric_name))])) as Hst'
    by (apply Forall_app; split; [done|by apply Forall_singleton]).
  destruct metric_data as [[|row0 rows]|by_date].
  - cbn [cells]. apply Forall_app. split; [done|by apply Forall_singleton].
  - destruct Hdata as [Hheaders Hrows].
    case_decide; cbn [cells].
    + apply write_table_values; [done|by apply table_values_cells|done].
    + apply write_table_values; [|by apply table_values_cells|done].
      apply Forall_cons in Hrows as [[Hrow0 _] _].
      rewrite <- list_fmap_compose in Hrow0. exact Hrow0.
  - set (subs := if decide (metric_name = "incidents_by_date")
                 then ["day_of_week_avg"; "date_counts"]
                 else ["date_counts"; "day_of_week_avg"]).
    assert (∃ s1 s2, subs = [s1; s2] ∧ s1 ∈ ["day_of_week_avg"; "date_counts"]
                     ∧ s2 ∈ ["day_of_week_avg"; "date_counts"])
      as (s1 & s2 & -> & Hs1 & Hs2).
    { unfold subs. case_decide; eexists _, _; (split; [done|]); split;
        repeat first [apply list_elem_of_here|apply list_elem_of_further]. }
    cbn [foldl cells]. destruct (Hdata s1 Hs1), (Hdata s2 Hs2).
    apply write_sub_metric_values; [done..|].
    by apply write_sub_metric_values.
Qed.

End workbook_values.

Lemma writable_text (s : string) : check_string s = Some s → writable (CVal (VStr s)).
Proof. intros Hs. unfold writable. simpl. rewrite Hs. by eexists. Qed.

Lemma count_rows_values {K} key (cell : K → value) count (table : list (K * nat)) :
  check_string key = Some key → check_string count = Some count →
  Forall (λ v, writable (CVal v)) (cell <$> table.*1) →
  table_values writable
    ((λ row : row_dict, prod_map id CVal <$> row) <$> count_rows key cell count table).
Proof.
  intros Hkey Hcount Hcells. unfold table_values, count_rows.
  rewrite <- list_fmap_compose. apply Forall_fmap, Forall_forall. intros x Hx. simpl.
  split.
  - repeat constructor; by apply writable_text.
  - repeat constructor; [|by eexists].
    rewrite Forall_forall in Hcells. apply Hcells.
    apply list_elem_of_fmap. exists x.1. split; [done|].
    apply list_elem_of_fmap. by exists x.
Qed.

Lemma workbook_calls_writable (m : metrics) :
  Forall (λ v, writable (CVal v)) (texts_of m) →
  Forall (λ w : written, writable w.2) (workbook_calls (metrics_dict m)).
Proof.
  unfold texts_of. rewrite !Forall_app.
  intros (Hgrade & Hloc & Hhour & Hday & Hdate & Hsub & Hstu & Haut & Hlh1 & Hlh2).
  assert (∀ s, check_string s = Some s → writable (CVal (VStr s))) as Htext
    by apply writable_text.
  assert (Forall (λ h, writable (CVal (VStr h))) ["Hour"; "Location"; "Count"]) as Hheaders
    by (repeat constructor; by apply Htext).
  unfold workbook_calls, metrics_dict. cbn [foldl].
  repeat (apply write_metric_values; [by apply Htext|by apply Htext| |]).
  - split; [done|]. unfold table_values, loc_hour_rows.
    rewrite <- list_fmap_compose. apply Forall_fmap, Forall_forall. intros x Hx. simpl.
    rewrite Forall_forall in Hlh1. rewrite Forall_forall in Hlh2.
    split; [repeat constructor; by apply Htext|].
    repeat constructor.
    + apply Hlh1. apply list_elem_of_fmap. exists x.1.1. split; [done|].
      apply list_elem_of_fmap. exists x.1. split; [done|].
      apply list_elem_of_fmap. by exists x.
    + apply Hlh2. apply list_elem_of_fmap. exists x.1. split; [done|].
      apply list_elem_of_fmap. by exists x.
    + by eexists.
  - split; [done|]. apply count_rows_values; [done..|]. by rewrite list_fmap_id.
  - split; [done|]. apply count_rows_values; [done..|]. by rewrite list_fmap_id.
  - split; [done|]. apply count_rows_values; [done..|]. by rewrite list_fmap_id.
  - intros sub Hsub'. split.
    + repeat (apply elem_of_cons in Hsub' as [->|Hsub']; [by apply Htext|]).
      by apply elem_of_nil in Hsub'.
    + unfold table_values, sub_metric_rows.
      repeat (apply elem_of_cons in Hsub' as [->|Hsub']).
      * rewrite decide_False, decide_True by done.
        apply Forall_fmap, Forall_forall. intros x Hx. simpl.
        rewrite Forall_forall in Hday.
        split; [repeat constructor; by apply Htext|].
        repeat constructor; [|by eexists].
        apply Hday. apply list_elem_of_fmap. exists x.1. split; [done|].
        apply list_elem_of_fmap. by exists x.
      * rewrite decide_True by done.
        apply Forall_fmap, Forall_forall. intros x Hx. simpl.
        rewrite Forall_forall in Hdate.
        split; [repeat constructor; by apply Htext|].
        repeat constructor; [|by eexists].
        apply Hdate. apply list_elem_of_fmap. exists x.1. split; [done|].
        apply list_elem_of_fmap. by exists x.
      * by apply elem_of_nil in Hsub'.
  - split; [done|]. apply count_rows_values; [done..|]. done.
  - split; [done|]. apply count_rows_values; [done..|]. by rewrite list_fmap_id.
  - split; [done|]. apply count_rows_values; [done..|]. by rewrite list_fmap_id.
  - constructor.
Qed.

Lemma Forall2_elem_of_l {A B} (R : A → B → Prop) (l : list A) (k : list B) (x : A) :
  Forall2 R l k → x ∈ l → ∃ y, y ∈ k ∧ R x y.
Proof.
  intros HR Hx. apply list_elem_of_lookup in Hx as [i Hi].
  destruct (Forall2_lookup_l _ _ _ _ _ HR Hi) as (y & Hy & Hxy).
  exists y. split; [by eapply list_elem_of_lookup_2|done].
Qed.

(** X17: [write_metrics_to_workbook] binds every value it writes to a
    cell, and openpyxl refuses a text that holds a control character
    other than tab, line feed and carriage return among its first 32767
    characters: the function then fails before it saves the workbook.  It
    returns when every key of the tables is a value that openpyxl
    accepts.  In the sheet that it then saves no cell is written twice, so
    no table overwrites another.  The tables of grade, location and hour
    are stacked in the columns 1 and 2, the hour by location breakdown is
    in the columns 4 to 6, the two date tables in 8 and 9, the subtypes in
    11 and 12, the two rankings stacked in 14 and 15; five of the eight
    titles are in row 1. *)
Theorem workbook_cells_distinct (m : metrics) :
  (∀ ws, write_metrics_to_workbook (metrics_dict m) = Some ws →
     NoDup ws.*1
     ∧ Forall (λ w : written, 1 ≤ w.1.1 ∧ w.1.2 ∈ [1; 2; 8; 9; 11; 12; 14; 15; 4; 5; 6]) ws
     ∧ (1, 1, CVal (VStr "incidents_by_grade")) ∈ ws
     ∧ (1, 4, CVal (VStr "incidents_by_loc_hour")) ∈ ws
     ∧ (1, 8, CVal (VStr "incidents_by_date")) ∈ ws
     ∧ (1, 11, CVal (VStr "incidents_by_subtype")) ∈ ws
     ∧ (1, 14, CVal (VStr "top_students")) ∈ ws
     ∧ (∃ r, 1 < r ∧ (r, 1, CVal (VStr "incidents_by_location")) ∈ ws)
     ∧ (∃ r, 1 < r ∧ (r, 1, CVal (VStr "incidents_by_hour")) ∈ ws)
     ∧ (∃ r, 1 < r ∧ (r, 14, CVal (VStr "top_authors")) ∈ ws))
  ∧ (Forall (λ v, writable (CVal v)) (texts_of m) →
     is_Some (write_metrics_to_workbook (metrics_dict m)))
  ∧ (∀ w, w ∈ workbook_calls (metrics_dict m) → ¬ writable w.2 →
       write_metrics_to_workbook (metrics_dict m) = None)
  ∧ (∀ z, writable (CVal (VInt z))) ∧ writable (CVal VNone) ∧ (∀ x, writable (CFloat x))
  ∧ writable (CVal (VStr ("Room" +:+ String (ascii_of_N 9) "12")))
  ∧ ¬ writable (CVal (VStr ("Room" +:+ String (ascii_of_N 11) "12")))
  ∧ is_Some (write_metrics_to_workbook
               (metrics_dict (mk_metrics [(VStr "7", 2)] [(VStr "Gym", 2)]
                                [("2pm", 2); ("Unknown", 0)]
                                (mk_date_metric [("03/05/2024", 2)] [("Tuesday", 2%Q)])
                                [(VStr "Tardy", 2)] [(VStr "Ann", 2)] [(VStr "Bo", 2)]
                                [("2pm", VStr "Gym", 2)])))
  ∧ write_metrics_to_workbook
      (metrics_dict (mk_metrics [(VStr "7", 2)]
                       [(VStr ("Gym" +:+ String (ascii_of_N 11) ""), 2)]
                       [("2pm", 2); ("Unknown", 0)]
                       (mk_date_metric [("03/05/2024", 2)] [("Tuesday", 2%Q)])
                       [(VStr "Tardy", 2)] [(VStr "Ann", 2)] [(VStr "Bo", 2)]
                       [("2pm", VStr "Gym", 2)]))
    = None.
Proof.
  split_and!.
  - intros ws Hws. unfold write_metrics_to_workbook in Hws.
    apply mapM_Some in Hws.
    assert (ws.*1 = (workbook_calls (metrics_dict m)).*1) as Hpos.
    { induction Hws as [|w w' calls ws Hw _ IH]; [done|]. csimpl. rewrite IH. f_equal.
      destruct (bind_value w.2); simplify_eq/=. done. }
    assert (∀ pos s, check_string s = Some s →
              (pos, CVal (VStr s)) ∈ workbook_calls (metrics_dict m) →
              (pos, CVal (VStr s)) ∈ ws) as Htitle.
    { intros pos s Hs Hin.
      destruct (Forall2_elem_of_l _ _ _ _ Hws Hin) as (w' & Hw' & Hbind).
      simpl in Hbind. rewrite Hs in Hbind. simpl in Hbind. by simplify_eq. }
    destruct (workbook_calls_layout m)
      as (Hnd & Hcols & H1 & H2 & H3 & H4 & H5 & (r6 & Hr6 & H6) & (r7 & Hr7 & H7)
          & (r8 & Hr8 & H8)).
    split_and!.
    + by rewrite Hpos.
    + apply Forall_fmap with (f := fst) (P := λ pos : nat * nat,
        1 ≤ pos.1 ∧ pos.2 ∈ [1; 2; 8; 9; 11; 12; 14; 15; 4; 5; 6]).
      rewrite Hpos. by apply Forall_fmap.
    + by apply Htitle.
    + by apply Htitle.
    + by apply Htitle.
    + by apply Htitle.
    + by apply Htitle.
    + exists r6. split; [done|]. by apply Htitle.
    + exists r7. split; [done|]. by apply Htitle.
    + exists r8. split; [done|]. by apply Htitle.
  - intros Htexts. apply workbook_calls_writable in Htexts.
    unfold write_metrics_to_workbook.
    apply mapM_is_Some. eapply Forall_impl; [exact Htexts|].
    intros w [v Hv]. simpl. rewrite Hv. by eexists.
  - intros w Hw Hbad. unfold write_metrics_to_workbook.
    destruct (mapM _ (workbook_calls (metrics_dict m))) as [ws|] eqn:Hws; [|done].
    apply mapM_Some in Hws.
    destruct (Forall2_elem_of_l _ _ _ _ Hws Hw) as (w' & _ & Hbind).
    exfalso. apply Hbad. unfold writable.
    destruct (bind_value w.2); [by eexists|done].
  - intros z. by eexists.
  - by eexists.
  - intros x. by eexists.
  - apply writable_text. by vm_compute.
  - intros [v Hv]. by vm_compute in Hv.
  - eexists. by vm_compute.
  - by vm_compute.
Qed.

(** ** The accuracy of the averages *)

Lemma round_half_even_bound (n d : Z) :
  (0 < d)%Z → (2 * Z.abs (round_half_even n d * d - n) ≤ d)%Z.
Proof.
  intros Hd. unfold round_half_even.
  pose proof (Z.div_mod n d ltac:(lia)) as Hdm.
  pose proof (Z.mod_pos_bound n d Hd) as Hm.
  set (q := (n / d)%Z) in *. set (r := (n mod d)%Z) in *.
  destruct (2 * r <? d)%Z eqn:H1; [apply Z.ltb_lt in H1; nia|apply Z.ltb_ge in H1].
  destruct (d <? 2 * r)%Z eqn:H2; [apply Z.ltb_lt in H2; nia|apply Z.ltb_ge in H2].
  destruct (Z.even q); nia.
Qed.

Lemma Qabs_diff_bound (m a b : Z) (P : positive) (e : Q) :
  (0 < b)%Z →
  (Z.abs (m * b - a * Z.pos P) * Z.pos (Qden e) ≤ Qnum e * (Z.pos P * b))%Z →
  (Qabs ((m # P) - (a # Z.to_pos b)) <= e)%Q.
Proof.
  intros Hb Hle. apply Qabs_Qle_condition.
  destruct e as [en ed]. unfold Qle, Qminus, Qplus, Qopp. simpl in *.
  rewrite !Pos2Z.inj_mul, !Z2Pos.id by done. split; nia.
Qed.

(** The exponent that [float_of_quotient] computes is not above the
    exponent of the quotient. *)
Lemma quotient_exponent (a b : Z) :
  (0 < a)%Z → (0 < b)%Z →
  let d := (Z.log2 a - Z.log2 b)%Z in
  let e := if (if (0 <=? d)%Z then (b * 2 ^ d <=? a)%Z else (b <=? a * 2 ^ (- d))%Z)
           then d else (d - 1)%Z in
  if (0 <=? 52 - e)%Z then (b * 2 ^ 52 ≤ a * 2 ^ (52 - e))%Z
  else (b * 2 ^ (- (52 - e)) * 2 ^ 52 ≤ a)%Z.
Proof.
  intros Ha Hb d e.
  destruct (Z.log2_spec a Ha) as [Ha1 Ha2]. destruct (Z.log2_spec b Hb) as [Hb1 Hb2].
  pose proof (Z.log2_nonneg a) as Hla. pose proof (Z.log2_nonneg b) as Hlb.
  assert (Z.log2 a = Z.log2 b + d)%Z as Hlab by (unfold d; lia).
  rewrite Hlab in Ha1, Ha2, Hla. clearbody d. clear Hlab.
  rewrite Z.pow_succ_r in Hb2 by done.
  set (B := (2 ^ Z.log2 b)%Z) in *.
  assert (0 < B)%Z as HB by (apply Z.pow_pos_nonneg; lia).
  destruct (0 <=? d)%Z eqn:Hd; [apply Z.leb_le in Hd|apply Z.leb_gt in Hd].
  - rewrite Z.pow_succ_r, Z.pow_add_r in Ha2 by lia.
    rewrite Z.pow_add_r in Ha1 by lia. fold B in Ha1, Ha2.
    assert (0 < 2 ^ d)%Z as HD by (apply Z.pow_pos_nonneg; lia).
    destruct (b * 2 ^ d <=? a)%Z eqn:Hge; [apply Z.leb_le in Hge|apply Z.leb_gt in Hge];
      subst e.
    + destruct (0 <=? 52 - d)%Z eqn:Hs; [apply Z.leb_le in Hs|apply Z.leb_gt in Hs].
      * replace 52%Z with (d + (52 - d))%Z at 1 by lia.
        rewrite Z.pow_add_r by lia.
        assert (0 < 2 ^ (52 - d))%Z by (apply Z.pow_pos_nonneg; lia). nia.
      * replace (- (52 - d))%Z with (d - 52)%Z by lia.
        rewrite <- Z.mul_assoc, <- Z.pow_add_r by lia.
        by replace (d - 52 + 52)%Z with d by lia.
    + assert (b * 2 ^ d ≤ 2 * a)%Z as H2a by nia.
      destruct (0 <=? 52 - (d - 1))%Z eqn:Hs; [apply Z.leb_le in Hs|apply Z.leb_gt in Hs].
      * assert (2 ^ 52 * 2 * 2 ^ d = 2 ^ d * (2 * 2 ^ 52))%Z as _ by lia.
        assert (2 ^ (52 - (d - 1)) * 2 ^ d = 2 * 2 ^ 52)%Z as Hp.
        { rewrite <- Z.pow_add_r by lia. replace (52 - (d - 1) + d)%Z with (Z.succ 52) by lia.
          by rewrite Z.pow_succ_r. }
        assert (0 < 2 ^ (52 - (d - 1)))%Z by (apply Z.pow_pos_nonneg; lia).
        nia.
      * replace (- (52 - (d - 1)))%Z with (d - 53)%Z by lia.
        rewrite <- Z.mul_assoc, <- Z.pow_add_r by lia.
        replace (d - 53 + 52)%Z with (d - 1)%Z by lia.
        assert (2 * 2 ^ (d - 1) = 2 ^ d)%Z as Hp.
        { rewrite <- Z.pow_succ_r by lia. f_equal. lia. }
        nia.
  - assert (B = 2 ^ (Z.log2 b + d) * 2 ^ (- d))%Z as HBd.
    { unfold B. rewrite <- Z.pow_add_r by lia. f_equal. lia. }
    assert (0 < 2 ^ (- d))%Z as HD by (apply Z.pow_pos_nonneg; lia).
    assert (b < 2 * a * 2 ^ (- d))%Z as H2a by nia.
    destruct (b <=? a * 2 ^ (- d))%Z eqn:Hge; [apply Z.leb_le in Hge|apply Z.leb_gt in Hge];
      subst e.
    + rewrite (proj2 (Z.leb_le 0 (52 - d))) by lia.
      replace (52 - d)%Z with (- d + 52)%Z by lia. rewrite Z.pow_add_r by lia.
      nia.
    + rewrite (proj2 (Z.leb_le 0 (52 - (d - 1)))) by lia.
      replace (52 - (d - 1))%Z with (Z.succ (- d + 52)) by lia.
      rewrite Z.pow_succ_r, Z.pow_add_r by lia. nia.
Qed.

Lemma float_of_quotient_bound (a b : Z) :
  (0 < a)%Z → (0 < b)%Z →
  (Qabs (float_of_quotient a b - (a # Z.to_pos b))
   <= (a # Z.to_pos b) * (1 # 2 ^ 53))%Q.
Proof.
  intros Ha Hb. pose proof (quotient_exponent a b Ha Hb) as He. cbv zeta in He.
  unfold float_of_quotient. rewrite (proj2 (Z.eqb_neq a 0)) by lia. cbv zeta.
  set (e := if (if (0 <=? Z.log2 a - Z.log2 b)%Z
                then (b * 2 ^ (Z.log2 a - Z.log2 b) <=? a)%Z
                else (b <=? a * 2 ^ (- (Z.log2 a - Z.log2 b)))%Z)
            then (Z.log2 a - Z.log2 b)%Z else (Z.log2 a - Z.log2 b - 1)%Z) in *.
  clearbody e.
  destruct (0 <=? 52 - e)%Z eqn:Hs; [apply Z.leb_le in Hs|apply Z.leb_gt in Hs];
    rewrite Qred_correct.
  - assert (0 < 2 ^ (52 - e))%Z as Hp by (apply Z.pow_pos_nonneg; lia).
    apply Qabs_diff_bound; [done|].
    pose proof (round_half_even_bound (a * 2 ^ (52 - e)) b Hb) as Hr.
    cbn [Qnum Qden Qmult]. rewrite Pos2Z.inj_mul, !Z2Pos.id by done.
    change (Z.pos (2 ^ 53)) with (2 * 2 ^ 52)%Z. nia.
  - assert (0 < 2 ^ (- (52 - e)))%Z as Hp by (apply Z.pow_pos_nonneg; lia).
    assert (0 < b * 2 ^ (- (52 - e)))%Z as Hbp by nia.
    apply Qabs_diff_bound; [done|].
    pose proof (round_half_even_bound a (b * 2 ^ (- (52 - e))) Hbp) as Hr.
    cbn [Qnum Qden Qmult]. rewrite Pos2Z.inj_mul, !Z2Pos.id by done.
    change (Z.pos (2 ^ 53)) with (2 * 2 ^ 52)%Z.
    set (m := round_half_even a (b * 2 ^ (- (52 - e)))) in *.
    set (P := (2 ^ (- (52 - e)))%Z) in *.
    replace (m * P * b - a * 1)%Z with (m * (b * P) - a)%Z by lia. nia.
Qed.

Lemma round2_bound (x : Q) : (Qabs (round2 x - x) <= 1 # 200)%Q.
Proof.
  unfold round2. rewrite Qred_correct. destruct x as [n d].
  pose proof (round_half_even_bound (n * 100) (Z.pos d) ltac:(lia)) as Hr.
  cbn [Qnum Qden] in *.
  replace (n # d)%Q with (n # Z.to_pos (Z.pos d))%Q by done.
  apply Qabs_diff_bound; [lia|]. cbn [Qnum Qden]. nia.
Qed.


End properties.

(** ** Instances of the properties of dates

    The collections below are evaluated with the database of Unicode
    14.0. *)





